(** * RustGame music downloader: a shallow embedding of [main.py]

    The development follows the layout of the script: text helpers of the
    Python runtime the script relies on, the name sanitizer, the probe
    helpers, the per-item task [process_item], and the driver [main].

    Character model.  A Python [str] is a sequence of code points; here a
    character is an [ascii], read as a code point below 256, and a string is
    a [string].  The classification of characters ([str.isspace], the line
    boundaries of [str.splitlines], [str.lower]) is the one Python applies to
    these code points. *)

From Stdlib Require Import ZArith Ascii String List Bool Lia.
From stdpp Require Import base gmap strings list fin_maps.

Local Open Scope Z_scope.

(** ** Text helpers (the [str] methods used by the script) *)

Module Py.

(** Code point of a character. *)
Definition ord (c : ascii) : N := N_of_ascii c.

(** [str.isspace] on one code point below 256: TAB..CR, FS..US, SPACE,
    NEL (0x85) and NBSP (0xA0). *)
Definition isspace (c : ascii) : bool :=
  let n := ord c in
  ((9 <=? n) && (n <=? 13) || (28 <=? n) && (n <=? 32)
   || (n =? 133) || (n =? 160))%N.

(** The boundaries of [str.splitlines] below 256: LF, VT, FF, CR, FS, GS, RS
    and NEL. *)
Definition islinebreak (c : ascii) : bool :=
  let n := ord c in
  ((10 <=? n) && (n <=? 13) || (28 <=? n) && (n <=? 30) || (n =? 133))%N.

(** [str.lower] on one code point below 256: A..Z and the Latin-1 capitals
    (0xC0..0xDE without the multiplication sign 0xD7) move up by 32. *)
Definition lower_char (c : ascii) : ascii :=
  let n := ord c in
  if ((65 <=? n) && (n <=? 90)
      || (192 <=? n) && (n <=? 222) && negb (n =? 215))%N
  then ascii_of_N (n + 32) else c.

Fixpoint lower (s : string) : string :=
  match s with
  | EmptyString => EmptyString
  | String c s' => String (lower_char c) (lower s')
  end.

(** [c in chars] for a one-character [c]. *)
Fixpoint char_in (c : ascii) (chars : string) : bool :=
  match chars with
  | EmptyString => false
  | String d chars' => Ascii.eqb c d || char_in c chars'
  end.

(** Every character of [s] satisfies [p]. *)
Fixpoint all_chars (p : ascii -> bool) (s : string) : bool :=
  match s with
  | EmptyString => true
  | String c s' => p c && all_chars p s'
  end.

(** Removal of the leading characters that satisfy [p]. *)
Fixpoint lstrip_by (p : ascii -> bool) (s : string) : string :=
  match s with
  | EmptyString => EmptyString
  | String c s' => if p c then lstrip_by p s' else s
  end.

(** Removal of the trailing characters that satisfy [p]. *)
Fixpoint rstrip_by (p : ascii -> bool) (s : string) : string :=
  match s with
  | EmptyString => EmptyString
  | String c s' =>
      match rstrip_by p s' with
      | EmptyString => if p c then EmptyString else String c EmptyString
      | r => String c r
      end
  end.

(** [s.strip()]: whitespace removed at both ends. *)
Definition strip (s : string) : string := rstrip_by isspace (lstrip_by isspace s).

(** [s.rstrip(chars)]: trailing characters of the set [chars] removed. *)
Definition rstrip_chars (chars : string) (s : string) : string :=
  rstrip_by (fun c => char_in c chars) s.

(** [s.startswith(p)] and [s.endswith(p)]. *)
Fixpoint startswith (s p : string) : bool :=
  match p, s with
  | EmptyString, _ => true
  | String a p', String b s' => Ascii.eqb a b && startswith s' p'
  | String _ _, EmptyString => false
  end.

Fixpoint string_rev (s : string) : string :=
  match s with
  | EmptyString => EmptyString
  | String c s' => string_rev s' +:+ String c EmptyString
  end.

Definition endswith (s p : string) : bool :=
  startswith (string_rev s) (string_rev p).

(** [s[:n]]. *)
Fixpoint take (n : nat) (s : string) : string :=
  match n, s with
  | S n', String c s' => String c (take n' s')
  | _, _ => EmptyString
  end.

(** [sep.join(parts)]. *)
Fixpoint join (sep : string) (parts : list string) : string :=
  match parts with
  | [] => EmptyString
  | [p] => p
  | p :: rest => p +:+ sep +:+ join sep rest
  end.

End Py.

(** ** The name sanitizer *)

(** The quotation mark, written by its code. *)
Definition dquote : ascii := "034"%char.

(** [FORBIDDEN]: backslash, slash, colon, star, question mark, quotation
    mark, angle brackets and bar. *)
Definition FORBIDDEN : string := "\/:*?" +:+ String dquote "<>|".

(** The first statement of [sanitize_name]: forbidden characters become
    underscores, one for one. *)
Fixpoint replace_forbidden (name : string) : string :=
  match name with
  | EmptyString => EmptyString
  | String c name' =>
      String (if Py.char_in c FORBIDDEN then "_"%char else c)
             (replace_forbidden name')
  end.

Definition sanitize_name (name : string) : string :=
  let s := replace_forbidden name in
  let s := Py.rstrip_chars "." (Py.strip s) in
  if String.eqb s "" then "untitled" else s.

(** ** More of the runtime: [splitlines], [split], [int], paths *)

Module PyText.

(** [s.splitlines()]: the lines of [s] without their boundaries; CR LF is
    one boundary, and a final boundary opens no new line. *)
Fixpoint splitlines (s : string) : list string :=
  match s with
  | EmptyString => []
  | String c s' =>
      if Py.islinebreak c then
        EmptyString ::
          match s' with
          | String d s'' =>
              if Ascii.eqb c "013" && Ascii.eqb d "010" then splitlines s''
              else splitlines s'
          | EmptyString => []
          end
      else
        match splitlines s' with
        | [] => [String c EmptyString]
        | l :: rest => String c l :: rest
        end
  end.

(** The leading characters of [s] that are not whitespace, and what follows
    them. *)
Fixpoint field (s : string) : string * string :=
  match s with
  | EmptyString => (EmptyString, EmptyString)
  | String c s' =>
      if Py.isspace c then (EmptyString, s)
      else let '(f, r) := field s' in (String c f, r)
  end.

(** [s.split(None, 1)]: at most two fields, separated by the first run of
    whitespace after the first field; leading whitespace is skipped and the
    second field keeps its trailing whitespace. *)
Definition split_ws_1 (s : string) : list string :=
  match Py.lstrip_by Py.isspace s with
  | EmptyString => []
  | s1 =>
      let '(first, after) := field s1 in
      match Py.lstrip_by Py.isspace after with
      | EmptyString => [first]
      | rest => [first; rest]
      end
  end.

Definition isdigit (c : ascii) : bool :=
  ((48 <=? Py.ord c) && (Py.ord c <=? 57))%N.

Definition digit_value (c : ascii) : Z := Z.of_N (Py.ord c) - 48.

(** The digits of an [int] literal in base ten: single underscores are
    allowed between digits. [after_digit] tells whether the previous character
    was a digit. *)
Fixpoint digits (acc : Z) (after_digit : bool) (s : string) : option Z :=
  match s with
  | EmptyString => if after_digit then Some acc else None
  | String c s' =>
      if isdigit c then digits (10 * acc + digit_value c) true s'
      else if Ascii.eqb c "_" && after_digit then digits acc false s'
      else None
  end.

(** [int(s)] for a string: [None] stands for [ValueError].  Surrounding
    whitespace and one sign are accepted.  (The limit that recent
    interpreters put on the number of digits is not modelled.) *)
Definition int (s : string) : option Z :=
  match Py.strip s with
  | String "+" r => digits 0 false r
  | String "-" r => Z.opp <$> digits 0 false r
  | t => digits 0 false t
  end.

End PyText.

(** [os.path] as on POSIX systems. *)
Module Path.

(** [p] cut after its last slash: the head keeps the slash. *)
Fixpoint split_last_slash (p : string) : string * string :=
  match p with
  | EmptyString => (EmptyString, EmptyString)
  | String c p' =>
      let '(h, t) := split_last_slash p' in
      match h with
      | EmptyString =>
          if Ascii.eqb c "/" then (String c EmptyString, p')
          else (EmptyString, String c p')
      | _ => (String c h, t)
      end
  end.

Definition basename (p : string) : string := snd (split_last_slash p).

Definition dirname (p : string) : string :=
  let head := fst (split_last_slash p) in
  if negb (String.eqb head "") && negb (Py.all_chars (Ascii.eqb "/") head)
  then Py.rstrip_chars "/" head else head.

(** [os.path.join(a, b)]. *)
Definition join (a b : string) : string :=
  if Py.startswith b "/" then b
  else if String.eqb a "" || Py.endswith a "/" then a +:+ b
  else a +:+ "/" +:+ b.

End Path.

(** ** Effects: exceptions, state, and the operating system *)

(** An instance of [Exception]: one raised by the runtime or the operating
    system, with the text [str(e)] gives (the texts of system errors are
    shortened), or the [RuntimeError] of [ensure_tools], with the tools it
    lists. *)
Inductive exn : Type :=
| Exn (text : string)
| MissingTools (missing : list string).

Inductive outcome (A : Type) : Type :=
| Ret (a : A)
| Raise (e : exn).
Arguments Ret {A} a.
Arguments Raise {A} e.

(** A computation over a state [S] that returns or raises. *)
Definition M (S A : Type) : Type := S -> outcome A * S.

Definition ret {S A} (a : A) : M S A := fun s => (Ret a, s).

Definition raise {S A} (e : exn) : M S A := fun s => (Raise e, s).

Definition bind {S A B} (m : M S A) (k : A -> M S B) : M S B :=
  fun s =>
    match m s with
    | (Ret a, s1) => k a s1
    | (Raise e, s1) => (Raise e, s1)
    end.

(** [try: m  except Exception as e: h e]. *)
Definition try_except {S A} (m : M S A) (h : exn -> M S A) : M S A :=
  fun s =>
    match m s with
    | (Ret a, s1) => (Ret a, s1)
    | (Raise e, s1) => h e s1
    end.

(** [try: m  finally: c]: [c] runs whether [m] returns or raises, and an
    exception of [c] replaces the outcome of [m]. *)
Definition try_finally {S A} (m : M S A) (c : M S unit) : M S A :=
  fun s =>
    let '(o, s1) := m s in
    match c s1 with
    | (Ret _, s2) => (o, s2)
    | (Raise e, s2) => (Raise e, s2)
    end.

(** [try: m  except Exception: pass]. *)
Definition swallow {S} (m : M S unit) : M S unit :=
  try_except m (fun _ => ret tt).

Declare Scope task_scope.
Delimit Scope task_scope with task.
Notation "'do' x <- m ; k" := (bind m (fun x => k))
  (at level 10, x pattern, m at level 100, k at level 200) : task_scope.
Notation "'do_' m ; k" := (bind m (fun _ => k))
  (at level 10, m at level 100, k at level 200) : task_scope.
Local Open Scope task_scope.

(** A work item is the pair [(url, filename)] of one input line. *)
Definition WorkItem : Type := string * string.

(** The [message] of a result: the script's fixed texts, with the part it
    formats in. *)
Inductive message : Type :=
| MsgOK
| MsgFetchFailed (err : string)       (* yt-dlp failed: err.strip()[:300] *)
| MsgNoTempFile                       (* the fetched file was not found *)
| MsgTranscodeFailed (err : string)   (* ffmpeg failed: err.strip()[:300] *)
| MsgException (e : exn).             (* an exception, with str(e) *)

(** The dict [process_item] returns. *)
Record TaskResult : Type := mkResult {
  success : bool;
  file : string;
  cdn : option string;
  dest : option string;
  msg : message
}.

(** The lines the script prints. *)
Inductive console : Type :=
| PrListMissing (path : string)
| PrAlreadyDone
| PrMalformed (line : string)
| PrNothingToDo
| PrPlan (count cpu threads : Z)
| PrOk (name : string)
| PrFail (name : string) (m : message)
| PrSummary (ok failed : nat).

(** What the file system holds at a path. *)
Inductive node : Type :=
| File (text : string)
| Dir.

(** The operations the script asks of its environment; the log of a run is
    the list of those it has issued, latest first. *)
Inductive event : Type :=
| EvMkdtemp
| EvUuid
| EvRun (cmd : list string)
| EvListdir (d : string)
| EvNow
| EvMove (src dst : string)
| EvRemove (p : string)
| EvRmtree (d : string)
| EvMakedirs (p : string)
| EvWhich (tool : string)
| EvRead (p : string)
| EvWrite (p text : string)
| EvAppend (p text : string)
| EvCpuCount
| EvPool (workers : Z)
| EvPrint (line : console).

(** The file system is keyed by the text of a path: two spellings of one
    path ([music] and [./music]) are two keys.  The statements that compare
    paths are therefore made for paths in normal form, which name the same
    file exactly when they are the same text (see [normal_path] below). *)
Record World : Type := mkWorld {
  w_fs : gmap string node;
  w_log : list event
}.

(** The environment: what the operating system and the external tools answer.
    Every answer may depend on the world at the time of the call.
    [os_fault ev w], when it is [Some e], makes the operation [ev] raise [e]
    instead of running.  [os_rmtree_keeps d w p] tells that the removal of
    the tree at [d] fails to remove [p]. *)
Record Env : Type := mkEnv {
  os_fault : event -> World -> option exn;
  os_mkdtemp : World -> string;
  os_uuid4_hex : World -> string;
  os_run : list string -> World -> (Z * string * string) * gmap string node;
  os_listdir : string -> World -> list string;
  os_now : World -> string;
  os_rmtree_keeps : string -> World -> string -> bool;
  os_which : string -> World -> bool;
  os_getsize : string -> World -> Z;
  os_cpu_count : World -> option Z;
  os_completion_order : list WorkItem -> World -> list WorkItem
}.

(** [under d p]: [p] is [d] or lies below it. *)
Definition under (d p : string) : bool :=
  String.eqb p d || Py.startswith p (d +:+ "/").

Section Primitives.

Variable E : Env.

(** One operation: it is logged, then it raises if the environment says so,
    and otherwise runs [sem], which gives its result and the new file
    system. *)
Definition call {A} (ev : event)
    (sem : World -> outcome A * gmap string node) : M World A :=
  fun w =>
    match os_fault E ev w with
    | Some e => (Raise e, mkWorld (w_fs w) (ev :: w_log w))
    | None => let '(o, fs) := sem w in (o, mkWorld fs (ev :: w_log w))
    end.

(** [tempfile.mkdtemp(prefix="yt_")]. *)
Definition mkdtemp : M World string :=
  call EvMkdtemp (fun w =>
    let d := os_mkdtemp E w in (Ret d, <[d := Dir]> (w_fs w))).

(** [uuid.uuid4().hex]. *)
Definition uuid4_hex : M World string :=
  call EvUuid (fun w => (Ret (os_uuid4_hex E w), w_fs w)).

(** [run_cmd(cmd)]: exit code, standard output and standard error of the
    tool, which may have changed the file system. *)
Definition run_cmd (cmd : list string) : M World (Z * string * string) :=
  call (EvRun cmd) (fun w => let '(r, fs) := os_run E cmd w in (Ret r, fs)).

(** [os.listdir(d)]: the names come in the order the system gives them. *)
Definition listdir (d : string) : M World (list string) :=
  call (EvListdir d) (fun w => (Ret (os_listdir E d w), w_fs w)).

(** [os.path.exists(p)]. *)
Definition path_exists (p : string) : M World bool :=
  fun w => (Ret (bool_decide (is_Some (w_fs w !! p))), w).

(** [datetime.datetime.now().strftime("%Y%m%d%H%M%S%f")]. *)
Definition now_stamp : M World string :=
  call EvNow (fun w => (Ret (os_now E w), w_fs w)).

(** [shutil.move(src, dst)]: a rename; into [dst] when that is a
    directory. *)
Definition move (src dst : string) : M World unit :=
  call (EvMove src dst) (fun w =>
    match w_fs w !! src with
    | None => (Raise (Exn "[Errno 2] No such file or directory"), w_fs w)
    | Some n =>
        match w_fs w !! dst with
        | Some Dir =>
            let target := Path.join dst (Path.basename src) in
            match w_fs w !! target with
            | Some _ => (Raise (Exn "Destination path already exists"), w_fs w)
            | None => (Ret tt, <[target := n]> (delete src (w_fs w)))
            end
        | _ => (Ret tt, <[dst := n]> (delete src (w_fs w)))
        end
    end).

(** [os.remove(p)]. *)
Definition remove (p : string) : M World unit :=
  call (EvRemove p) (fun w =>
    match w_fs w !! p with
    | Some (File _) => (Ret tt, delete p (w_fs w))
    | Some Dir => (Raise (Exn "[Errno 21] Is a directory"), w_fs w)
    | None => (Raise (Exn "[Errno 2] No such file or directory"), w_fs w)
    end).

(** What is left of a file system once the tree at [d] is removed, but for
    the paths of [kept]. *)
Definition without_tree (d : string) (kept : string -> bool)
    (fs : gmap string node) : gmap string node :=
  filter (fun kv => negb (under d kv.1) || kept kv.1 = true) fs.

(** [shutil.rmtree(d, ignore_errors=True)]: it never raises; what it fails
    to remove stays, and the error is ignored. *)
Definition rmtree_ignore_errors (d : string) : M World unit :=
  fun w =>
    (Ret tt,
     mkWorld (without_tree d (os_rmtree_keeps E d w) (w_fs w))
             (EvRmtree d :: w_log w)).

(** [os.makedirs(p, exist_ok=True)].  Only [p] itself is recorded. *)
Definition makedirs (p : string) : M World unit :=
  call (EvMakedirs p) (fun w =>
    match w_fs w !! p with
    | Some Dir => (Ret tt, w_fs w)
    | Some (File _) => (Raise (Exn "[Errno 17] File exists"), w_fs w)
    | None => (Ret tt, <[p := Dir]> (w_fs w))
    end).

(** [shutil.which(tool) is not None]. *)
Definition which (tool : string) : M World bool :=
  call (EvWhich tool) (fun w => (Ret (os_which E tool w), w_fs w)).

(** [os.cpu_count()]. *)
Definition cpu_count : M World (option Z) :=
  call EvCpuCount (fun w => (Ret (os_cpu_count E w), w_fs w)).

(** [print(line)].  The console is taken to accept every line: a stream that
    cannot encode the text is not modelled. *)
Definition print (line : console) : M World unit :=
  fun w => (Ret tt, mkWorld (w_fs w) (EvPrint line :: w_log w)).

(** The line feed. *)
Definition LF : string := String "010" EmptyString.

(** The files are read and written as UTF-8 with a byte-order mark; the text
    of a [File] is the decoded text, without the mark. *)
Definition read_lines_utf8bom (path : string) : M World (list string) :=
  call (EvRead path) (fun w =>
    match w_fs w !! path with
    | Some (File text) => (Ret (PyText.splitlines text), w_fs w)
    | Some Dir => (Raise (Exn "[Errno 21] Is a directory"), w_fs w)
    | None => (Raise (Exn "[Errno 2] No such file or directory"), w_fs w)
    end).

Definition write_lines_utf8bom (path : string) (lines : list string) : M World unit :=
  let text := Py.join LF lines in
  let d := Path.dirname path in
  do_ makedirs (if String.eqb d "" then "." else d);
  call (EvWrite path text) (fun w =>
    match w_fs w !! path with
    | Some Dir => (Raise (Exn "[Errno 21] Is a directory"), w_fs w)
    | _ => (Ret tt, <[path := File text]> (w_fs w))
    end).

(** [os.path.getsize] counts the bytes of the file, mark included: the
    environment gives it. *)
Definition append_line_utf8bom (path line : string) : M World unit :=
  fun w =>
    let text := (if 0 <? os_getsize E path w then LF else "") +:+ line in
    call (EvAppend path text) (fun w =>
      match w_fs w !! path with
      | Some (File old) => (Ret tt, <[path := File (old +:+ text)]> (w_fs w))
      | Some Dir => (Raise (Exn "[Errno 21] Is a directory"), w_fs w)
      | None => (Ret tt, <[path := File text]> (w_fs w))
      end) w.

End Primitives.

(** ** The per-item task *)

(** The state of one run of [process_item]: its local variable [safe_name],
    which the run reassigns and its exception handler reads, and the
    world. *)
Record Frame : Type := mkFrame {
  fr_safe_name : string;
  fr_world : World
}.

(** An operation on the world, run inside a frame. *)
Definition os {A} (m : M World A) : M Frame A :=
  fun f => let '(o, w) := m (fr_world f) in (o, mkFrame (fr_safe_name f) w).

Definition get_safe_name : M Frame string :=
  fun f => (Ret (fr_safe_name f), f).

Definition set_safe_name (n : string) : M Frame unit :=
  fun f => (Ret tt, mkFrame n (fr_world f)).

(** A block with the local variable initialised to [n]. *)
Definition with_safe_name {A} (n : string) (m : M Frame A) : M World A :=
  fun w => let '(o, f) := m (mkFrame n w) in (o, fr_world f).

Section Task.

Variable E : Env.

Definition ffprobe_codec (src_path : string) : M World string :=
  do (code, out, _) <-
    run_cmd E ["ffprobe"; "-v"; "error"; "-select_streams"; "a:0";
               "-show_entries"; "stream=codec_name";
               "-of"; "default=nw=1:nk=1"; src_path];
  if code =? 0 then ret (Py.strip out) else ret "".

Definition ffprobe_bitrate (src_path : string) : M World Z :=
  do (code, out, _) <-
    run_cmd E ["ffprobe"; "-v"; "error"; "-select_streams"; "a:0";
               "-show_entries"; "stream=bit_rate";
               "-of"; "default=nw=1:nk=1"; src_path];
  if code =? 0 then
    do s <- (if String.eqb out "" then ret "0"
             else match PyText.splitlines (Py.strip out) with
                  | l :: _ => ret l
                  | [] => raise (Exn "list index out of range")
                  end);
    match PyText.int s with
    | Some n => ret n
    | None => ret 0
    end
  else ret 0.

(** The result of a failed run. *)
Definition failed (name : string) (m : message) : TaskResult :=
  mkResult false name None None m.

(** The loop over [os.listdir(tmpdir)]: the first name that starts with
    [prefix] gives [src]. *)
Fixpoint find_source (tmpdir prefix : string) (names : list string) : option string :=
  match names with
  | [] => None
  | name :: rest =>
      if Py.startswith name prefix then Some (Path.join tmpdir name)
      else find_source tmpdir prefix rest
  end.

(** The test of the direct move: an [.mp3] name, the codec [mp3], both
    compared in lower case, and a bit rate from 192000 to 192500. *)
Definition direct_move (src codec : string) (bps : Z) : bool :=
  Py.endswith (Py.lower src) ".mp3"
  && String.eqb (Py.lower codec) "mp3"
  && (192000 <=? bps) && (bps <=? 192500).

Definition ffmpeg_cmd (src dest_base : string) : list string :=
  ["ffmpeg"; "-y"; "-i"; src; "-ar"; "48000"; "-ac"; "2"; "-b:a"; "192k"; dest_base].

Definition cdn_url (user repo branch name : string) : string :=
  "https://cdn.jsdelivr.net/gh/" +:+ user +:+ "/" +:+ repo +:+ "@" +:+ branch
  +:+ "/music/" +:+ name +:+ ".mp3".

(** Download and inspection: either the early result of a failed download, or
    the source file with its codec and bit rate. *)
Definition fetch_and_probe (url tmpdir : string)
  : M Frame (TaskResult + string * string * Z) :=
  do hex <- os (uuid4_hex E);
  let base := Path.join tmpdir hex in
  do (code, _, err) <-
    os (run_cmd E ["yt-dlp"; "-f"; "bestaudio"; url; "-o"; base +:+ ".%(ext)s"]);
  if negb (code =? 0) then
    do n <- get_safe_name;
    ret (inl (failed n (MsgFetchFailed (Py.take 300 (Py.strip err)))))
  else
    do names <- os (listdir E tmpdir);
    match find_source tmpdir (Path.basename base +:+ ".") names with
    | None =>
        do n <- get_safe_name; ret (inl (failed n MsgNoTempFile))
    | Some src =>
        do there <- (if String.eqb src "" then ret false else os (path_exists src));
        if negb there then
          do n <- get_safe_name; ret (inl (failed n MsgNoTempFile))
        else
          do codec <- os (ffprobe_codec src);
          do bps <- os (ffprobe_bitrate src);
          ret (inr (src, codec, bps))
    end.

(** The destination: a time stamp is added to [safe_name] when the plain
    name is taken. *)
Definition choose_dest (outdir : string) : M Frame string :=
  do n <- get_safe_name;
  let dest_base := Path.join outdir (n +:+ ".mp3") in
  do taken <- os (path_exists dest_base);
  if taken then
    do ts <- os (now_stamp E);
    do_ set_safe_name (n +:+ "-" +:+ ts);
    do n' <- get_safe_name;
    ret (Path.join outdir (n' +:+ ".mp3"))
  else ret dest_base.

(** Move or transcode: [Some r] is the early result of a failed
    transcoding. *)
Definition deliver (src codec : string) (bps : Z) (dest_base : string)
  : M Frame (option TaskResult) :=
  if direct_move src codec bps then
    do_ os (move E src dest_base);
    ret None
  else
    do (code, _, err) <- os (run_cmd E (ffmpeg_cmd src dest_base));
    do_ swallow (do there <- os (path_exists src);
                 if there then os (remove E src) else ret tt);
    if negb (code =? 0) then
      do n <- get_safe_name;
      ret (Some (failed n (MsgTranscodeFailed (Py.take 300 (Py.strip err)))))
    else ret None.

(** The body of the [try] statement. *)
Definition task_body (url outdir user repo branch tmpdir : string)
  : M Frame TaskResult :=
  do r <- fetch_and_probe url tmpdir;
  match r with
  | inl early => ret early
  | inr (src, codec, bps) =>
      do dest_base <- choose_dest outdir;
      do r' <- deliver src codec bps dest_base;
      match r' with
      | Some early => ret early
      | None =>
          do n <- get_safe_name;
          ret (mkResult true n (Some (cdn_url user repo branch n))
                        (Some dest_base) MsgOK)
      end
  end.

(** The [except] clause. *)
Definition on_exception (e : exn) : M Frame TaskResult :=
  do n <- get_safe_name; ret (failed n (MsgException e)).

(** The [finally] clause. *)
Definition cleanup (tmpdir : string) : M Frame unit :=
  swallow (os (rmtree_ignore_errors E tmpdir)).

Definition process_item (item : WorkItem) (outdir user repo branch : string)
  : M World TaskResult :=
  let '(url, raw_name) := item in
  let safe_name := sanitize_name raw_name in
  do tmpdir <- mkdtemp E;
  with_safe_name safe_name
    (try_finally
       (try_except (task_body url outdir user repo branch tmpdir) on_exception)
       (cleanup tmpdir)).

End Task.

(** ** The driver *)

Definition URLLIST_NAME : string := "done-urllist.txt".
Definition OUTDIR : string := "music".
Definition GITHUB_USER : string := "kenny1108Xiang".
Definition GITHUB_REPO : string := "RustGame".
Definition GITHUB_BRANCH : string := "main".

(** The command line, once parsed: [--list] and [--threads]. *)
Record Args : Type := mkArgs {
  arg_list : string;
  arg_threads : Z
}.

(** [line.strip().lower() == "done"]. *)
Definition is_done (line : string) : bool :=
  String.eqb (Py.lower (Py.strip line)) "done".

(** [next((ln for ln in reversed(lines) if ln.strip() != ""), None)]. *)
Definition last_non_empty (lines : list string) : option string :=
  List.find (fun ln => negb (String.eqb (Py.strip ln) "")) (rev lines).

(** [last_non_empty and last_non_empty.strip().lower() == "done"]. *)
Definition marked_done (last : option string) : bool :=
  match last with
  | Some ln => negb (String.eqb ln "") && is_done ln
  | None => false
  end.

(** [os.cpu_count() or 4]. *)
Definition cpu_or_4 (n : option Z) : Z :=
  match n with
  | Some c => if c =? 0 then 4 else c
  | None => 4
  end.

Definition auto_threads (count cpu : Z) : Z := Z.min count (Z.min (cpu * 3) 24).

(** The number of workers: [auto_threads if args.threads <= 0 else
    args.threads]. *)
Definition threads_for (requested count cpu : Z) : Z :=
  if requested <=? 0 then auto_threads count cpu else requested.

(** One line of the list of results. *)
Definition manifest_line (r : TaskResult) : string :=
  "boombox.serverurllist " +:+ String dquote (file r) +:+ ","
  +:+ match cdn r with Some u => u | None => "None" end
  +:+ String dquote "".

(** The lines for the successful results, in the order of the results. *)
Definition out_lines (results : list TaskResult) : list string :=
  map manifest_line (filter (fun r => success r = true) results).

Section Driver.

Variable E : Env.

(** The working directory becomes the folder of the script, against which
    the paths of the model are read; a failure is ignored. *)
Definition chdir_to_script_root : M World unit := ret tt.

(** The loop of [ensure_tools]: the tools that [shutil.which] does not
    find. *)
Fixpoint missing_tools (tools : list string) (missing : list string)
  : M World (list string) :=
  match tools with
  | [] => ret missing
  | tool :: rest =>
      do found <- which E tool;
      missing_tools rest (if found then missing else missing ++ [tool])
  end.

Definition ensure_tools : M World unit :=
  do missing <- missing_tools ["yt-dlp"; "ffmpeg"; "ffprobe"] [];
  match missing with
  | [] => ret tt
  | _ => raise (MissingTools missing)
  end.

(** The parsing loop of [main]: blank lines are skipped, the first line that
    is [done] ends the loop, a line with fewer than two fields is reported
    and skipped. *)
Fixpoint parse_lines (lines : list string) (items : list WorkItem)
  : M World (list WorkItem) :=
  match lines with
  | [] => ret items
  | line :: rest =>
      if String.eqb (Py.strip line) "" then parse_lines rest items
      else if is_done line then ret items
      else
        match PyText.split_ws_1 line with
        | url :: filename :: _ => parse_lines rest (items ++ [(url, filename)])
        | _ => do_ print (PrMalformed line); parse_lines rest items
        end
  end.

(** The futures still pending when the loop over the completed ones is left
    by an exception: leaving the [with] block waits for them, and their
    results are dropped. *)
Fixpoint run_pending (items : list WorkItem) : M World unit :=
  match items with
  | [] => ret tt
  | it :: rest =>
      do_ try_except
            (do_ process_item E it OUTDIR GITHUB_USER GITHUB_REPO GITHUB_BRANCH;
             ret tt)
            (fun _ => ret tt);
      run_pending rest
  end.

(** The loop over [as_completed]: the tasks are taken one after the other in
    the order in which they complete, each one running as a whole;
    [fut.result()] raises what the task raised. *)
Fixpoint collect (items : list WorkItem) (results : list TaskResult)
  : M World (list TaskResult) :=
  match items with
  | [] => ret results
  | it :: rest =>
      do res <- try_except
                  (process_item E it OUTDIR GITHUB_USER GITHUB_REPO GITHUB_BRANCH)
                  (fun e => do_ run_pending rest; raise e);
      do_ (if success res then print (PrOk (file res))
           else print (PrFail (file res) (msg res)));
      collect rest (results ++ [res])
  end.

(** The [with ThreadPoolExecutor(max_workers=threads)] block. *)
Definition run_pool (threads : Z) (items : list WorkItem)
  : M World (list TaskResult) :=
  do order <- call E (EvPool threads) (fun w =>
    if threads <=? 0
    then (Raise (Exn "max_workers must be greater than 0"), w_fs w)
    else (Ret (os_completion_order E items w), w_fs w));
  collect order [].

(** The end of [main]: the list of results is written, the input list is
    marked, the counts are printed. *)
Definition finish (args : Args) (lines : list string) (last : option string)
    (results : list TaskResult) : M World Z :=
  do_ write_lines_utf8bom E URLLIST_NAME (out_lines results);
  do_ (if negb (marked_done last) then
         try_except (append_line_utf8bom E (arg_list args) "done")
           (fun _ => swallow (write_lines_utf8bom E (arg_list args) (lines ++ ["done"])))
       else ret tt);
  let ok_count := length (filter (fun r => success r = true) results) in
  let fail_count := length (filter (fun r => success r = false) results) in
  do_ print (PrSummary ok_count fail_count);
  ret 0.

Definition main (args : Args) : M World Z :=
  do_ chdir_to_script_root;
  do_ makedirs E OUTDIR;
  do there <- path_exists (arg_list args);
  if negb there then
    do_ print (PrListMissing (arg_list args)); ret 1
  else
    do_ ensure_tools;
    do lines <- read_lines_utf8bom E (arg_list args);
    let last := last_non_empty lines in
    if marked_done last then
      do_ print PrAlreadyDone; ret 0
    else
      do items <- parse_lines lines [];
      match items with
      | [] => do_ print PrNothingToDo; ret 0
      | _ =>
          do n <- cpu_count E;
          let cpu := cpu_or_4 n in
          let threads := threads_for (arg_threads args) (Z.of_nat (length items)) cpu in
          do_ print (PrPlan (Z.of_nat (length items)) cpu threads);
          do results <- run_pool threads items;
          finish args lines last results
      end.

End Driver.

(** ** Vocabulary of the statements *)

Definition first_char (s : string) : option ascii :=
  match s with
  | EmptyString => None
  | String c _ => Some c
  end.

Fixpoint last_char (s : string) : option ascii :=
  match s with
  | EmptyString => None
  | String c EmptyString => Some c
  | String _ s' => last_char s'
  end.

(** The world a frame-level computation ends in. *)
Definition final_world {A} (r : outcome A * Frame) : World := fr_world (snd r).

(** A computation that leaves the local variable [safe_name] as it was. *)
Definition keeps_name {A} (m : M Frame A) : Prop :=
  forall f, fr_safe_name (snd (m f)) = fr_safe_name f.

(** An environment that injects no exception. *)
Definition calm (E : Env) : Prop := forall ev w, os_fault E ev w = None.

(** The operations of a run that ends before any task: they start no tool
    and write to no file. *)
Definition quiet (ev : event) : bool :=
  match ev with
  | EvMakedirs _ | EvWhich _ | EvRead _ | EvPrint _ => true
  | _ => false
  end.

(** One line for each successful result and none for a failed one, in the
    order of the results. *)
Inductive manifest_of : list TaskResult -> list string -> Prop :=
| manifest_nil : manifest_of [] []
| manifest_success r rs ls :
    success r = true -> manifest_of rs ls ->
    manifest_of (r :: rs) (manifest_line r :: ls)
| manifest_failure r rs ls :
    success r = false -> manifest_of rs ls -> manifest_of (r :: rs) ls.

(** ** Sample environments, for concrete runs *)

Module Sample.

Definition hex : string := "9f1c2b7a4d3e4f60a1b2c3d4e5f60718".
Definition tmpdir : string := "/tmp/yt_q0w1".
Definition stamp : string := "20260101120000000000".

(** A file system with an output folder that already holds [a.mp3] and a
    file with the stamped name, and a list of two entries. *)
Definition fs0 : gmap string node :=
  <["music" := Dir]>
  (<["music/a.mp3" := File "first"]>
  (<["music/a-20260101120000000000.mp3" := File "second"]>
  (<["music_download.txt" := File ("https://example.org/v1 a" +:+ LF +:+ "https://example.org/v2 b")]>
  (<["." := Dir]> ∅)))).

Definition w0 : World := mkWorld fs0 [].

(** Tools that succeed: the download leaves [hex.ext] in the temporary
    folder, the probe prints [codec_out] and [rate_out], the transcoder
    writes its last argument. *)
Definition tools (ext codec_out rate_out : string) (cmd : list string) (w : World)
  : (Z * string * string) * gmap string node :=
  if String.eqb (hd "" cmd) "yt-dlp" then
    ((0, "", ""), <[tmpdir +:+ "/" +:+ hex +:+ "." +:+ ext := File "audio"]> (w_fs w))
  else if String.eqb (hd "" cmd) "ffprobe" then
    if String.eqb (nth 6 cmd "") "stream=codec_name"
    then ((0, codec_out, ""), w_fs w)
    else ((0, rate_out, ""), w_fs w)
  else if String.eqb (hd "" cmd) "ffmpeg" then
    ((0, "", ""), <[List.last cmd "" := File "mp3"]> (w_fs w))
  else ((1, "", "unknown tool"), w_fs w).

Definition env (fault : event -> World -> option exn) (kept : string -> bool)
    (ext codec_out rate_out : string) : Env :=
  {| os_fault := fault;
     os_mkdtemp := fun _ => tmpdir;
     os_uuid4_hex := fun _ => hex;
     os_run := tools ext codec_out rate_out;
     os_listdir := fun _ _ => [hex +:+ "." +:+ ext];
     os_now := fun _ => stamp;
     os_rmtree_keeps := fun _ _ => kept;
     os_which := fun _ _ => true;
     os_getsize := fun _ _ => 1;
     os_cpu_count := fun _ => Some 4;
     os_completion_order := fun items _ => items |}.

Definition no_fault : event -> World -> option exn := fun _ _ => None.

(** The removal of a tree removes everything, or fails on the folder
    itself. *)
Definition all_removed : string -> bool := fun _ => false.
Definition folder_stays : string -> bool := fun p => String.eqb p tmpdir.

(** The downloaded file, and the frame in which the body of the task starts
    for the name [name]. *)
Definition src (ext : string) : string := tmpdir +:+ "/" +:+ hex +:+ "." +:+ ext.

Definition frame0 (name : string) : Frame :=
  mkFrame name (mkWorld (<[tmpdir := Dir]> fs0) [EvMkdtemp]).

(** Everything works; the download is a [webm] file with the codec
    [opus]. *)
Definition env_ok : Env := env no_fault all_removed "webm" "opus" "128000".

(** Everything works; the download is an [mp3] file at 192000 bits per
    second whose codec the probe prints in capitals. *)
Definition env_upper : Env := env no_fault all_removed "mp3" "MP3" "192000".

(** Everything works, with an [mp3] download at 192000 bits per second. *)
Definition env_mp3 : Env := env no_fault all_removed "mp3" "mp3" "192000".

(** Everything works, with an [mp3] download at 180000 bits per second. *)
Definition env_180k : Env := env no_fault all_removed "mp3" "mp3" "180000".

(** Everything works but the removal of the temporary folder. *)
Definition env_stuck : Env := env no_fault folder_stays "webm" "opus" "128000".

(** The creation of the temporary folder fails. *)
Definition mkdtemp_fault : event -> World -> option exn :=
  fun ev _ => match ev with
              | EvMkdtemp => Some (Exn "[Errno 28] No space left on device")
              | _ => None
              end.

(** The move to the destination fails. *)
Definition move_fault : event -> World -> option exn :=
  fun ev _ => match ev with
              | EvMove _ _ => Some (Exn "[Errno 13] Permission denied")
              | _ => None
              end.

(** A list without any usable entry and without [done], next to a list of
    results from an earlier run. *)
Definition fs_broken : gmap string node :=
  <["music_download.txt" :=
      File ("https://example.org/v1" +:+ LF +:+ LF +:+ "   " +:+ LF +:+ "orphan")]>
  (<["done-urllist.txt" := File "previous"]>
  (<["." := Dir]> ∅)).

Definition w_broken : World := mkWorld fs_broken [].

Definition args0 : Args := mkArgs "music_download.txt" 0.

(** A successful and a failed result. *)
Definition results2 : list TaskResult :=
  [mkResult true "c" (Some "https://cdn.jsdelivr.net/gh/u/r@b/music/c.mp3")
            (Some "music/c.mp3") MsgOK;
   failed "d" MsgNoTempFile].

(** The removal of the downloaded file, after the transcoding, fails. *)
Definition remove_fault : event -> World -> option exn :=
  fun ev _ => match ev with
              | EvRemove _ => Some (Exn "[Errno 13] Permission denied")
              | _ => None
              end.

Definition item_a : WorkItem := ("https://example.org/v1", "a").
Definition item_c : WorkItem := ("https://example.org/v3", "c").

Definition env_no_tmp : Env := env mkdtemp_fault all_removed "webm" "opus" "128000".

Definition env_no_move : Env := env move_fault all_removed "mp3" "mp3" "192000".

Definition env_no_remove : Env := env remove_fault all_removed "webm" "opus" "128000".

End Sample.


(** ** Vocabulary of the further properties *)

Definition blank (s : string) : Prop := Py.all_chars Py.isspace s = true.

Definition solid (s : string) : Prop :=
  s <> "" /\ Py.all_chars (fun c => negb (Py.isspace c)) s = true.

(** [line] holds the single field [f], between whitespace. *)
Definition one_field (line f : string) : Prop :=
  exists lead trail,
    line = lead +:+ f +:+ trail /\ blank lead /\ blank trail /\ solid f.

(** [line] holds the field [url], then whitespace, then [rest], which starts
    with a character that is not whitespace and runs to the end of the
    line. *)
Definition two_fields (line url rest : string) : Prop :=
  exists lead gap,
    line = lead +:+ url +:+ gap +:+ rest /\
    blank lead /\ blank gap /\ gap <> "" /\ solid url /\
    exists c, first_char rest = Some c /\ Py.isspace c = false.

(** The items of a list of lines, told line by line: a blank line gives
    nothing, a line that is [done] ends the list, a line of two fields gives
    an item, a line of one field gives nothing. *)
Inductive parsed : list string -> list WorkItem -> Prop :=
| parsed_end : parsed [] []
| parsed_blank line rest its :
    blank line -> parsed rest its -> parsed (line :: rest) its
| parsed_done line rest :
    is_done line = true -> parsed (line :: rest) []
| parsed_item line rest url filename its :
    is_done line = false -> two_fields line url filename ->
    parsed rest its -> parsed (line :: rest) ((url, filename) :: its)
| parsed_malformed line rest f its :
    is_done line = false -> one_field line f ->
    parsed rest its -> parsed (line :: rest) its.

(** The tools [ensure_tools] looks for, in its order. *)
Definition TOOLS : list string := ["yt-dlp"; "ffmpeg"; "ffprobe"].

(** The tools of [tools] that [found] does not find. *)
Definition not_found (found : string -> bool) (tools : list string) : list string :=
  List.filter (fun tool => negb (found tool)) tools.

(** The command of [ffprobe_bitrate]. *)
Definition ffprobe_bitrate_cmd (src_path : string) : list string :=
  ["ffprobe"; "-v"; "error"; "-select_streams"; "a:0";
   "-show_entries"; "stream=bit_rate"; "-of"; "default=nw=1:nk=1"; src_path].

(** The command of [ffprobe_codec]. *)
Definition ffprobe_codec_cmd (src_path : string) : list string :=
  ["ffprobe"; "-v"; "error"; "-select_streams"; "a:0";
   "-show_entries"; "stream=codec_name"; "-of"; "default=nw=1:nk=1"; src_path].

(** ** More sample environments *)

Module Sample2.

(** The environment [Sample.env_ok] with another answer of [shutil.which]. *)
Definition env_tools (found : string -> bool) : Env :=
  {| os_fault := Sample.no_fault;
     os_mkdtemp := os_mkdtemp Sample.env_ok;
     os_uuid4_hex := os_uuid4_hex Sample.env_ok;
     os_run := os_run Sample.env_ok;
     os_listdir := os_listdir Sample.env_ok;
     os_now := os_now Sample.env_ok;
     os_rmtree_keeps := os_rmtree_keeps Sample.env_ok;
     os_which := fun tool _ => found tool;
     os_getsize := os_getsize Sample.env_ok;
     os_cpu_count := os_cpu_count Sample.env_ok;
     os_completion_order := os_completion_order Sample.env_ok |}.

(** Only the download tool is installed. *)
Definition only_ytdlp (tool : string) : bool := String.eqb tool "yt-dlp".

(** A list that a run has marked. *)
Definition fs_marked : gmap string node :=
  <["music_download.txt" :=
      File ("https://example.org/v1 a" +:+ LF +:+ "Done " +:+ LF +:+ "  ")]>
  (<["done-urllist.txt" := File "previous"]>
  (<["." := Dir]> ∅)).

Definition w_marked : World := mkWorld fs_marked [].

(** A folder without the list. *)
Definition w_empty : World := mkWorld (<["." := Dir]> ∅) [].

End Sample2.

Module Sample3.

(** Everything works, but the probe prints a blank line for the bit rate. *)
Definition env_blank_rate : Env :=
  Sample.env Sample.no_fault Sample.all_removed "mp3" "mp3" (" " +:+ LF).

(** Two entries, a remark and blank lines. *)
Definition lines_mixed : list string :=
  ["https://example.org/v1   first  song "; ""; "remark"; "  ";
   "https://example.org/v2 second"].

(** Neither appending to the list nor rewriting it works. *)
Definition mark_fault : event -> World -> option exn :=
  fun ev _ => match ev with
              | EvAppend _ _ => Some (Exn "[Errno 13] Permission denied")
              | EvWrite p _ =>
                  if String.eqb p "music_download.txt"
                  then Some (Exn "[Errno 13] Permission denied") else None
              | _ => None
              end.

Definition env_no_mark : Env :=
  Sample.env mark_fault Sample.all_removed "webm" "opus" "128000".

(** The download fails. *)
Definition failing_tools (cmd : list string) (w : World)
  : (Z * string * string) * gmap string node :=
  ((1, "", " ERROR: Video unavailable "), w_fs w).

Definition env_no_download : Env :=
  {| os_fault := Sample.no_fault;
     os_mkdtemp := os_mkdtemp Sample.env_ok;
     os_uuid4_hex := os_uuid4_hex Sample.env_ok;
     os_run := failing_tools;
     os_listdir := os_listdir Sample.env_ok;
     os_now := os_now Sample.env_ok;
     os_rmtree_keeps := os_rmtree_keeps Sample.env_ok;
     os_which := os_which Sample.env_ok;
     os_getsize := os_getsize Sample.env_ok;
     os_cpu_count := os_cpu_count Sample.env_ok;
     os_completion_order := os_completion_order Sample.env_ok |}.

End Sample3.

(** A computation that, started under the name [n], can only return values
    of [Q]. *)
Definition at_name {A} (n : string) (Q : A -> Prop) (m : M Frame A) : Prop :=
  forall f a f', fr_safe_name f = n -> m f = (Ret a, f') -> Q a.

(** A failure under the name [n]. *)
Definition failure_named (n : string) (r : TaskResult) : Prop :=
  exists m, r = failed n m /\ m <> MsgOK.

(** The names a result of the item named [raw] can have: the sanitized name,
    alone or followed by a hyphen and a time stamp. *)
Definition name_of (raw name : string) : Prop :=
  name = sanitize_name raw \/ exists ts, name = sanitize_name raw +:+ "-" +:+ ts.

(** The folder that [write_lines_utf8bom] makes before it writes [path]:
    [os.path.dirname(path) or "."]. *)
Definition folder_of (path : string) : string :=
  if String.eqb (Path.dirname path) "" then "." else Path.dirname path.

(** A string that can be one line of a file: it holds no line boundary. *)
Definition one_line (s : string) : Prop :=
  Py.all_chars (fun c => negb (Py.islinebreak c)) s = true.

(** The command of the download. *)
Definition ytdlp_cmd (url base : string) : list string :=
  ["yt-dlp"; "-f"; "bestaudio"; url; "-o"; base +:+ ".%(ext)s"].

(** A computation over a state with a log [lg] that only adds to the log, and
    only events of [P]. *)
Definition adds {S A} (lg : S -> list event) (P : event -> Prop) (m : M S A) : Prop :=
  forall s, exists new, lg (snd (m s)) = new ++ lg s /\ Forall P new.

(** The log of a frame. *)
Definition fr_log (f : Frame) : list event := w_log (fr_world f).

(** What a task may ask of its environment. *)
Definition task_event (ev : event) : Prop :=
  match ev with
  | EvMkdtemp | EvUuid | EvRun _ | EvListdir _ | EvNow
  | EvMove _ _ | EvRemove _ | EvRmtree _ => True
  | _ => False
  end.

(** What a task asks up to the end of the inspection: neither a move nor a
    run of the transcoder. *)
Definition probe_event (ev : event) : Prop :=
  match ev with
  | EvUuid | EvListdir _ => True
  | EvRun cmd => hd "" cmd <> "ffmpeg"
  | _ => False
  end.

Module Sample4.

(** Appending to a file fails; everything else works. *)
Definition append_fault : event -> World -> option exn :=
  fun ev _ => match ev with
              | EvAppend _ _ => Some (Exn "[Errno 13] Permission denied")
              | _ => None
              end.

Definition env_no_append : Env :=
  Sample.env append_fault Sample.all_removed "webm" "opus" "128000".

End Sample4.

(** ** Vocabulary of the statements on whole runs *)

(** The components of a path, between its slashes. *)
Fixpoint components (p : string) : list string :=
  match p with
  | EmptyString => [EmptyString]
  | String c p' =>
      if Ascii.eqb c "/" then EmptyString :: components p'
      else match components p' with
           | [] => [String c EmptyString]
           | x :: rest => String c x :: rest
           end
  end.

(** A relative path in normal form: no component is empty, [.] or [..], so
    the path neither starts nor ends with a slash.  On a file system that
    tells upper case from lower case and holds no link, two such paths name
    the same file exactly when they are the same text, which is how the
    model tells files apart. *)
Definition normal_path (p : string) : bool :=
  forallb (fun c => negb (String.eqb c "" || String.eqb c "." || String.eqb c ".."))
          (components p).

(** An environment that injects no exception outside the tasks: whatever
    fails, fails inside [process_item]. *)
Definition calm_outside_tasks (E : Env) : Prop :=
  forall ev w, ~ task_event ev -> os_fault E ev w = None.

(** The part of [main] that comes before the pool: it gives the exit code of
    a run that ends there, or else what the rest of [main] uses: the lines of
    the list, the last of them that is not blank, the items and the number
    of workers. *)
Definition main_to_pool (E : Env) (args : Args)
  : M World (Z + list string * option string * list WorkItem * Z) :=
  do_ chdir_to_script_root;
  do_ makedirs E OUTDIR;
  do there <- path_exists (arg_list args);
  if negb there then
    do_ print (PrListMissing (arg_list args)); ret (inl 1)
  else
    do_ ensure_tools E;
    do lines <- read_lines_utf8bom E (arg_list args);
    let last := last_non_empty lines in
    if marked_done last then
      do_ print PrAlreadyDone; ret (inl 0)
    else
      do items <- parse_lines lines [];
      match items with
      | [] => do_ print PrNothingToDo; ret (inl 0)
      | _ =>
          do n <- cpu_count E;
          let cpu := cpu_or_4 n in
          let threads := threads_for (arg_threads args) (Z.of_nat (length items)) cpu in
          do_ print (PrPlan (Z.of_nat (length items)) cpu threads);
          ret (inr (lines, last, items, threads))
      end.

(** Every operation but the creation of a pool. *)
Definition not_pool (ev : event) : Prop :=
  match ev with
  | EvPool _ => False
  | _ => True
  end.

(** The frame in which the body of the [try] statement of [process_item]
    starts, for the item named [raw] and a run started in the world [w]: the
    temporary folder is made and the name is the sanitized one. *)
Definition body_frame (E : Env) (raw : string) (w : World) : Frame :=
  mkFrame (sanitize_name raw)
          (mkWorld (<[os_mkdtemp E w := Dir]> (w_fs w)) (EvMkdtemp :: w_log w)).

(** The steps of the body of the [try] statement of [process_item], as far as
    they can raise. *)
Section Steps.

Variable E : Env.
Variables url outdir tmpdir : string.

(** The download has left [src] in the temporary folder: the random name is
    drawn, the download tool has exited with 0, the folder is listed, the
    first name with the prefix gives [src], and [src] exists.  [f3] is the
    frame after the listing. *)
Definition fetched (f0 : Frame) (src : string) (f3 : Frame) : Prop :=
  exists hex f1 out err f2 names,
    os (uuid4_hex E) f0 = (Ret hex, f1) /\
    os (run_cmd E (ytdlp_cmd url (Path.join tmpdir hex))) f1 = (Ret (0, out, err), f2) /\
    os (listdir E tmpdir) f2 = (Ret names, f3) /\
    find_source tmpdir (Path.basename (Path.join tmpdir hex) +:+ ".") names = Some src /\
    src <> "" /\ is_Some (w_fs (fr_world f3) !! src).

(** [step_raises f0 e f']: in the body started in the frame [f0], the steps
    before it having returned, one of these steps raises [e] and leaves the
    frame [f']: the draw of the random name, the download, the listing, the
    run of either probe, the reading of the first line of the bit rate, the
    time stamp, the move, the run of the transcoder.  The removal of the
    downloaded file after the transcoding is not one of them. *)
Inductive step_raises (f0 : Frame) (e : exn) (f' : Frame) : Prop :=
| raises_uuid :
    os (uuid4_hex E) f0 = (Raise e, f') ->
    step_raises f0 e f'
| raises_download hex f1 :
    os (uuid4_hex E) f0 = (Ret hex, f1) ->
    os (run_cmd E (ytdlp_cmd url (Path.join tmpdir hex))) f1 = (Raise e, f') ->
    step_raises f0 e f'
| raises_listing hex f1 out err f2 :
    os (uuid4_hex E) f0 = (Ret hex, f1) ->
    os (run_cmd E (ytdlp_cmd url (Path.join tmpdir hex))) f1 = (Ret (0, out, err), f2) ->
    os (listdir E tmpdir) f2 = (Raise e, f') ->
    step_raises f0 e f'
| raises_codec src f3 :
    fetched f0 src f3 ->
    os (run_cmd E (ffprobe_codec_cmd src)) f3 = (Raise e, f') ->
    step_raises f0 e f'
| raises_bitrate src f3 codec f4 :
    fetched f0 src f3 ->
    os (ffprobe_codec E src) f3 = (Ret codec, f4) ->
    os (run_cmd E (ffprobe_bitrate_cmd src)) f4 = (Raise e, f') ->
    step_raises f0 e f'
| raises_bitrate_line src f3 codec f4 out err :
    fetched f0 src f3 ->
    os (ffprobe_codec E src) f3 = (Ret codec, f4) ->
    os (run_cmd E (ffprobe_bitrate_cmd src)) f4 = (Ret (0, out, err), f') ->
    out <> "" -> PyText.splitlines (Py.strip out) = [] ->
    e = Exn "list index out of range" ->
    step_raises f0 e f'
| raises_stamp src codec bps f5 :
    fetch_and_probe E url tmpdir f0 = (Ret (inr (src, codec, bps)), f5) ->
    is_Some (w_fs (fr_world f5) !! Path.join outdir (fr_safe_name f5 +:+ ".mp3")) ->
    os (now_stamp E) f5 = (Raise e, f') ->
    step_raises f0 e f'
| raises_move src codec bps f5 dest_base f6 :
    fetch_and_probe E url tmpdir f0 = (Ret (inr (src, codec, bps)), f5) ->
    choose_dest E outdir f5 = (Ret dest_base, f6) ->
    direct_move src codec bps = true ->
    os (move E src dest_base) f6 = (Raise e, f') ->
    step_raises f0 e f'
| raises_transcode src codec bps f5 dest_base f6 :
    fetch_and_probe E url tmpdir f0 = (Ret (inr (src, codec, bps)), f5) ->
    choose_dest E outdir f5 = (Ret dest_base, f6) ->
    direct_move src codec bps = false ->
    os (run_cmd E (ffmpeg_cmd src dest_base)) f6 = (Raise e, f') ->
    step_raises f0 e f'.

End Steps.

Module Sample5.

(** The listing of the temporary folder fails. *)
Definition listdir_fault : event -> World -> option exn :=
  fun ev _ => match ev with
              | EvListdir _ => Some (Exn "[Errno 5] Input/output error")
              | _ => None
              end.

Definition env_no_listing : Env :=
  Sample.env listdir_fault Sample.all_removed "webm" "opus" "128000".

(** The transcoder cannot be started. *)
Definition ffmpeg_fault : event -> World -> option exn :=
  fun ev _ => match ev with
              | EvRun cmd =>
                  if String.eqb (hd "" cmd) "ffmpeg"
                  then Some (Exn "[Errno 8] Exec format error") else None
              | _ => None
              end.

Definition env_no_ffmpeg : Env :=
  Sample.env ffmpeg_fault Sample.all_removed "webm" "opus" "128000".

(** A folder in which the list of one entry is the file [done-urllist.txt]
    itself. *)
Definition fs_same : gmap string node :=
  <["done-urllist.txt" := File "https://example.org/v3 c"]> (<["." := Dir]> ∅).

Definition w_same : World := mkWorld fs_same [].

Definition args_same : Args := mkArgs "done-urllist.txt" 0.

(** The result of the entry [c] when everything works. *)
Definition result_c : TaskResult :=
  mkResult true "c"
    (Some "https://cdn.jsdelivr.net/gh/kenny1108Xiang/RustGame@main/music/c.mp3")
    (Some "music/c.mp3") MsgOK.

(** A folder with a list of one entry and a list of results from an earlier
    run. *)
Definition fs_one : gmap string node :=
  <["music_download.txt" := File "https://example.org/v3 c"]>
  (<["done-urllist.txt" := File "previous"]>
  (<["." := Dir]> ∅)).

Definition w_one : World := mkWorld fs_one [].


End Sample5.
(** * Properties *)

(** ** Text helpers *)

Lemma app_cons c s t : String c s +:+ t = String c (s +:+ t).
Proof. reflexivity. Qed.

Lemma app_nil_l t : "" +:+ t = t.
Proof. reflexivity. Qed.

Section StripFacts.
Variable p : ascii -> bool.
Lemma char_in_app c s t :
  Py.char_in c (s +:+ t) = Py.char_in c s || Py.char_in c t.
Proof.
  induction s as [|d s IH]; [reflexivity|].
  rewrite app_cons. simpl. rewrite IH. now rewrite orb_assoc.
Qed.

(** Stripping on the left removes a prefix of characters of [p] and stops at
    a character outside it. *)
Lemma lstrip_by_split s :
  exists lead,
    s = lead +:+ Py.lstrip_by p s /\ Py.all_chars p lead = true /\
    (forall c, first_char (Py.lstrip_by p s) = Some c -> p c = false).
Proof.
  induction s as [|c s (lead & Hs & Hall & Hfirst)]; simpl.
  - exists EmptyString. repeat split; simpl; congruence.
  - destruct (p c) eqn:Hc.
    + exists (String c lead). rewrite app_cons, <- Hs. simpl. rewrite Hc, Hall.
      repeat split; assumption.
    + exists EmptyString. rewrite app_nil_l. repeat split.
      simpl. intros d [= <-]. assumption.
Qed.

(** Stripping on the right removes a suffix of characters of [p] and stops at
    a character outside it. *)
Lemma rstrip_by_split s :
  exists trail,
    s = Py.rstrip_by p s +:+ trail /\ Py.all_chars p trail = true /\
    (forall c, last_char (Py.rstrip_by p s) = Some c -> p c = false).
Proof.
  induction s as [|c s (trail & Hs & Hall & Hlast)]; simpl.
  - exists EmptyString. repeat split; simpl; congruence.
  - destruct (Py.rstrip_by p s) as [|d r] eqn:Hr.
    + rewrite app_nil_l in Hs. subst trail. destruct (p c) eqn:Hc.
      * exists (String c s). rewrite app_nil_l. simpl. rewrite Hc, Hall.
        repeat split; congruence.
      * exists s. rewrite app_cons, app_nil_l. repeat split; [assumption|].
        simpl. intros d [= <-]. assumption.
    + exists trail. rewrite app_cons, <- Hs. repeat split; [assumption|].
      exact Hlast.
Qed.

(** Stripping on the right keeps a first character that is outside [p]. *)
Lemma rstrip_by_first s c :
  first_char s = Some c -> p c = false -> first_char (Py.rstrip_by p s) = Some c.
Proof.
  destruct s as [|d s]; simpl; [congruence|].
  intros [= ->] Hc. destruct (Py.rstrip_by p s); [rewrite Hc|]; reflexivity.
Qed.

Lemma char_in_lstrip_by c s :
  Py.char_in c (Py.lstrip_by p s) = true -> Py.char_in c s = true.
Proof.
  destruct (lstrip_by_split s) as (lead & Hs & _). intros H.
  rewrite Hs, char_in_app, H. apply orb_true_r.
Qed.

Lemma char_in_rstrip_by c s :
  Py.char_in c (Py.rstrip_by p s) = true -> Py.char_in c s = true.
Proof.
  destruct (rstrip_by_split s) as (trail & Hs & _). intros H.
  rewrite Hs, char_in_app, H. reflexivity.
Qed.

End StripFacts.

(** ** The name sanitizer *)

Lemma replace_forbidden_length name :
  String.length (replace_forbidden name) = String.length name.
Proof. induction name; simpl; congruence. Qed.

Lemma replace_forbidden_get name i c :
  String.get i name = Some c ->
  String.get i (replace_forbidden name)
  = Some (if Py.char_in c FORBIDDEN then "_"%char else c).
Proof.
  revert i. induction name as [|d name IH]; intros [|i]; cbn -[FORBIDDEN];
    try discriminate.
  - intros [= ->]. reflexivity.
  - apply IH.
Qed.

Lemma all_chars_char_in q s c :
  Py.all_chars q s = true -> Py.char_in c s = true -> q c = true.
Proof.
  induction s as [|d s IH]; simpl; [discriminate|].
  intros [Hd Hs]%andb_true_iff [H|H]%orb_true_iff; [|auto].
  apply Ascii.eqb_eq in H. now subst.
Qed.

Lemma replace_forbidden_clean name c :
  Py.char_in c (replace_forbidden name) = true -> Py.char_in c FORBIDDEN = false.
Proof.
  induction name as [|d name IH]; cbn -[FORBIDDEN]; [discriminate|].
  intros [H|H]%orb_true_iff; [|auto].
  apply Ascii.eqb_eq in H. subst c.
  destruct (Py.char_in d FORBIDDEN) eqn:Hd; [reflexivity|assumption].
Qed.

(** C3.  [sanitize_name] replaces every forbidden character by an underscore,
    one for one; it then removes the whitespace at both ends and, after
    that, the trailing periods; it returns what is left, or [untitled] when
    nothing is left.  The result is never empty and holds no forbidden
    character. *)
Theorem sanitize_name_spec (name : string) :
  let replaced := replace_forbidden name in
  let trimmed := Py.rstrip_chars "." (Py.strip replaced) in
  (String.length replaced = String.length name /\
   forall i c, String.get i name = Some c ->
     String.get i replaced = Some (if Py.char_in c FORBIDDEN then "_"%char else c)) /\
  (exists lead dots trail,
     replaced = lead +:+ (trimmed +:+ dots) +:+ trail /\
     Py.all_chars Py.isspace lead = true /\
     Py.all_chars Py.isspace trail = true /\
     Py.all_chars (fun c => Py.char_in c ".") dots = true /\
     (forall c, first_char (trimmed +:+ dots) = Some c -> Py.isspace c = false) /\
     (forall c, last_char (trimmed +:+ dots) = Some c -> Py.isspace c = false) /\
     (forall c, last_char trimmed = Some c -> c <> "."%char)) /\
  sanitize_name name = (if String.eqb trimmed "" then "untitled" else trimmed) /\
  sanitize_name name <> "" /\
  (forall c, Py.char_in c (sanitize_name name) = true -> Py.char_in c FORBIDDEN = false).
Proof.
  intros replaced trimmed. split; [|split; [|split; [|split]]].
  - split; [apply replace_forbidden_length|apply replace_forbidden_get].
  - destruct (lstrip_by_split Py.isspace replaced) as (lead & Hl & Hlead & Hfirst).
    destruct (rstrip_by_split Py.isspace (Py.lstrip_by Py.isspace replaced))
      as (trail & Hr & Htrail & Hlast).
    destruct (rstrip_by_split (fun c => Py.char_in c ".") (Py.strip replaced))
      as (dots & Hd & Hdots & Hend).
    change (Py.rstrip_by _ (Py.strip replaced)) with trimmed in Hd, Hend.
    exists lead, dots, trail. rewrite <- Hd.
    repeat split; try assumption.
    + unfold Py.strip. rewrite <- Hr. exact Hl.
    + intros c Hc. unfold Py.strip in Hc.
      destruct (Py.lstrip_by Py.isspace replaced) as [|d r] eqn:Hs; [discriminate|].
      rewrite (rstrip_by_first Py.isspace (String d r) d) in Hc;
        [injection Hc as <-| |]; auto.
    + intros c Hc ->. specialize (Hend _ Hc). discriminate.
  - reflexivity.
  - unfold sanitize_name. fold replaced trimmed.
    destruct (String.eqb_spec trimmed ""); [discriminate|assumption].
  - intros c. unfold sanitize_name. fold replaced trimmed.
    destruct (String.eqb trimmed "").
    + intros H. apply negb_true_iff.
      now apply (all_chars_char_in (fun c => negb (Py.char_in c FORBIDDEN)) "untitled").
    + intros H. apply (replace_forbidden_clean name).
      apply (char_in_lstrip_by Py.isspace), (char_in_rstrip_by Py.isspace).
      now apply (char_in_rstrip_by (fun c => Py.char_in c ".")).
Qed.

(** C10.  Some name without forbidden characters is sanitized to a name that
    ends in whitespace: ["a ."] gives ["a "], the period being removed after
    the whitespace was trimmed.  Sanitizing that result again gives another
    name, so [sanitize_name] is not idempotent. *)
Theorem sanitize_name_may_end_in_space :
  exists name,
    Py.all_chars (fun c => negb (Py.char_in c FORBIDDEN)) name = true /\
    sanitize_name name = "a " /\
    (exists c, last_char (sanitize_name name) = Some c /\ Py.isspace c = true) /\
    sanitize_name (sanitize_name name) <> sanitize_name name.
Proof.
  exists "a .". repeat split.
  - exists " "%char. split; reflexivity.
  - discriminate.
Qed.


(** ** The parsing loop *)

Lemma parse_lines_cons line rest items :
  parse_lines (line :: rest) items =
  if String.eqb (Py.strip line) "" then parse_lines rest items
  else if is_done line then ret items
  else
    match PyText.split_ws_1 line with
    | url :: filename :: _ => parse_lines rest (items ++ [(url, filename)])
    | _ => do_ print (PrMalformed line); parse_lines rest items
    end.
Proof. reflexivity. Qed.

(** A line that is [done] is not blank. *)
Lemma is_done_not_blank l :
  is_done l = true -> String.eqb (Py.strip l) "" = false.
Proof.
  unfold is_done. destruct (Py.strip l); [discriminate|reflexivity].
Qed.

(** C4.  A line that reads [done] once trimmed and put in lower case ends the
    parsing: the items are those of the lines before it, whatever follows
    it. *)
Theorem parse_stops_at_done (pre post : list string) (l : string)
    (items : list WorkItem) (w : World) :
  is_done l = true ->
  parse_lines (pre ++ l :: post) items w = parse_lines pre items w.
Proof.
  intros Hl. revert items w.
  induction pre as [|line pre IH]; intros items w.
  - change ([] ++ l :: post) with (l :: post).
    rewrite parse_lines_cons, (is_done_not_blank l Hl), Hl. reflexivity.
  - change ((line :: pre) ++ l :: post) with (line :: (pre ++ l :: post)).
    rewrite !parse_lines_cons.
    destruct (String.eqb (Py.strip line) ""); [apply IH|].
    destruct (is_done line); [reflexivity|].
    destruct (PyText.split_ws_1 line) as [|url [|filename parts]].
    + unfold bind. destruct (print (PrMalformed line) w) as [[[]|e] w1]; [apply IH|reflexivity].
    + unfold bind. destruct (print (PrMalformed line) w) as [[[]|e] w1]; [apply IH|reflexivity].
    + apply IH.
Qed.

Lemma parse_stops_at_done_witness :
  is_done " DoNe " = true /\
  parse_lines (["https://example.org/v1 a"; "broken"] ++ " DoNe " :: ["https://example.org/v2 b"])
              [] Sample.w0
  = parse_lines ["https://example.org/v1 a"; "broken"] [] Sample.w0 /\
  fst (parse_lines ["https://example.org/v1 a"; "broken"; " DoNe "; "https://example.org/v2 b"]
                   [] Sample.w0)
  = Ret [("https://example.org/v1", "a")].
Proof.
  split; [reflexivity|]. split.
  - apply (parse_stops_at_done ["https://example.org/v1 a"; "broken"]
             ["https://example.org/v2 b"] " DoNe " [] Sample.w0).
    reflexivity.
  - reflexivity.
Defined.

(** ** Operations in a calm environment *)

Lemma call_calm E {A} ev (sem : World -> outcome A * gmap string node) w :
  calm E ->
  call E ev sem w = (fst (sem w), mkWorld (snd (sem w)) (ev :: w_log w)).
Proof.
  intros HE. unfold call. rewrite HE. now destruct (sem w).
Qed.

Lemma bind_ret_l {S A B} (m : M S A) (k : A -> M S B) s a s1 :
  m s = (Ret a, s1) -> bind m k s = k a s1.
Proof. intros H. unfold bind. now rewrite H. Qed.

Lemma bind_raise_l {S A B} (m : M S A) (k : A -> M S B) s e s1 :
  m s = (Raise e, s1) -> bind m k s = (Raise e, s1).
Proof. intros H. unfold bind. now rewrite H. Qed.

(** The parsing loop returns, prints at most, and leaves the files alone. *)
Lemma parse_lines_world lines : forall items w,
  exists its new,
    parse_lines lines items w = (Ret its, mkWorld (w_fs w) (new ++ w_log w)) /\
    Forall (fun ev => quiet ev = true) new.
Proof.
  induction lines as [|line rest IH]; intros items w.
  - exists items, []. destruct w. split; [reflexivity|constructor].
  - rewrite parse_lines_cons.
    destruct (String.eqb (Py.strip line) ""); [apply IH|].
    destruct (is_done line).
    { exists items, []. destruct w. split; [reflexivity|constructor]. }
    assert (Hskip : exists its new,
      (do_ print (PrMalformed line); parse_lines rest items) w
      = (Ret its, mkWorld (w_fs w) (new ++ w_log w)) /\
      Forall (fun ev => quiet ev = true) new).
    { unfold bind, print.
      destruct (IH items (mkWorld (w_fs w) (EvPrint (PrMalformed line) :: w_log w)))
        as (its & new & Hrun & Hq).
      exists its, (new ++ [EvPrint (PrMalformed line)]). split.
      - rewrite Hrun. simpl. now rewrite <- app_assoc.
      - apply Forall_app. split; [assumption|]. repeat constructor. }
    destruct (PyText.split_ws_1 line) as [|url [|filename parts]]; [exact Hskip..|].
    apply IH.
Qed.

(** When every tool is found, the loop of [ensure_tools] adds nothing to the
    missing ones. *)
Lemma missing_tools_found E tools : forall missing w,
  calm E -> (forall tool w', os_which E tool w' = true) ->
  missing_tools E tools missing w
  = (Ret missing, mkWorld (w_fs w) (rev (map EvWhich tools) ++ w_log w)).
Proof.
  induction tools as [|tool rest IH]; intros missing w HE Hw.
  - destruct w. reflexivity.
  - cbn [missing_tools]. unfold which.
    erewrite bind_ret_l by (rewrite call_calm by assumption; reflexivity).
    cbn [fst snd]. rewrite Hw, IH by assumption. cbn [w_fs w_log map rev].
    now rewrite <- app_assoc.
Qed.

(** ** A run with nothing to do *)

Lemma makedirs_calm E p w :
  calm E -> (forall t, w_fs w !! p <> Some (File t)) ->
  exists fs,
    makedirs E p w = (Ret tt, mkWorld fs (EvMakedirs p :: w_log w)) /\
    fs !! p = Some Dir /\ (forall q, q <> p -> fs !! q = w_fs w !! q).
Proof.
  intros HE Hp. unfold makedirs. rewrite call_calm by assumption.
  destruct (w_fs w !! p) as [[t|]|] eqn:Hl; cbn [fst snd].
  - now destruct (Hp t).
  - exists (w_fs w). auto.
  - exists (<[p := Dir]> (w_fs w)). split; [reflexivity|]. split.
    + apply lookup_insert_eq.
    + intros q Hq. now apply lookup_insert_ne.
Qed.

(** C9.  When the list holds no item and does not end in [done], [main]
    returns 0 having only created the output folder, looked for the tools,
    read the list and printed: no task is started, the list of results is not
    written and [done] is not appended, so both files are as they were. *)
Theorem main_nothing_to_do (E : Env) (args : Args) (w : World) (text : string) :
  calm E ->
  (forall tool w', os_which E tool w' = true) ->
  w_fs w !! arg_list args = Some (File text) ->
  (forall t, w_fs w !! OUTDIR <> Some (File t)) ->
  marked_done (last_non_empty (PyText.splitlines text)) = false ->
  (forall w1, fst (parse_lines (PyText.splitlines text) [] w1) = Ret []) ->
  exists w' new,
    main E args w = (Ret 0, w') /\
    w_log w' = new ++ w_log w /\
    Forall (fun ev => quiet ev = true) new /\
    (forall p, p <> OUTDIR -> w_fs w' !! p = w_fs w !! p) /\
    w_fs w' !! arg_list args = w_fs w !! arg_list args /\
    w_fs w' !! URLLIST_NAME = w_fs w !! URLLIST_NAME.
Proof.
  intros HE Hwhich Hlist Hout Hlast Hnone.
  destruct (makedirs_calm E OUTDIR w HE Hout) as (fs & Hmk & Hdir & Hfs).
  assert (Hne : arg_list args <> OUTDIR).
  { intros Heq. rewrite Heq in Hlist. now destruct (Hout text). }
  set (w1 := mkWorld fs (EvMakedirs OUTDIR :: w_log w)) in *.
  set (w2 := mkWorld fs (rev (map EvWhich ["yt-dlp"; "ffmpeg"; "ffprobe"]) ++ w_log w1)).
  set (w3 := mkWorld fs (EvRead (arg_list args) :: w_log w2)).
  destruct (parse_lines_world (PyText.splitlines text) [] w3)
    as (its & new & Hparse & Hquiet).
  assert (its = []) as ->.
  { specialize (Hnone w3). rewrite Hparse in Hnone. now injection Hnone. }
  exists (mkWorld fs (EvPrint PrNothingToDo :: new ++ w_log w3)).
  exists (EvPrint PrNothingToDo :: new
          ++ EvRead (arg_list args) :: rev (map EvWhich ["yt-dlp"; "ffmpeg"; "ffprobe"])
          ++ [EvMakedirs OUTDIR]).
  split; [|split; [|split; [|split; [|split]]]].
  - unfold main, chdir_to_script_root.
    erewrite bind_ret_l by reflexivity.
    erewrite bind_ret_l by exact Hmk.
    erewrite bind_ret_l by reflexivity.
    cbn [w_fs]. fold w1. rewrite Hfs, Hlist by assumption.
    rewrite bool_decide_true by eauto. cbn [negb].
    erewrite bind_ret_l.
    2:{ unfold ensure_tools. erewrite bind_ret_l by (now apply missing_tools_found).
        reflexivity. }
    fold w2.
    erewrite bind_ret_l.
    2:{ unfold read_lines_utf8bom. rewrite call_calm by assumption.
        cbn [w_fs w2]. rewrite Hfs, Hlist by assumption. reflexivity. }
    cbn [fst snd w2 w_fs]. fold w2 w3. rewrite Hlast.
    erewrite bind_ret_l by exact Hparse.
    reflexivity.
  - simpl. f_equal. rewrite <- app_assoc. reflexivity.
  - constructor; [reflexivity|]. apply Forall_app. split; [assumption|].
    repeat constructor.
  - intros p Hp. now apply Hfs.
  - now apply Hfs.
  - apply Hfs. discriminate.
Qed.

Lemma main_nothing_to_do_witness :
  exists w' new,
    main Sample.env_ok Sample.args0 Sample.w_broken = (Ret 0, w') /\
    w_log w' = new ++ w_log Sample.w_broken /\
    Forall (fun ev => quiet ev = true) new /\
    (forall p, p <> OUTDIR -> w_fs w' !! p = w_fs Sample.w_broken !! p) /\
    w_fs w' !! arg_list Sample.args0 = w_fs Sample.w_broken !! arg_list Sample.args0 /\
    w_fs w' !! URLLIST_NAME = w_fs Sample.w_broken !! URLLIST_NAME.
Proof.
  apply (main_nothing_to_do Sample.env_ok Sample.args0 Sample.w_broken
           ("https://example.org/v1" +:+ LF +:+ LF +:+ "   " +:+ LF +:+ "orphan")).
  - intros ev w. reflexivity.
  - intros tool w'. reflexivity.
  - reflexivity.
  - intros t. vm_compute. discriminate.
  - reflexivity.
  - intros w1. reflexivity.
Defined.

(** ** The list of results *)

Lemma out_lines_manifest results : manifest_of results (out_lines results).
Proof.
  induction results as [|r rs IH]; [constructor|].
  unfold out_lines in *. rewrite filter_cons.
  destruct (decide (success r = true)) as [Hr|Hr].
  - now constructor.
  - apply manifest_failure; [|assumption]. now destruct (success r).
Qed.

Lemma manifest_of_length results ls :
  manifest_of results ls ->
  length ls = length (filter (fun r => success r = true) results).
Proof.
  induction 1 as [|r rs ls Hr _ IH|r rs ls Hr _ IH]; [reflexivity| |].
  - rewrite filter_cons_True by assumption. simpl. now rewrite IH.
  - rewrite filter_cons_False by congruence. assumption.
Qed.

(** An operation that keeps what [q] holds, keeps it when it is run through
    [call], raising or not. *)
Lemma call_keeps E {A} ev (sem : World -> outcome A * gmap string node) w q n :
  w_fs w !! q = Some n ->
  (snd (sem w) !! q = Some n) ->
  w_fs (snd (call E ev sem w)) !! q = Some n.
Proof.
  intros Hq Hsem. unfold call. destruct (os_fault E ev w); [assumption|].
  now destruct (sem w).
Qed.

Lemma makedirs_keeps E d w q n :
  w_fs w !! q = Some n -> w_fs (snd (makedirs E d w)) !! q = Some n.
Proof.
  intros Hq. apply call_keeps; [assumption|].
  destruct (w_fs w !! d) as [[t|]|] eqn:Hd; cbn [snd]; try assumption.
  rewrite lookup_insert_ne; [assumption|]. intros ->. congruence.
Qed.

Lemma write_lines_keeps E path lines w q n :
  path <> q -> w_fs w !! q = Some n ->
  w_fs (snd (write_lines_utf8bom E path lines w)) !! q = Some n.
Proof.
  intros Hne Hq. unfold write_lines_utf8bom, bind.
  set (d := if String.eqb (Path.dirname path) "" then "." else Path.dirname path).
  pose proof (makedirs_keeps E d w q n Hq) as Hmk.
  destruct (makedirs E d w) as [[[]|e] w1]; cbn [snd] in *; [|assumption].
  apply call_keeps; [assumption|].
  destruct (w_fs w1 !! path) as [[t|]|]; cbn [snd]; try assumption;
    now rewrite lookup_insert_ne.
Qed.

Lemma append_line_keeps E path line w q n :
  path <> q -> w_fs w !! q = Some n ->
  w_fs (snd (append_line_utf8bom E path line w)) !! q = Some n.
Proof.
  intros Hne Hq. unfold append_line_utf8bom.
  apply call_keeps; [assumption|].
  destruct (w_fs w !! path) as [[t|]|]; cbn [snd]; try assumption;
    now rewrite lookup_insert_ne.
Qed.

(** Marking the input list never raises and keeps the other files. *)
Lemma mark_done_keeps E path lines w q n :
  path <> q -> w_fs w !! q = Some n ->
  exists w',
    try_except (append_line_utf8bom E path "done")
      (fun _ => swallow (write_lines_utf8bom E path (lines ++ ["done"]))) w
    = (Ret tt, w') /\ w_fs w' !! q = Some n.
Proof.
  intros Hne Hq. unfold try_except, swallow, try_except.
  pose proof (append_line_keeps E path "done" w q n Hne Hq) as Ha.
  destruct (append_line_utf8bom E path "done" w) as [[[]|e] w1]; cbn [snd] in Ha.
  - eauto.
  - pose proof (write_lines_keeps E path (lines ++ ["done"]) w1 q n Hne Ha) as Hw.
    destruct (write_lines_utf8bom E path (lines ++ ["done"]) w1) as [[[]|e'] w2];
      cbn [snd] in Hw; eauto.
Qed.

(** ** The task: exceptions and cleaning up *)

(** The world in which the body of [process_item] starts: the temporary
    folder exists and its creation is logged. *)
Lemma mkdtemp_ok E w :
  os_fault E EvMkdtemp w = None ->
  mkdtemp E w
  = (Ret (os_mkdtemp E w),
     mkWorld (<[os_mkdtemp E w := Dir]> (w_fs w)) (EvMkdtemp :: w_log w)).
Proof. intros H. unfold mkdtemp, call. now rewrite H. Qed.

Lemma process_item_started E url raw outdir user repo branch w :
  os_fault E EvMkdtemp w = None ->
  process_item E (url, raw) outdir user repo branch w
  = with_safe_name (sanitize_name raw)
      (try_finally
         (try_except (task_body E url outdir user repo branch (os_mkdtemp E w))
                     on_exception)
         (cleanup E (os_mkdtemp E w)))
      (mkWorld (<[os_mkdtemp E w := Dir]> (w_fs w)) (EvMkdtemp :: w_log w)).
Proof.
  intros H. unfold process_item. now erewrite bind_ret_l by (now apply mkdtemp_ok).
Qed.

(** The [try ... except] of the task always returns: what the body returned,
    or the failure built from the exception and the name at that time. *)
Lemma guarded_returns {m : M Frame TaskResult} f :
  exists r f',
    try_except m on_exception f = (Ret r, f') /\
    (m f = (Ret r, f') \/
     exists e, m f = (Raise e, f') /\ r = failed (fr_safe_name f') (MsgException e)).
Proof.
  unfold try_except. destruct (m f) as [[r|e] f'] eqn:Hm.
  - exists r, f'. auto.
  - exists (failed (fr_safe_name f') (MsgException e)), f'. split; [reflexivity|].
    right. exists e. auto.
Qed.

(** The [finally] clause of the task: one removal, whose errors are
    ignored. *)
Lemma cleanup_runs E d f :
  cleanup E d f
  = (Ret tt,
     mkFrame (fr_safe_name f)
       (mkWorld (without_tree d (os_rmtree_keeps E d (fr_world f)) (w_fs (fr_world f)))
                (EvRmtree d :: w_log (fr_world f)))).
Proof. reflexivity. Qed.

(** The [try ... except ... finally] of the task, from the outcome of its
    [try ... except]. *)
Lemma task_finishes E d n (m : M Frame TaskResult) w r f1 :
  try_except m on_exception (mkFrame n w) = (Ret r, f1) ->
  with_safe_name n (try_finally (try_except m on_exception) (cleanup E d)) w
  = (Ret r,
     mkWorld (without_tree d (os_rmtree_keeps E d (fr_world f1)) (w_fs (fr_world f1)))
             (EvRmtree d :: w_log (fr_world f1))).
Proof.
  intros H. unfold with_safe_name, try_finally. now rewrite H, cleanup_runs.
Qed.

Lemma without_tree_gone d kept fs p :
  under d p = true -> kept p = false -> without_tree d kept fs !! p = None.
Proof.
  intros Hp Hk. unfold without_tree. apply map_lookup_filter_None. right.
  intros n _. cbn [fst]. rewrite Hp, Hk. cbn. discriminate.
Qed.

Lemma without_tree_stays d kept fs p :
  under d p = false \/ kept p = true -> without_tree d kept fs !! p = fs !! p.
Proof.
  intros Hp. unfold without_tree.
  destruct (fs !! p) as [n|] eqn:Hl.
  - apply map_lookup_filter_Some. split; [assumption|]. cbn [fst].
    destruct Hp as [-> | ->]; [reflexivity|apply orb_true_r].
  - apply map_lookup_filter_None. now left.
Qed.

(** C2 as stated fails, in two ways.  When the temporary folder cannot be
    created, [process_item] raises.  And when the removal of the downloaded
    file raises after a transcoding, the exception is dropped and the result
    is a success. *)
Lemma process_item_exceptions_not_all_failures :
  fst (process_item Sample.env_no_tmp Sample.item_a "music" "u" "r" "b" Sample.w0)
  = Raise (Exn "[Errno 28] No space left on device") /\
  (forall w, os_fault Sample.env_no_remove (EvRemove (Sample.src "webm")) w
             = Some (Exn "[Errno 13] Permission denied")) /\
  In (EvRemove (Sample.src "webm"))
     (w_log (snd (process_item Sample.env_no_remove Sample.item_c
                    "music" "u" "r" "b" Sample.w0))) /\
  fst (process_item Sample.env_no_remove Sample.item_c "music" "u" "r" "b" Sample.w0)
  = Ret (mkResult true "c" (Some "https://cdn.jsdelivr.net/gh/u/r@b/music/c.mp3")
                  (Some "music/c.mp3") MsgOK).
Proof.
  split; [reflexivity|]. split; [reflexivity|]. split.
  - vm_compute. auto.
  - vm_compute. reflexivity.
Qed.

(** C8, as the code has it.  Once the temporary folder [d] is created, the
    last operation of [process_item], whatever the body of the [try] did
    (returned, failed, raised), is the removal of the tree at [d].  The
    removal ignores errors: a path at [d] or below it is gone when
    [process_item] ends unless the removal failed on it, in which case it is
    left as it was, silently; nothing else is touched. *)
Theorem process_item_cleans_up (E : Env) (url raw outdir user repo branch : string)
    (w : World) :
  os_fault E EvMkdtemp w = None ->
  exists o wc w',
    process_item E (url, raw) outdir user repo branch w = (o, w') /\
    w_log w' = EvRmtree (os_mkdtemp E w) :: w_log wc /\
    (forall p, under (os_mkdtemp E w) p = true ->
       os_rmtree_keeps E (os_mkdtemp E w) wc p = false -> w_fs w' !! p = None) /\
    (forall p, under (os_mkdtemp E w) p = false \/
               os_rmtree_keeps E (os_mkdtemp E w) wc p = true ->
       w_fs w' !! p = w_fs wc !! p).
Proof.
  intros Hmk. rewrite process_item_started by assumption.
  unfold with_safe_name, try_finally.
  set (f0 := mkFrame _ _).
  destruct (@guarded_returns (task_body E url outdir user repo branch (os_mkdtemp E w)) f0)
    as (r & f1 & Hrun & _).
  rewrite Hrun, cleanup_runs. cbn [fr_world].
  exists (Ret r), (fr_world f1). eexists. split; [reflexivity|].
  cbn [w_log w_fs]. split; [reflexivity|]. split.
  - intros p Hp Hk. now apply without_tree_gone.
  - intros p Hp. now apply without_tree_stays.
Qed.

Lemma process_item_cleans_up_witness :
  exists o wc w',
    process_item Sample.env_ok Sample.item_c "music" "u" "r" "b" Sample.w0 = (o, w') /\
    w_log w' = EvRmtree Sample.tmpdir :: w_log wc /\
    (forall p, under Sample.tmpdir p = true -> w_fs w' !! p = None).
Proof.
  destruct (process_item_cleans_up Sample.env_ok "https://example.org/v3" "c"
              "music" "u" "r" "b" Sample.w0) as (o & wc & w' & Hrun & Hlog & Hgone & _);
    [reflexivity|].
  exists o, wc, w'. split; [exact Hrun|]. split; [exact Hlog|].
  intros p Hp. now apply Hgone.
Defined.

(** C8 as stated fails: when the removal fails on the folder, the error is
    ignored and [process_item] returns with the temporary folder still
    there. *)
Lemma process_item_leaves_tmpdir :
  fst (process_item Sample.env_stuck Sample.item_c "music" "u" "r" "b" Sample.w0)
  = Ret (mkResult true "c" (Some "https://cdn.jsdelivr.net/gh/u/r@b/music/c.mp3")
                  (Some "music/c.mp3") MsgOK) /\
  w_fs (snd (process_item Sample.env_stuck Sample.item_c "music" "u" "r" "b" Sample.w0))
    !! Sample.tmpdir = Some Dir.
Proof. split; vm_compute; reflexivity. Qed.

(** ** The task: the local variable [safe_name] *)

Lemma keeps_ret {A} (a : A) : keeps_name (ret a).
Proof. intros f. reflexivity. Qed.

Lemma keeps_raise {A} e : keeps_name (@raise Frame A e).
Proof. intros f. reflexivity. Qed.

Lemma keeps_get : keeps_name get_safe_name.
Proof. intros f. reflexivity. Qed.

Lemma keeps_os {A} (m : M World A) : keeps_name (os m).
Proof. intros f. unfold os. now destruct (m (fr_world f)). Qed.

Lemma keeps_bind {A B} (m : M Frame A) (k : A -> M Frame B) :
  keeps_name m -> (forall a, keeps_name (k a)) -> keeps_name (bind m k).
Proof.
  intros Hm Hk f. unfold bind. specialize (Hm f).
  destruct (m f) as [[a|e] f1]; cbn [snd] in *; [|assumption].
  now rewrite Hk.
Qed.

Lemma keeps_try_except {A} (m : M Frame A) (h : exn -> M Frame A) :
  keeps_name m -> (forall e, keeps_name (h e)) -> keeps_name (try_except m h).
Proof.
  intros Hm Hh f. unfold try_except. specialize (Hm f).
  destruct (m f) as [[a|e] f1]; cbn [snd] in *; [assumption|].
  now rewrite Hh.
Qed.

Ltac keeps :=
  repeat first
    [ apply keeps_ret | apply keeps_raise | apply keeps_get | apply keeps_os
    | apply keeps_bind; [|intros]
    | apply keeps_try_except; [|intros]
    | match goal with
      | |- keeps_name (if ?b then _ else _) => destruct b
      | |- keeps_name (match ?x with _ => _ end) => destruct x
      end ].

Lemma keeps_fetch_and_probe E url tmpdir : keeps_name (fetch_and_probe E url tmpdir).
Proof. unfold fetch_and_probe. keeps. Qed.

Lemma keeps_deliver E src codec bps dest_base :
  keeps_name (deliver E src codec bps dest_base).
Proof. unfold deliver, swallow. keeps. Qed.

(** An early result of [deliver] is a failure under the current name. *)
Lemma deliver_early E src codec bps dest_base f early f' :
  deliver E src codec bps dest_base f = (Ret (Some early), f') ->
  success early = false /\ file early = fr_safe_name f'.
Proof.
  unfold deliver. destruct (direct_move src codec bps).
  - unfold bind. destruct (os (move E src dest_base) f) as [[[]|e] f1]; discriminate.
  - unfold bind at 1.
    destruct (os (run_cmd E (ffmpeg_cmd src dest_base)) f) as [[[[code out] err]|e] f1];
      [|discriminate].
    unfold bind at 1.
    destruct (swallow _ f1) as [[[]|e] f2]; [|discriminate].
    destruct (negb (code =? 0)); [|discriminate].
    unfold bind, get_safe_name, ret. intros [= <- <-]. auto.
Qed.

(** ** The task: move or transcode *)

Lemma direct_move_iff src codec bps :
  direct_move src codec bps = true <->
  Py.endswith (Py.lower src) ".mp3" = true /\ Py.lower codec = "mp3" /\
  192000 <= bps <= 192500.
Proof.
  unfold direct_move. rewrite !andb_true_iff, String.eqb_eq, !Z.leb_le. tauto.
Qed.

Lemma call_log E {A} ev (sem : World -> outcome A * gmap string node) w :
  w_log (snd (call E ev sem w)) = ev :: w_log w.
Proof.
  unfold call. destruct (os_fault E ev w); [reflexivity|]. now destruct (sem w).
Qed.

Lemma os_call_log E {A} ev (sem : World -> outcome A * gmap string node) f :
  w_log (final_world (os (call E ev sem) f)) = ev :: w_log (fr_world f).
Proof.
  unfold final_world, os. pose proof (call_log E ev sem (fr_world f)) as H.
  now destruct (call E ev sem (fr_world f)).
Qed.

Lemma move_log E src dst f :
  w_log (final_world (os (move E src dst) f)) = EvMove src dst :: w_log (fr_world f).
Proof. apply os_call_log. Qed.

Lemma run_cmd_log E cmd f :
  w_log (final_world (os (run_cmd E cmd) f)) = EvRun cmd :: w_log (fr_world f).
Proof. apply os_call_log. Qed.

Lemma remove_log E p f :
  w_log (final_world (os (remove E p) f)) = EvRemove p :: w_log (fr_world f).
Proof. apply os_call_log. Qed.

(** What [deliver] asks of the environment: the move alone when the test of
    the direct move holds; otherwise the transcoder, then possibly the
    removal of the source. *)
Lemma deliver_trace E src codec bps dest_base f :
  exists new,
    w_log (final_world (deliver E src codec bps dest_base f))
    = new ++ w_log (fr_world f) /\
    (direct_move src codec bps = true -> new = [EvMove src dest_base]) /\
    (direct_move src codec bps = false ->
     new = [EvRun (ffmpeg_cmd src dest_base)] \/
     new = [EvRemove src; EvRun (ffmpeg_cmd src dest_base)]).
Proof.
  unfold deliver. destruct (direct_move src codec bps).
  - exists [EvMove src dest_base]. split; [|split; [reflexivity|discriminate]].
    unfold bind. pose proof (move_log E src dest_base f) as Hlog.
    revert Hlog. unfold final_world.
    destruct (os (move E src dest_base) f) as [[[]|e] f1]; cbn [snd]; auto.
  - unfold bind at 1.
    pose proof (run_cmd_log E (ffmpeg_cmd src dest_base) f) as Hlog.
    revert Hlog. unfold final_world.
    destruct (os (run_cmd E (ffmpeg_cmd src dest_base)) f)
      as [[[[code out] err]|e] f1]; cbn [snd]; intros Hlog.
    2:{ exists [EvRun (ffmpeg_cmd src dest_base)]. split; [assumption|].
        split; [discriminate|auto]. }
    unfold bind at 1.
    assert (Hsw : exists f2,
      swallow (do there <- os (path_exists src);
               if there then os (remove E src) else ret tt) f1 = (Ret tt, f2) /\
      (w_log (fr_world f2) = w_log (fr_world f1) \/
       w_log (fr_world f2) = EvRemove src :: w_log (fr_world f1))).
    { unfold swallow, try_except, bind at 1.
      unfold os at 1, path_exists.
      destruct (bool_decide (is_Some (w_fs (fr_world f1) !! src))).
      - pose proof (remove_log E src (mkFrame (fr_safe_name f1) (fr_world f1))) as Hrm.
        revert Hrm. unfold final_world.
        destruct (os (remove E src) _) as [[[]|e] f2]; cbn [snd fr_world]; eauto.
      - destruct f1 as [n1 w1]. eexists. split; [reflexivity|]. auto. }
    destruct Hsw as (f2 & -> & Hcase).
    assert (Hend : w_log (fr_world (snd
      ((if negb (code =? 0)
        then do n <- get_safe_name;
             ret (Some (failed n (MsgTranscodeFailed (Py.take 300 (Py.strip err)))))
        else ret None) f2))) = w_log (fr_world f2)).
    { now destruct (negb (code =? 0)). }
    rewrite Hend.
    destruct Hcase as [->| ->]; rewrite Hlog.
    + exists [EvRun (ffmpeg_cmd src dest_base)]. split; [reflexivity|].
      split; [discriminate|auto].
    + exists [EvRemove src; EvRun (ffmpeg_cmd src dest_base)]. split; [reflexivity|].
      split; [discriminate|auto].
Qed.

(** C1, as the code has it.  In a run of [process_item] that has fetched and
    inspected a file [src] with codec [codec] and bit rate [bps] and has
    chosen its destination, the file is moved to the destination exactly when
    [src] ends in [.mp3], [codec] is [mp3] -- both compared without regard to
    case -- and [192000 <= bps <= 192500]; in every other case, and only
    then, the transcoder is run. *)
Theorem process_item_decision (E : Env) (url raw outdir user repo branch : string)
    (w : World) (src codec : string) (bps : Z) (dest_base : string) (f2 f3 : Frame) :
  os_fault E EvMkdtemp w = None ->
  fetch_and_probe E url (os_mkdtemp E w)
    (mkFrame (sanitize_name raw)
       (mkWorld (<[os_mkdtemp E w := Dir]> (w_fs w)) (EvMkdtemp :: w_log w)))
  = (Ret (inr (src, codec, bps)), f2) ->
  choose_dest E outdir f2 = (Ret dest_base, f3) ->
  exists r w' new,
    process_item E (url, raw) outdir user repo branch w = (Ret r, w') /\
    w_log w' = new ++ w_log (fr_world f3) /\
    (In (EvMove src dest_base) new <->
     Py.endswith (Py.lower src) ".mp3" = true /\ Py.lower codec = "mp3" /\
     192000 <= bps <= 192500) /\
    (In (EvRun (ffmpeg_cmd src dest_base)) new <->
     ~ (Py.endswith (Py.lower src) ".mp3" = true /\ Py.lower codec = "mp3" /\
        192000 <= bps <= 192500)).
Proof.
  intros Hmk Hfetch Hdest. rewrite process_item_started by assumption.
  destruct (deliver_trace E src codec bps dest_base f3) as (new & Hlog & Hmove & Hrun).
  unfold final_world in Hlog.
  assert (Hbody : exists r,
    try_except (task_body E url outdir user repo branch (os_mkdtemp E w)) on_exception
      (mkFrame (sanitize_name raw)
         (mkWorld (<[os_mkdtemp E w := Dir]> (w_fs w)) (EvMkdtemp :: w_log w)))
    = (Ret r, snd (deliver E src codec bps dest_base f3))).
  { unfold try_except, task_body.
    erewrite bind_ret_l by exact Hfetch. cbn iota beta.
    erewrite bind_ret_l by exact Hdest.
    unfold bind at 1.
    destruct (deliver E src codec bps dest_base f3) as [[[early|]|e] f4];
      cbn [snd]; eexists; reflexivity. }
  destruct Hbody as (r & Hbody).
  rewrite (task_finishes _ _ _ _ _ _ _ Hbody).
  exists r. eexists. exists (EvRmtree (os_mkdtemp E w) :: new).
  split; [reflexivity|]. cbn [w_log]. rewrite Hlog. split; [reflexivity|].
  rewrite <- !direct_move_iff.
  destruct (direct_move src codec bps).
  - rewrite Hmove by reflexivity. cbn [In]. split; split; intros H; try tauto; auto.
    destruct H as [H|[H|[]]]; discriminate.
  - destruct Hrun as [-> | ->]; [reflexivity| |]; cbn [In]; split; split; intros H;
      try discriminate; auto.
    + destruct H as [H|[H|[]]]; discriminate.
    + destruct H as [H|[H|[H|[]]]]; discriminate.
Qed.

Lemma process_item_decision_witness :
  exists r w' new,
    process_item Sample.env_180k Sample.item_c "music" "u" "r" "b" Sample.w0
    = (Ret r, w') /\
    w_log w' = new ++
      w_log (fr_world (snd (fetch_and_probe Sample.env_180k "https://example.org/v3"
                              Sample.tmpdir (Sample.frame0 "c")))) /\
    In (EvRun (ffmpeg_cmd (Sample.src "mp3") "music/c.mp3")) new /\
    ~ In (EvMove (Sample.src "mp3") "music/c.mp3") new.
Proof.
  destruct (process_item_decision Sample.env_180k "https://example.org/v3" "c"
              "music" "u" "r" "b" Sample.w0 (Sample.src "mp3") "mp3" 180000 "music/c.mp3"
              (snd (fetch_and_probe Sample.env_180k "https://example.org/v3"
                      Sample.tmpdir (Sample.frame0 "c")))
              (snd (fetch_and_probe Sample.env_180k "https://example.org/v3"
                      Sample.tmpdir (Sample.frame0 "c"))))
    as (r & w' & new & Hrun & Hlog & Hmove & Hffmpeg).
  - reflexivity.
  - vm_compute. reflexivity.
  - vm_compute. reflexivity.
  - exists r, w', new. split; [exact Hrun|]. split; [exact Hlog|]. split.
    + apply Hffmpeg. intros (_ & _ & Hband). lia.
    + intros H. apply Hmove in H. lia.
Defined.

(** C1 as stated fails: the probe reports the codec [MP3], which is not
    [mp3], and the file is moved without any run of the transcoder. *)
Lemma direct_move_with_upper_case_codec :
  fst (fetch_and_probe Sample.env_upper "https://example.org/v3" Sample.tmpdir
         (Sample.frame0 "c"))
  = Ret (inr (Sample.src "mp3", "MP3", 192000)) /\
  "MP3" <> "mp3" /\
  w_log (snd (process_item Sample.env_upper Sample.item_c "music" "u" "r" "b" Sample.w0))
  = [EvRmtree Sample.tmpdir;
     EvMove (Sample.src "mp3") "music/c.mp3";
     EvRun ["ffprobe"; "-v"; "error"; "-select_streams"; "a:0"; "-show_entries";
            "stream=bit_rate"; "-of"; "default=nw=1:nk=1"; Sample.src "mp3"];
     EvRun ["ffprobe"; "-v"; "error"; "-select_streams"; "a:0"; "-show_entries";
            "stream=codec_name"; "-of"; "default=nw=1:nk=1"; Sample.src "mp3"];
     EvListdir Sample.tmpdir;
     EvRun ["yt-dlp"; "-f"; "bestaudio"; "https://example.org/v3"; "-o";
            Sample.tmpdir +:+ "/" +:+ Sample.hex +:+ ".%(ext)s"];
     EvUuid; EvMkdtemp].
Proof.
  split; [vm_compute; reflexivity|]. split; [discriminate|]. vm_compute. reflexivity.
Qed.

(** ** The task: a destination that is taken *)

Lemma append_inv_head s a b : s +:+ a = s +:+ b -> a = b.
Proof.
  induction s as [|c s IH]; [auto|]. rewrite !app_cons. intros [= H]. auto.
Qed.

Lemma startswith_empty s : Py.startswith s "" = true.
Proof. now destruct s. Qed.

Lemma startswith_slash_app n a b :
  n <> "" -> Py.startswith (n +:+ a) "/" = Py.startswith (n +:+ b) "/".
Proof.
  destruct n as [|c n]; [congruence|]. intros _. rewrite !app_cons.
  cbn [Py.startswith]. now rewrite !startswith_empty.
Qed.

Lemma append_assoc_3 a b c : (a +:+ b) +:+ c = a +:+ b +:+ c.
Proof.
  induction a as [|x a IH]; [reflexivity|]. rewrite !app_cons. now rewrite IH.
Qed.

(** The stamped path is not the plain one. *)
Lemma join_stamped_differs outdir n ts :
  Path.join outdir ((n +:+ "-" +:+ ts) +:+ ".mp3") <> Path.join outdir (n +:+ ".mp3").
Proof.
  rewrite append_assoc_3.
  assert (Hrel : Py.startswith (n +:+ ("-" +:+ ts) +:+ ".mp3") "/"
                 = Py.startswith (n +:+ ".mp3") "/").
  { destruct n; [reflexivity|]. now apply startswith_slash_app. }
  assert (Hsuffix : n +:+ ("-" +:+ ts) +:+ ".mp3" <> n +:+ ".mp3").
  { intros H%append_inv_head. discriminate. }
  unfold Path.join. rewrite Hrel.
  destruct (Py.startswith (n +:+ ".mp3") "/"); [assumption|].
  destruct (String.eqb outdir "" || Py.endswith outdir "/").
  - intros H%append_inv_head. contradiction.
  - intros H%append_inv_head%(append_inv_head "/"). contradiction.
Qed.

(** When the plain destination is taken, the name gets the time stamp and the
    destination is computed again, without any further check. *)
Lemma choose_dest_taken E outdir f :
  is_Some (w_fs (fr_world f) !! Path.join outdir (fr_safe_name f +:+ ".mp3")) ->
  os_fault E EvNow (fr_world f) = None ->
  choose_dest E outdir f
  = (Ret (Path.join outdir
            ((fr_safe_name f +:+ "-" +:+ os_now E (fr_world f)) +:+ ".mp3")),
     mkFrame (fr_safe_name f +:+ "-" +:+ os_now E (fr_world f))
             (mkWorld (w_fs (fr_world f)) (EvNow :: w_log (fr_world f)))).
Proof.
  intros Htaken Hnow. unfold choose_dest.
  unfold bind at 1, get_safe_name. unfold bind at 1, os at 1, path_exists.
  rewrite bool_decide_true by assumption.
  unfold bind at 1, os, now_stamp, call. cbn [fr_world fr_safe_name].
  rewrite Hnow. reflexivity.
Qed.

(** C5, as the code has it.  When the destination [<outdir>/<name>.mp3] is
    taken at the time of the check, the name of the result is the sanitized
    name followed by a hyphen and the time stamp; a successful result has the
    destination and the address built from that name, and this destination
    is not the plain one.  (Whether the stamped destination is itself taken
    is not checked.) *)
Theorem process_item_stamps_taken_name (E : Env)
    (url raw outdir user repo branch : string) (w : World)
    (src codec : string) (bps : Z) (f2 : Frame) :
  os_fault E EvMkdtemp w = None ->
  fetch_and_probe E url (os_mkdtemp E w)
    (mkFrame (sanitize_name raw)
       (mkWorld (<[os_mkdtemp E w := Dir]> (w_fs w)) (EvMkdtemp :: w_log w)))
  = (Ret (inr (src, codec, bps)), f2) ->
  is_Some (w_fs (fr_world f2) !! Path.join outdir (sanitize_name raw +:+ ".mp3")) ->
  os_fault E EvNow (fr_world f2) = None ->
  exists r w',
    process_item E (url, raw) outdir user repo branch w = (Ret r, w') /\
    file r = sanitize_name raw +:+ "-" +:+ os_now E (fr_world f2) /\
    (success r = true ->
     dest r = Some (Path.join outdir (file r +:+ ".mp3")) /\
     cdn r = Some (cdn_url user repo branch (file r))) /\
    Path.join outdir (file r +:+ ".mp3")
    <> Path.join outdir (sanitize_name raw +:+ ".mp3").
Proof.
  intros Hmk Hfetch Htaken Hnow. rewrite process_item_started by assumption.
  assert (Hname : fr_safe_name f2 = sanitize_name raw).
  { pose proof (keeps_fetch_and_probe E url (os_mkdtemp E w)
                  (mkFrame (sanitize_name raw)
                     (mkWorld (<[os_mkdtemp E w := Dir]> (w_fs w))
                              (EvMkdtemp :: w_log w)))) as H.
    rewrite Hfetch in H. exact H. }
  rewrite <- Hname in Htaken.
  pose proof (choose_dest_taken E outdir f2 Htaken Hnow) as Hdest.
  rewrite Hname in Hdest.
  set (name := sanitize_name raw +:+ "-" +:+ os_now E (fr_world f2)) in *.
  set (f3 := mkFrame name _) in Hdest.
  set (dest_base := Path.join outdir (name +:+ ".mp3")) in *.
  assert (Hbody : exists r,
    try_except (task_body E url outdir user repo branch (os_mkdtemp E w)) on_exception
      (mkFrame (sanitize_name raw)
         (mkWorld (<[os_mkdtemp E w := Dir]> (w_fs w)) (EvMkdtemp :: w_log w)))
    = (Ret r, snd (deliver E src codec bps dest_base f3)) /\
    file r = name /\
    (success r = true ->
     dest r = Some dest_base /\ cdn r = Some (cdn_url user repo branch name))).
  { unfold try_except, task_body.
    erewrite bind_ret_l by exact Hfetch. cbn iota beta.
    erewrite bind_ret_l by exact Hdest.
    unfold bind at 1.
    pose proof (keeps_deliver E src codec bps dest_base f3) as Hkeep.
    pose proof (deliver_early E src codec bps dest_base f3) as Hearly.
    destruct (deliver E src codec bps dest_base f3) as [[[early|]|e] f4];
      cbn [snd] in *; change (fr_safe_name f3) with name in Hkeep.
    - destruct (Hearly early f4 eq_refl) as (Hfail & Hfile).
      exists early. split; [reflexivity|]. split; [congruence|].
      rewrite Hfail. discriminate.
    - eexists. split; [reflexivity|]. cbn [file success dest cdn].
      rewrite Hkeep. auto.
    - eexists. split; [reflexivity|]. cbn [file success failed].
      split; [assumption|discriminate]. }
  destruct Hbody as (r & Hbody & Hfile & Hok).
  rewrite (task_finishes _ _ _ _ _ _ _ Hbody).
  exists r. eexists. split; [reflexivity|]. rewrite Hfile.
  split; [reflexivity|]. split; [exact Hok|].
  apply join_stamped_differs.
Qed.

Lemma process_item_stamps_taken_name_witness :
  exists r w',
    process_item Sample.env_ok Sample.item_a "music" "u" "r" "b" Sample.w0 = (Ret r, w') /\
    file r = "a" +:+ "-" +:+ Sample.stamp /\
    (success r = true ->
     dest r = Some (Path.join "music" (file r +:+ ".mp3")) /\
     cdn r = Some (cdn_url "u" "r" "b" (file r))) /\
    Path.join "music" (file r +:+ ".mp3") <> Path.join "music" ("a" +:+ ".mp3").
Proof.
  apply (process_item_stamps_taken_name Sample.env_ok "https://example.org/v1" "a"
           "music" "u" "r" "b" Sample.w0 (Sample.src "webm") "opus" 128000
           (snd (fetch_and_probe Sample.env_ok "https://example.org/v1" Sample.tmpdir
                   (Sample.frame0 "a")))).
  - reflexivity.
  - vm_compute. reflexivity.
  - exists (File "first"). vm_compute. reflexivity.
  - reflexivity.
Defined.

(** C5 as stated fails: the folder holds [a.mp3] and a file with the stamped
    name; the task takes the stamped name without looking, and the file that
    was there is replaced by the download. *)
Lemma stamped_destination_may_be_taken :
  fst (process_item Sample.env_mp3 Sample.item_a "music" "u" "r" "b" Sample.w0)
  = Ret (mkResult true "a-20260101120000000000"
           (Some "https://cdn.jsdelivr.net/gh/u/r@b/music/a-20260101120000000000.mp3")
           (Some "music/a-20260101120000000000.mp3") MsgOK) /\
  w_fs Sample.w0 !! "music/a.mp3" = Some (File "first") /\
  w_fs Sample.w0 !! "music/a-20260101120000000000.mp3" = Some (File "second") /\
  w_fs (snd (process_item Sample.env_mp3 Sample.item_a "music" "u" "r" "b" Sample.w0))
    !! "music/a-20260101120000000000.mp3" = Some (File "audio").
Proof. repeat split; vm_compute; reflexivity. Qed.

(** * Further properties of the code *)

(** ** The name sanitizer, at its edges *)

Section MoreStripFacts.

Variable p : ascii -> bool.

Lemma lstrip_by_all s t :
  Py.all_chars p s = true -> Py.lstrip_by p (s +:+ t) = Py.lstrip_by p t.
Proof.
  induction s as [|c s IH]; [reflexivity|].
  rewrite app_cons. cbn [Py.all_chars Py.lstrip_by].
  intros [-> Hs]%andb_true_iff. auto.
Qed.

Lemma lstrip_by_all_nil s :
  Py.all_chars p s = true -> Py.lstrip_by p s = "".
Proof.
  induction s as [|c s IH]; [reflexivity|]. cbn [Py.all_chars Py.lstrip_by].
  intros [-> Hs]%andb_true_iff. auto.
Qed.

Lemma all_chars_last s c :
  Py.all_chars p s = true -> last_char s = Some c -> p c = true.
Proof.
  induction s as [|d s IH]; [discriminate|]. cbn [Py.all_chars].
  intros [Hd Hs]%andb_true_iff. destruct s as [|e s]; [now intros [= <-]|].
  intros H. now apply IH.
Qed.

Lemma rstrip_by_all_nil s :
  Py.all_chars p s = true -> Py.rstrip_by p s = "".
Proof.
  induction s as [|c s IH]; [reflexivity|]. cbn [Py.all_chars Py.rstrip_by].
  intros [-> Hs]%andb_true_iff. now rewrite IH.
Qed.

Lemma rstrip_by_all s t :
  Py.all_chars p t = true -> Py.rstrip_by p (s +:+ t) = Py.rstrip_by p s.
Proof.
  intros Ht. induction s as [|c s IH].
  - rewrite app_nil_l. now apply rstrip_by_all_nil.
  - rewrite app_cons. cbn [Py.rstrip_by]. now rewrite IH.
Qed.

(** Nothing is stripped on the left of a string that starts outside [p]. *)
Lemma lstrip_by_id s :
  (forall c, first_char s = Some c -> p c = false) -> Py.lstrip_by p s = s.
Proof.
  destruct s as [|c s]; [reflexivity|]. intros H. cbn [Py.lstrip_by].
  now rewrite (H c eq_refl).
Qed.

(** Nothing is stripped on the right of a string that ends outside [p]. *)
Lemma rstrip_by_id s :
  (forall c, last_char s = Some c -> p c = false) -> Py.rstrip_by p s = s.
Proof.
  induction s as [|c s IH]; [reflexivity|]. intros H. cbn [Py.rstrip_by].
  destruct s as [|d s].
  - cbn [Py.rstrip_by]. now rewrite (H c eq_refl).
  - rewrite IH by exact H. reflexivity.
Qed.

(** What is left after stripping on the right starts as the string did. *)
Lemma rstrip_by_first_inv s c :
  first_char (Py.rstrip_by p s) = Some c -> first_char s = Some c.
Proof.
  destruct s as [|d s]; [discriminate|]. cbn [Py.rstrip_by].
  destruct (Py.rstrip_by p s); [destruct (p d)|]; cbn; congruence.
Qed.

End MoreStripFacts.

Lemma strip_first_not_space s c :
  first_char (Py.strip s) = Some c -> Py.isspace c = false.
Proof.
  unfold Py.strip. intros H%rstrip_by_first_inv.
  destruct (lstrip_by_split Py.isspace s) as (_ & _ & _ & Hfirst). auto.
Qed.

(** X1.  The sanitized name never starts with whitespace and never ends with
    a period. *)
Theorem sanitize_name_ends (name : string) :
  (forall c, first_char (sanitize_name name) = Some c -> Py.isspace c = false) /\
  (forall c, last_char (sanitize_name name) = Some c -> c <> "."%char).
Proof.
  unfold sanitize_name.
  set (trimmed := Py.rstrip_chars "." (Py.strip (replace_forbidden name))).
  destruct (String.eqb trimmed "").
  - split; intros c [= <-]; [reflexivity|discriminate].
  - split; intros c Hc.
    + apply rstrip_by_first_inv in Hc. now apply strip_first_not_space in Hc.
    + destruct (rstrip_by_split (fun c => Py.char_in c ".")
                  (Py.strip (replace_forbidden name))) as (_ & _ & _ & Hlast).
      intros ->. specialize (Hlast _ Hc). discriminate.
Qed.

Lemma replace_forbidden_app a b :
  replace_forbidden (a +:+ b) = replace_forbidden a +:+ replace_forbidden b.
Proof.
  induction a as [|c a IH]; [reflexivity|].
  rewrite app_cons. cbn -[FORBIDDEN]. now rewrite IH, app_cons.
Qed.

(** A string whose characters all satisfy [q], none of them forbidden, is
    left alone by the replacement. *)
Lemma replace_forbidden_id q s :
  (forall c, q c = true -> Py.char_in c FORBIDDEN = false) ->
  Py.all_chars q s = true -> replace_forbidden s = s.
Proof.
  intros Hq. induction s as [|c s IH]; [reflexivity|].
  cbn -[FORBIDDEN]. intros [Hc Hs]%andb_true_iff.
  now rewrite (Hq c Hc), IH.
Qed.

Lemma space_not_forbidden c :
  Py.isspace c = true -> Py.char_in c FORBIDDEN = false.
Proof.
  destruct c as [[] [] [] [] [] [] [] []]; vm_compute; congruence.
Qed.

Lemma period_not_forbidden c :
  Py.char_in c "." = true -> Py.char_in c FORBIDDEN = false.
Proof.
  cbn [Py.char_in]. rewrite orb_false_r. intros ->%Ascii.eqb_eq. reflexivity.
Qed.

Lemma period_not_space c : Py.char_in c "." = true -> Py.isspace c = false.
Proof.
  cbn [Py.char_in]. rewrite orb_false_r. intros ->%Ascii.eqb_eq. reflexivity.
Qed.

Lemma all_chars_impl (q q' : ascii -> bool) s :
  (forall c, q c = true -> q' c = true) ->
  Py.all_chars q s = true -> Py.all_chars q' s = true.
Proof.
  intros Hq. induction s as [|c s IH]; [reflexivity|]. cbn [Py.all_chars].
  intros [Hc Hs]%andb_true_iff. now rewrite (Hq c Hc), IH.
Qed.

(** X2.  A name made of whitespace, then periods, then whitespace -- the
    empty name, a blank one, one of periods only -- is sanitized to
    [untitled]. *)
Theorem sanitize_name_blank (a b c : string) :
  Py.all_chars Py.isspace a = true ->
  Py.all_chars (fun x => Py.char_in x ".") b = true ->
  Py.all_chars Py.isspace c = true ->
  sanitize_name (a +:+ b +:+ c) = "untitled".
Proof.
  intros Ha Hb Hc. unfold sanitize_name.
  rewrite !replace_forbidden_app.
  rewrite (replace_forbidden_id Py.isspace a space_not_forbidden Ha).
  rewrite (replace_forbidden_id _ b period_not_forbidden Hb).
  rewrite (replace_forbidden_id Py.isspace c space_not_forbidden Hc).
  unfold Py.strip. rewrite (lstrip_by_all Py.isspace a _ Ha).
  assert (Hkeep : Py.lstrip_by Py.isspace (b +:+ c) = b +:+ c \/ b = "").
  { destruct b as [|x b]; [now right|]. left. rewrite app_cons.
    apply lstrip_by_id. intros y [= <-]. apply period_not_space.
    cbn [Py.all_chars] in Hb. now apply andb_true_iff in Hb as [Hx _]. }
  destruct Hkeep as [-> | ->].
  - rewrite (rstrip_by_all Py.isspace b c Hc).
    rewrite (rstrip_by_id Py.isspace b).
    + unfold Py.rstrip_chars. now rewrite (rstrip_by_all_nil _ b Hb).
    + intros y Hy. apply period_not_space.
      now apply (all_chars_last (fun x => Py.char_in x ".") b).
  - rewrite app_nil_l, (lstrip_by_all_nil Py.isspace c Hc). reflexivity.
Qed.

Lemma sanitize_name_blank_witness : sanitize_name ("  " +:+ ".." +:+ " ") = "untitled".
Proof. apply (sanitize_name_blank "  " ".." " "); reflexivity. Defined.

Lemma sanitize_name_chars name c :
  Py.char_in c (sanitize_name name) = true -> Py.char_in c FORBIDDEN = false.
Proof.
  unfold sanitize_name.
  destruct (String.eqb (Py.rstrip_chars "." (Py.strip (replace_forbidden name))) "").
  - intros H. apply negb_true_iff.
    now apply (all_chars_char_in (fun c => negb (Py.char_in c FORBIDDEN)) "untitled").
  - intros H. apply (replace_forbidden_clean name).
    apply (char_in_lstrip_by Py.isspace), (char_in_rstrip_by Py.isspace).
    now apply (char_in_rstrip_by (fun c => Py.char_in c ".")).
Qed.

Lemma char_in_all q s :
  (forall c, Py.char_in c s = true -> q c = true) -> Py.all_chars q s = true.
Proof.
  induction s as [|d s IH]; [reflexivity|]. intros H. cbn [Py.all_chars].
  rewrite (H d), IH; [reflexivity| |].
  - intros c Hc. apply H. cbn [Py.char_in]. rewrite Hc. apply orb_true_r.
  - cbn [Py.char_in]. now rewrite Ascii.eqb_refl.
Qed.

(** When the name with its forbidden characters replaced needs no trimming,
    it is the sanitized name. *)
Lemma sanitize_name_untrimmed name :
  replace_forbidden name <> "" ->
  (forall c, first_char (replace_forbidden name) = Some c -> Py.isspace c = false) ->
  (forall c, last_char (replace_forbidden name) = Some c ->
     Py.isspace c = false /\ c <> "."%char) ->
  sanitize_name name = replace_forbidden name.
Proof.
  intros Hne Hfirst Hlast. unfold sanitize_name, Py.strip, Py.rstrip_chars.
  rewrite (lstrip_by_id Py.isspace _ Hfirst).
  rewrite (rstrip_by_id Py.isspace) by (intros c Hc; now apply Hlast).
  rewrite (rstrip_by_id (fun c => Py.char_in c ".")).
  - destruct (String.eqb_spec (replace_forbidden name) ""); [contradiction|reflexivity].
  - intros c Hc. destruct (Hlast c Hc) as [_ Hdot]. cbn [Py.char_in].
    rewrite orb_false_r. now apply Ascii.eqb_neq.
Qed.

Lemma length_append a b :
  String.length (a +:+ b) = (String.length a + String.length b)%nat.
Proof. induction a as [|c a IH]; [reflexivity|]. rewrite app_cons. cbn. now rewrite IH. Qed.

Lemma length_zero s : String.length s = 0%nat -> s = "".
Proof. now destruct s. Qed.

(** X3.  The names that [sanitize_name] returns unchanged are exactly the
    clean ones: not empty, without forbidden character, not starting or
    ending with whitespace, not ending with a period. *)
Theorem sanitize_name_fixed_points (name : string) :
  sanitize_name name = name <->
  name <> "" /\
  Py.all_chars (fun c => negb (Py.char_in c FORBIDDEN)) name = true /\
  (forall c, first_char name = Some c -> Py.isspace c = false) /\
  (forall c, last_char name = Some c -> Py.isspace c = false /\ c <> "."%char).
Proof.
  split.
  - intros Hfix.
    assert (Hclean : Py.all_chars (fun c => negb (Py.char_in c FORBIDDEN)) name = true).
    { apply char_in_all. intros c Hc. apply negb_true_iff.
      apply (sanitize_name_chars name). now rewrite Hfix. }
    assert (Hid : replace_forbidden name = name).
    { apply (replace_forbidden_id (fun c => negb (Py.char_in c FORBIDDEN)));
        [|assumption]. intros c. apply negb_true_iff. }
    revert Hfix. unfold sanitize_name. rewrite Hid.
    destruct (lstrip_by_split Py.isspace name) as (lead & Hl & _ & Hfirst).
    destruct (rstrip_by_split Py.isspace (Py.lstrip_by Py.isspace name))
      as (trail & Hr & _ & Hlast).
    destruct (rstrip_by_split (fun c => Py.char_in c ".") (Py.strip name))
      as (dots & Hd & _ & Hend).
    fold (Py.strip name) in Hr, Hlast.
    change (Py.rstrip_by _ (Py.strip name)) with (Py.rstrip_chars "." (Py.strip name))
      in Hd, Hend.
    destruct (String.eqb_spec (Py.rstrip_chars "." (Py.strip name)) "") as [He|Hne].
    + intros <-. repeat split; try discriminate; try reflexivity;
        intros c [= <-]; reflexivity || discriminate.
    + intros Hfix. rewrite Hfix in *.
      assert (Hlen : dots = "" /\ lead = "" /\ trail = "").
      { pose proof (f_equal String.length Hl) as H1.
        rewrite Hr, Hd, !length_append in H1.
        repeat split; apply length_zero; lia. }
      destruct Hlen as (-> & -> & ->).
      assert (Hstrip : Py.strip name = name).
      { rewrite Hd. clear. induction name; [reflexivity|]. rewrite app_cons. congruence. }
      rewrite Hstrip in *. rewrite app_nil_l in Hl. rewrite <- Hl in Hfirst.
      repeat split; auto.
      intros ->. specialize (Hend _ H). discriminate.
  - intros (Hne & Hclean & Hfirst & Hlast).
    assert (Hid : replace_forbidden name = name).
    { apply (replace_forbidden_id (fun c => negb (Py.char_in c FORBIDDEN)));
        [|assumption]. intros c. apply negb_true_iff. }
    rewrite sanitize_name_untrimmed; rewrite Hid; auto.
Qed.

Lemma sanitize_name_fixed_points_example :
  sanitize_name "My Song (live)" = "My Song (live)" /\ sanitize_name "a " <> "a ".
Proof. split; [reflexivity|discriminate]. Qed.

Lemma replace_forbidden_all name :
  Py.all_chars (fun c => Py.char_in c FORBIDDEN) name = true ->
  Py.all_chars (Ascii.eqb "_") (replace_forbidden name) = true.
Proof.
  induction name as [|c name IH]; [reflexivity|]. cbn -[FORBIDDEN].
  intros [-> Hs]%andb_true_iff. cbn. auto.
Qed.

Lemma all_chars_first q s c :
  Py.all_chars q s = true -> first_char s = Some c -> q c = true.
Proof.
  destruct s as [|d s]; [discriminate|]. cbn [Py.all_chars].
  intros [Hd _]%andb_true_iff [= <-]. assumption.
Qed.

(** X4.  A name made of forbidden characters only is not replaced by
    [untitled]: it becomes as many underscores. *)
Theorem sanitize_name_forbidden_only (name : string) :
  name <> "" ->
  Py.all_chars (fun c => Py.char_in c FORBIDDEN) name = true ->
  sanitize_name name = replace_forbidden name /\
  String.length (sanitize_name name) = String.length name /\
  Py.all_chars (Ascii.eqb "_") (sanitize_name name) = true.
Proof.
  intros Hne Hall. pose proof (replace_forbidden_all name Hall) as Hus.
  assert (Hsame : sanitize_name name = replace_forbidden name).
  { apply sanitize_name_untrimmed.
    - destruct name; [contradiction|discriminate].
    - intros c Hc. apply (all_chars_first _ _ _ Hus) in Hc.
      apply Ascii.eqb_eq in Hc. now subst c.
    - intros c Hc. apply (all_chars_last _ _ _ Hus) in Hc.
      apply Ascii.eqb_eq in Hc. subst c. split; [reflexivity|discriminate]. }
  rewrite Hsame. split; [reflexivity|]. split; [apply replace_forbidden_length|assumption].
Qed.

Lemma sanitize_name_forbidden_only_witness :
  sanitize_name "?/:" = replace_forbidden "?/:" /\
  String.length (sanitize_name "?/:") = String.length "?/:" /\
  Py.all_chars (Ascii.eqb "_") (sanitize_name "?/:") = true.
Proof.
  apply (sanitize_name_forbidden_only "?/:"); [discriminate|reflexivity].
Defined.

(** ** The parsing loop, line by line *)

Lemma field_spec s :
  s = fst (PyText.field s) +:+ snd (PyText.field s) /\
  Py.all_chars (fun c => negb (Py.isspace c)) (fst (PyText.field s)) = true /\
  (forall c, first_char (snd (PyText.field s)) = Some c -> Py.isspace c = true).
Proof.
  induction s as [|c s (Hs & Hf & Hr)]; cbn [PyText.field].
  - repeat split. discriminate.
  - destruct (Py.isspace c) eqn:Hc; cbn [fst snd].
    + repeat split. now intros d [= <-].
    + destruct (PyText.field s) as [f r]. cbn [fst snd] in *.
      rewrite app_cons, <- Hs. cbn [Py.all_chars]. rewrite Hc, Hf. auto.
Qed.

Lemma strip_blank s : Py.all_chars Py.isspace s = true -> Py.strip s = "".
Proof. intros H. unfold Py.strip. now rewrite (lstrip_by_all_nil _ _ H). Qed.

Lemma lstrip_nil_blank s : Py.lstrip_by Py.isspace s = "" -> blank s.
Proof.
  destruct (lstrip_by_split Py.isspace s) as (lead & Hs & Hlead & _).
  intros H. rewrite H in Hs. unfold blank. rewrite Hs.
  clear -Hlead. induction lead as [|c l IH]; [reflexivity|].
  rewrite app_cons. cbn [Py.all_chars] in *.
  apply andb_true_iff in Hlead as [-> Hl]. auto.
Qed.

(** What [split(None, 1)] returns: nothing for a blank string, one field or
    two otherwise. *)
Lemma split_ws_1_spec s :
  match PyText.split_ws_1 s with
  | [] => blank s
  | [f] => one_field s f
  | [url; rest] => two_fields s url rest
  | _ => False
  end.
Proof.
  unfold PyText.split_ws_1.
  destruct (lstrip_by_split Py.isspace s) as (lead & Hs & Hlead & Hfirst).
  destruct (Py.lstrip_by Py.isspace s) as [|c s1] eqn:Hl.
  { now apply lstrip_nil_blank. }
  destruct (field_spec (String c s1)) as (Hsplit & Hsolid & Hafter).
  destruct (PyText.field (String c s1)) as [first after]. cbn [fst snd] in *.
  assert (Hfield : solid first).
  { split; [|assumption]. intros ->. rewrite app_nil_l in Hsplit. subst after.
    specialize (Hfirst c eq_refl). specialize (Hafter c eq_refl). congruence. }
  destruct (lstrip_by_split Py.isspace after) as (gap & Ha & Hgap & Hrest).
  destruct (Py.lstrip_by Py.isspace after) as [|d rest] eqn:Hla.
  - exists lead, after. repeat split; try apply Hfield; try assumption.
    + now rewrite <- Hsplit.
    + now apply lstrip_nil_blank.
  - exists lead, gap. split; [now rewrite <- Ha, <- Hsplit|].
    repeat split; try apply Hfield; try assumption.
    + intros ->. rewrite app_nil_l in Ha. subst after.
      specialize (Hafter d eq_refl). specialize (Hrest d eq_refl). congruence.
    + exists d. split; [reflexivity|]. now apply Hrest.
Qed.

Lemma parse_lines_run (lines : list string) (items : list WorkItem) (w : World) :
  exists its,
    fst (parse_lines lines items w) = Ret (items ++ its) /\ parsed lines its.
Proof.
  revert items w. induction lines as [|line rest IH]; intros items w.
  - exists []. rewrite app_nil_r. split; [reflexivity|constructor].
  - rewrite parse_lines_cons.
    destruct (String.eqb_spec (Py.strip line) "") as [Hblank|Hsome].
    { destruct (IH items w) as (its & Hrun & Hp). exists its. split; [assumption|].
      apply parsed_blank; [|assumption]. apply lstrip_nil_blank.
      unfold Py.strip in Hblank.
      destruct (rstrip_by_split Py.isspace (Py.lstrip_by Py.isspace line))
        as (trail & Ht & Hall & _).
      rewrite Hblank, app_nil_l in Ht. rewrite Ht in *.
      destruct trail as [|c t]; [reflexivity|]. cbn [Py.all_chars] in Hall.
      apply andb_true_iff in Hall as [Hc _].
      destruct (lstrip_by_split Py.isspace line) as (_ & _ & _ & Hfirst).
      rewrite Ht in Hfirst. specialize (Hfirst c eq_refl). congruence. }
    destruct (is_done line) eqn:Hdone.
    { exists []. rewrite app_nil_r. split; [reflexivity|now constructor]. }
    pose proof (split_ws_1_spec line) as Hsplit.
    destruct (PyText.split_ws_1 line) as [|url [|filename [|more parts]]].
    + exfalso. apply Hsome. now apply strip_blank.
    + unfold bind, print.
      destruct (IH items (mkWorld (w_fs w) (EvPrint (PrMalformed line) :: w_log w)))
        as (its & Hrun & Hp).
      exists its. split; [assumption|]. now apply (parsed_malformed line rest url).
    + destruct (IH (items ++ [(url, filename)]) w) as (its & Hrun & Hp).
      exists ((url, filename) :: its). split.
      * rewrite Hrun. now rewrite <- app_assoc.
      * now constructor.
    + contradiction.
Qed.

(** ** Looking for the tools *)

Lemma missing_tools_spec E found tools : forall missing w,
  calm E -> (forall tool w', os_which E tool w' = found tool) ->
  missing_tools E tools missing w
  = (Ret (missing ++ not_found found tools),
     mkWorld (w_fs w) (rev (map EvWhich tools) ++ w_log w)).
Proof.
  induction tools as [|tool rest IH]; intros missing w HE Hw.
  - cbn. rewrite app_nil_r. now destruct w.
  - cbn [missing_tools]. unfold which.
    erewrite bind_ret_l by (rewrite call_calm by assumption; reflexivity).
    cbn [fst snd]. rewrite Hw, IH by assumption. cbn [w_fs w_log map rev not_found List.filter].
    rewrite <- !app_assoc. destruct (found tool); cbn [negb]; [reflexivity|].
    now rewrite <- app_assoc.
Qed.

Lemma ensure_tools_run E found w :
  calm E -> (forall tool w', os_which E tool w' = found tool) ->
  ensure_tools E w
  = (match not_found found TOOLS with
     | [] => Ret tt
     | missing => Raise (MissingTools missing)
     end,
     mkWorld (w_fs w)
             (EvWhich "ffprobe" :: EvWhich "ffmpeg" :: EvWhich "yt-dlp" :: w_log w)).
Proof.
  intros HE Hw. unfold ensure_tools.
  erewrite bind_ret_l by (now apply (missing_tools_spec E found)).
  cbn [app]. fold TOOLS. now destruct (not_found found TOOLS).
Qed.

(** X6.  [ensure_tools] looks for the three tools, always all of them, and
    touches no file; it returns when it finds them all and otherwise raises
    an error that lists the tools it did not find, in the order yt-dlp,
    ffmpeg, ffprobe. *)
Theorem ensure_tools_spec (E : Env) (found : string -> bool) (w : World) :
  calm E -> (forall tool w', os_which E tool w' = found tool) ->
  ensure_tools E w
  = (match not_found found TOOLS with
     | [] => Ret tt
     | missing => Raise (MissingTools missing)
     end,
     mkWorld (w_fs w)
             (EvWhich "ffprobe" :: EvWhich "ffmpeg" :: EvWhich "yt-dlp" :: w_log w)) /\
  (not_found found TOOLS = [] <->
   found "yt-dlp" = true /\ found "ffmpeg" = true /\ found "ffprobe" = true).
Proof.
  intros HE Hw. split.
  - now apply ensure_tools_run.
  - unfold not_found, TOOLS. cbn [List.filter].
    destruct (found "yt-dlp"), (found "ffmpeg"), (found "ffprobe"); cbn;
      split; try discriminate; try tauto; intros (? & ? & ?); discriminate.
Qed.

Lemma ensure_tools_spec_witness :
  ensure_tools (Sample2.env_tools Sample2.only_ytdlp) Sample.w0
  = (Raise (MissingTools ["ffmpeg"; "ffprobe"]),
     mkWorld (w_fs Sample.w0)
             (EvWhich "ffprobe" :: EvWhich "ffmpeg" :: EvWhich "yt-dlp" :: w_log Sample.w0)).
Proof.
  destruct (ensure_tools_spec (Sample2.env_tools Sample2.only_ytdlp) Sample2.only_ytdlp
              Sample.w0) as [Hrun _].
  - intros ev w. reflexivity.
  - intros tool w'. reflexivity.
  - exact Hrun.
Defined.

(** ** The early ends of [main] *)

(** The start of [main], up to the test of the list: the output folder is
    made. *)
Lemma main_start E w :
  os_fault E (EvMakedirs OUTDIR) w = None ->
  (forall t, w_fs w !! OUTDIR <> Some (File t)) ->
  exists fs,
    makedirs E OUTDIR w = (Ret tt, mkWorld fs (EvMakedirs OUTDIR :: w_log w)) /\
    fs !! OUTDIR = Some Dir /\ (forall q, q <> OUTDIR -> fs !! q = w_fs w !! q).
Proof.
  intros HE Hp. unfold makedirs, call. rewrite HE.
  destruct (w_fs w !! OUTDIR) as [[t|]|] eqn:Hl.
  - now destruct (Hp t).
  - exists (w_fs w). auto.
  - exists (<[OUTDIR := Dir]> (w_fs w)). split; [reflexivity|]. split.
    + apply lookup_insert_eq.
    + intros q Hq. now apply lookup_insert_ne.
Qed.

(** X7.  When there is nothing at the path of the list, a relative path in
    normal form, [main] returns 1 after making the output folder and
    printing one line: it looks for no tool, reads nothing and starts no
    task. *)
Theorem main_list_missing (E : Env) (args : Args) (w : World) :
  os_fault E (EvMakedirs OUTDIR) w = None ->
  (forall t, w_fs w !! OUTDIR <> Some (File t)) ->
  normal_path (arg_list args) = true ->
  arg_list args <> OUTDIR ->
  w_fs w !! arg_list args = None ->
  exists fs,
    main E args w
    = (Ret 1, mkWorld fs (EvPrint (PrListMissing (arg_list args))
                          :: EvMakedirs OUTDIR :: w_log w)) /\
    forall q, q <> OUTDIR -> fs !! q = w_fs w !! q.
Proof.
  intros HE Hout _ Hne Hnone.
  destruct (main_start E w HE Hout) as (fs & Hmk & _ & Hfs).
  exists fs. split; [|assumption].
  unfold main, chdir_to_script_root.
  erewrite bind_ret_l by reflexivity.
  erewrite bind_ret_l by exact Hmk.
  erewrite bind_ret_l by reflexivity.
  cbn [w_fs]. rewrite Hfs, Hnone by assumption.
  rewrite bool_decide_false by (intros [x Hx]; discriminate).
  reflexivity.
Qed.

Lemma main_list_missing_witness :
  exists fs,
    main Sample.env_ok Sample.args0 Sample2.w_empty
    = (Ret 1, mkWorld fs [EvPrint (PrListMissing "music_download.txt");
                          EvMakedirs OUTDIR]) /\
    forall q, q <> OUTDIR -> fs !! q = w_fs Sample2.w_empty !! q.
Proof.
  apply (main_list_missing Sample.env_ok Sample.args0 Sample2.w_empty).
  - reflexivity.
  - intros t. vm_compute. discriminate.
  - reflexivity.
  - discriminate.
  - reflexivity.
Defined.

(** X8.  When a tool is not found, [main] raises the error of
    [ensure_tools] before it reads the list: whatever the list holds, no
    file is read or written and no task is started. *)
Theorem main_tools_missing (E : Env) (found : string -> bool) (args : Args) (w : World) :
  calm E -> (forall tool w', os_which E tool w' = found tool) ->
  (forall t, w_fs w !! OUTDIR <> Some (File t)) ->
  arg_list args <> OUTDIR ->
  is_Some (w_fs w !! arg_list args) ->
  not_found found TOOLS <> [] ->
  exists fs,
    main E args w
    = (Raise (MissingTools (not_found found TOOLS)),
       mkWorld fs (EvWhich "ffprobe" :: EvWhich "ffmpeg" :: EvWhich "yt-dlp"
                   :: EvMakedirs OUTDIR :: w_log w)) /\
    forall q, q <> OUTDIR -> fs !! q = w_fs w !! q.
Proof.
  intros HE Hw Hout Hne Hlist Hmiss.
  destruct (main_start E w (HE _ _) Hout) as (fs & Hmk & _ & Hfs).
  exists fs. split; [|assumption].
  unfold main, chdir_to_script_root.
  erewrite bind_ret_l by reflexivity.
  erewrite bind_ret_l by exact Hmk.
  erewrite bind_ret_l by reflexivity.
  cbn [w_fs]. rewrite Hfs by assumption.
  rewrite bool_decide_true by assumption. cbn [negb].
  erewrite bind_raise_l; [reflexivity|].
  rewrite (ensure_tools_run E found _ HE Hw).
  destruct (not_found found TOOLS); [contradiction|reflexivity].
Qed.

Lemma main_tools_missing_witness :
  exists fs,
    main (Sample2.env_tools Sample2.only_ytdlp) Sample.args0 Sample.w0
    = (Raise (MissingTools (not_found Sample2.only_ytdlp TOOLS)),
       mkWorld fs (EvWhich "ffprobe" :: EvWhich "ffmpeg" :: EvWhich "yt-dlp"
                   :: EvMakedirs OUTDIR :: w_log Sample.w0)) /\
    forall q, q <> OUTDIR -> fs !! q = w_fs Sample.w0 !! q.
Proof.
  apply (main_tools_missing (Sample2.env_tools Sample2.only_ytdlp) Sample2.only_ytdlp
           Sample.args0 Sample.w0).
  - intros ev w. reflexivity.
  - intros tool w'. reflexivity.
  - intros t. vm_compute. discriminate.
  - discriminate.
  - eexists. vm_compute. reflexivity.
  - discriminate.
Defined.

(** X9.  When the last line of the list that is not blank is [done], in any
    case of letters and between any whitespace, [main] returns 0 once it has
    read the list: it prints one line, starts no task and leaves the list
    and the list of results as they are. *)
Theorem main_already_done (E : Env) (args : Args) (w : World) (text : string) :
  calm E ->
  (forall tool w', os_which E tool w' = true) ->
  w_fs w !! arg_list args = Some (File text) ->
  (forall t, w_fs w !! OUTDIR <> Some (File t)) ->
  marked_done (last_non_empty (PyText.splitlines text)) = true ->
  exists fs,
    main E args w
    = (Ret 0,
       mkWorld fs (EvPrint PrAlreadyDone :: EvRead (arg_list args)
                   :: EvWhich "ffprobe" :: EvWhich "ffmpeg" :: EvWhich "yt-dlp"
                   :: EvMakedirs OUTDIR :: w_log w)) /\
    forall q, q <> OUTDIR -> fs !! q = w_fs w !! q.
Proof.
  intros HE Hwhich Hlist Hout Hlast.
  destruct (makedirs_calm E OUTDIR w HE Hout) as (fs & Hmk & Hdir & Hfs).
  assert (Hne : arg_list args <> OUTDIR).
  { intros Heq. rewrite Heq in Hlist. now destruct (Hout text). }
  exists fs. split; [|assumption].
  unfold main, chdir_to_script_root.
  erewrite bind_ret_l by reflexivity.
  erewrite bind_ret_l by exact Hmk.
  erewrite bind_ret_l by reflexivity.
  cbn [w_fs]. rewrite Hfs, Hlist by assumption.
  rewrite bool_decide_true by eauto. cbn [negb].
  erewrite bind_ret_l.
  2:{ unfold ensure_tools. erewrite bind_ret_l by (now apply missing_tools_found).
      reflexivity. }
  erewrite bind_ret_l.
  2:{ unfold read_lines_utf8bom. rewrite call_calm by assumption.
      cbn [w_fs]. rewrite Hfs, Hlist by assumption. reflexivity. }
  cbn [fst snd]. rewrite Hlast. reflexivity.
Qed.

Lemma main_already_done_witness :
  exists fs,
    main Sample.env_ok Sample.args0 Sample2.w_marked
    = (Ret 0,
       mkWorld fs (EvPrint PrAlreadyDone :: EvRead "music_download.txt"
                   :: EvWhich "ffprobe" :: EvWhich "ffmpeg" :: EvWhich "yt-dlp"
                   :: EvMakedirs OUTDIR :: w_log Sample2.w_marked)) /\
    forall q, q <> OUTDIR -> fs !! q = w_fs Sample2.w_marked !! q.
Proof.
  apply (main_already_done Sample.env_ok Sample.args0 Sample2.w_marked
           ("https://example.org/v1 a" +:+ LF +:+ "Done " +:+ LF +:+ "  ")).
  - intros ev w. reflexivity.
  - intros tool w'. reflexivity.
  - reflexivity.
  - intros t. vm_compute. discriminate.
  - reflexivity.
Defined.

(** ** The probes *)

Lemma strip_nil_blank s : Py.strip s = "" -> blank s.
Proof.
  intros Hblank. apply lstrip_nil_blank. unfold Py.strip in Hblank.
  destruct (rstrip_by_split Py.isspace (Py.lstrip_by Py.isspace s))
    as (trail & Ht & Hall & _).
  rewrite Hblank, app_nil_l in Ht.
  destruct (lstrip_by_split Py.isspace s) as (_ & _ & _ & Hfirst).
  destruct (Py.lstrip_by Py.isspace s) as [|c t]; [reflexivity|].
  subst trail. cbn [Py.all_chars] in Hall. apply andb_true_iff in Hall as [Hc _].
  specialize (Hfirst c eq_refl). congruence.
Qed.

Lemma splitlines_nil s : PyText.splitlines s = [] -> s = "".
Proof.
  destruct s as [|c s]; [reflexivity|]. cbn [PyText.splitlines].
  destruct (Py.islinebreak c); [discriminate|].
  destruct (PyText.splitlines s); discriminate.
Qed.

Lemma run_cmd_ok E cmd w r fs :
  os_fault E (EvRun cmd) w = None -> os_run E cmd w = (r, fs) ->
  run_cmd E cmd w = (Ret r, mkWorld fs (EvRun cmd :: w_log w)).
Proof. intros Hf Hr. unfold run_cmd, call. now rewrite Hf, Hr. Qed.

(** X10.  [ffprobe_bitrate] runs the probe once.  It gives 0 when the probe
    fails or prints nothing, and the integer on the first line of the
    trimmed output, or 0 when that line is no integer, when the output is not
    blank.  When the probe succeeds with an output that is not empty but
    blank, it raises [IndexError]. *)
Theorem ffprobe_bitrate_spec (E : Env) (src : string) (w : World)
    (code : Z) (out err : string) (fs : gmap string node) :
  os_fault E (EvRun (ffprobe_bitrate_cmd src)) w = None ->
  os_run E (ffprobe_bitrate_cmd src) w = ((code, out, err), fs) ->
  snd (ffprobe_bitrate E src w) = mkWorld fs (EvRun (ffprobe_bitrate_cmd src) :: w_log w) /\
  (code <> 0 \/ out = "" -> fst (ffprobe_bitrate E src w) = Ret 0) /\
  (code = 0 -> out <> "" -> blank out ->
   fst (ffprobe_bitrate E src w) = Raise (Exn "list index out of range")) /\
  (code = 0 -> ~ blank out ->
   exists line rest,
     PyText.splitlines (Py.strip out) = line :: rest /\
     fst (ffprobe_bitrate E src w) = Ret (default 0 (PyText.int line))).
Proof.
  intros Hf Hr. unfold ffprobe_bitrate.
  change (run_cmd E _) with (run_cmd E (ffprobe_bitrate_cmd src)).
  erewrite bind_ret_l by (eapply run_cmd_ok; eassumption).
  split; [|split; [|split]].
  - destruct (code =? 0); [|reflexivity]. unfold bind.
    destruct (String.eqb out ""); [unfold ret; now destruct (PyText.int "0")|].
    destruct (PyText.splitlines (Py.strip out)) as [|l ls]; [reflexivity|].
    unfold ret. now destruct (PyText.int l).
  - intros [Hc| ->].
    + apply Z.eqb_neq in Hc. now rewrite Hc.
    + destruct (code =? 0); reflexivity.
  - intros -> Hne Hblank. cbn [Z.eqb].
    destruct (String.eqb_spec out ""); [contradiction|].
    now rewrite (strip_blank out Hblank).
  - intros -> Hnb. cbn [Z.eqb].
    destruct (String.eqb_spec out "") as [->|Hne]; [now destruct Hnb|].
    destruct (PyText.splitlines (Py.strip out)) as [|l ls] eqn:Hl.
    + apply splitlines_nil, strip_nil_blank in Hl. contradiction.
    + exists l, ls. split; [reflexivity|]. unfold bind, ret.
      now destruct (PyText.int l).
Qed.

Lemma ffprobe_bitrate_spec_witness :
  fst (ffprobe_bitrate Sample3.env_blank_rate (Sample.src "mp3") Sample.w0)
  = Raise (Exn "list index out of range") /\
  fst (ffprobe_bitrate Sample.env_180k (Sample.src "mp3") Sample.w0) = Ret 180000.
Proof.
  split.
  - destruct (ffprobe_bitrate_spec Sample3.env_blank_rate (Sample.src "mp3") Sample.w0
                0 (" " +:+ LF) "" (w_fs Sample.w0)) as (_ & _ & Hraise & _);
      [reflexivity|reflexivity|].
    apply Hraise; [reflexivity|discriminate|reflexivity].
  - destruct (ffprobe_bitrate_spec Sample.env_180k (Sample.src "mp3") Sample.w0
                0 "180000" "" (w_fs Sample.w0)) as (_ & _ & _ & Hvalue);
      [reflexivity|reflexivity|].
    destruct Hvalue as (line & rest & Hline & Hrun); [reflexivity|discriminate|].
    rewrite Hrun. injection Hline as <- _. reflexivity.
Defined.

(** ** Writing and reading lines *)

Lemma splitlines_one_line p :
  one_line p -> p <> "" -> PyText.splitlines p = [p].
Proof.
  unfold one_line. induction p as [|c p IH]; [congruence|].
  cbn [Py.all_chars PyText.splitlines]. intros [Hc Hp]%andb_true_iff _.
  apply negb_true_iff in Hc. rewrite Hc.
  destruct p as [|d p]; [reflexivity|]. rewrite IH; [reflexivity|assumption|discriminate].
Qed.

Lemma splitlines_line_app p t :
  one_line p -> PyText.splitlines (p +:+ LF +:+ t) = p :: PyText.splitlines t.
Proof.
  unfold one_line. induction p as [|c p IH].
  - intros _. rewrite app_nil_l. unfold LF. rewrite app_cons, app_nil_l.
    cbn [PyText.splitlines]. change (Py.islinebreak "010") with true. cbn iota.
    now destruct t.
  - rewrite app_cons. cbn [Py.all_chars PyText.splitlines].
    intros [Hc Hp]%andb_true_iff. apply negb_true_iff in Hc. rewrite Hc.
    now rewrite IH.
Qed.

(** Lines that are joined and split again are the same lines, provided that
    each holds no line boundary and the last one is not empty. *)
Lemma splitlines_join lines :
  Forall one_line lines -> List.last lines "x" <> "" ->
  PyText.splitlines (Py.join LF lines) = lines.
Proof.
  induction lines as [|p rest IH]; [reflexivity|].
  intros Hall Hlast. inversion Hall as [|? ? Hp Hrest]; subst.
  destruct rest as [|q rest].
  - cbn [Py.join]. apply splitlines_one_line; assumption.
  - change (Py.join LF (p :: q :: rest)) with (p +:+ LF +:+ Py.join LF (q :: rest)).
    rewrite splitlines_line_app by assumption. f_equal. apply IH; assumption.
Qed.

(** [write_lines_utf8bom] in a calm environment, when the folder can be made
    and the path is free for a file. *)
Lemma write_lines_calm E path lines w :
  calm E ->
  (forall t, w_fs w !! folder_of path <> Some (File t)) ->
  w_fs w !! path <> Some Dir ->
  folder_of path <> path ->
  exists fs,
    write_lines_utf8bom E path lines w
    = (Ret tt,
       mkWorld (<[path := File (Py.join LF lines)]> fs)
               (EvWrite path (Py.join LF lines) :: EvMakedirs (folder_of path) :: w_log w)) /\
    (forall q, q <> folder_of path -> fs !! q = w_fs w !! q).
Proof.
  intros HE Hfolder Hpath Hne.
  destruct (makedirs_calm E (folder_of path) w HE Hfolder) as (fs & Hmk & _ & Hfs).
  exists fs. split; [|assumption].
  unfold write_lines_utf8bom. fold (folder_of path).
  erewrite bind_ret_l by exact Hmk.
  rewrite call_calm by assumption. cbn [w_fs w_log].
  rewrite Hfs by congruence.
  destruct (w_fs w !! path) as [[t|]|]; try reflexivity. now destruct Hpath.
Qed.

(** X11.  Lines written with [write_lines_utf8bom] are read back unchanged
    with [read_lines_utf8bom], whatever the file held before, provided that
    no line holds a line boundary and the last line is not empty. *)
Theorem write_then_read_lines (E : Env) (path : string) (lines : list string) (w : World) :
  calm E ->
  (forall t, w_fs w !! folder_of path <> Some (File t)) ->
  w_fs w !! path <> Some Dir ->
  folder_of path <> path ->
  Forall one_line lines -> List.last lines "x" <> "" ->
  exists w1 w2,
    write_lines_utf8bom E path lines w = (Ret tt, w1) /\
    read_lines_utf8bom E path w1 = (Ret lines, w2) /\
    w_fs w2 = w_fs w1.
Proof.
  intros HE Hfolder Hpath Hne Hlines Hlast.
  destruct (write_lines_calm E path lines w HE Hfolder Hpath Hne) as (fs & Hwrite & _).
  eexists. eexists. split; [exact Hwrite|].
  unfold read_lines_utf8bom. rewrite call_calm by assumption. cbn [w_fs].
  rewrite lookup_insert_eq. cbn [fst snd].
  rewrite splitlines_join by assumption. split; reflexivity.
Qed.

Lemma write_then_read_lines_witness :
  exists w1 w2,
    write_lines_utf8bom Sample.env_ok URLLIST_NAME (out_lines Sample.results2)
      Sample.w_broken = (Ret tt, w1) /\
    read_lines_utf8bom Sample.env_ok URLLIST_NAME w1
    = (Ret (out_lines Sample.results2), w2) /\
    w_fs w2 = w_fs w1.
Proof.
  apply (write_then_read_lines Sample.env_ok URLLIST_NAME (out_lines Sample.results2)
           Sample.w_broken).
  - intros ev w. reflexivity.
  - intros t. vm_compute. discriminate.
  - vm_compute. discriminate.
  - discriminate.
  - repeat constructor.
  - discriminate.
Defined.

(** ** The end of [main]: marking the list *)

(** Whatever the text, once a line feed and [done] are added its last line is
    [done]. *)
Lemma splitlines_ends_done n : forall old,
  (String.length old <= n)%nat ->
  exists first more,
    PyText.splitlines (old +:+ LF +:+ "done") = first :: more ++ ["done"].
Proof.
  induction n as [|n IH]; intros old Hlen.
  - destruct old; [|cbn in Hlen; lia]. exists "", []. reflexivity.
  - destruct old as [|c old]; [exists "", []; reflexivity|].
    cbn in Hlen. rewrite app_cons. cbn [PyText.splitlines].
    destruct (Py.islinebreak c).
    + destruct old as [|d old].
      * rewrite app_nil_l. unfold LF. rewrite app_cons, app_nil_l.
        destruct (Ascii.eqb c "013" && Ascii.eqb "010" "010").
        -- exists "", []. reflexivity.
        -- exists "", [""]. reflexivity.
      * rewrite app_cons.
        destruct (Ascii.eqb c "013" && Ascii.eqb d "010").
        -- destruct (IH old) as (a & l & ->); [cbn in Hlen; lia|].
           exists "", (a :: l). reflexivity.
        -- rewrite <- app_cons.
           destruct (IH (String d old)) as (a & l & ->); [lia|].
           exists "", (a :: l). reflexivity.
    + destruct (IH old) as (a & l & ->); [lia|].
      exists (String c a), l. reflexivity.
Qed.

Lemma marked_done_ends_done first more :
  marked_done (last_non_empty (first :: more ++ ["done"])) = true.
Proof.
  unfold last_non_empty. rewrite app_comm_cons, rev_app_distr. reflexivity.
Qed.

(** The three texts that marking can give are all recognised as marked. *)
Lemma marked_text old sep :
  (sep = LF \/ (sep = "" /\ old = "")) ->
  marked_done (last_non_empty (PyText.splitlines (old +:+ sep +:+ "done"))) = true.
Proof.
  intros [-> | [-> ->]]; [|reflexivity].
  destruct (splitlines_ends_done (String.length old) old (le_n _)) as (a & l & ->).
  apply marked_done_ends_done.
Qed.

(** Marking the list returns, whatever fails in it. *)
Lemma mark_returns E path lines w :
  exists w',
    try_except (append_line_utf8bom E path "done")
      (fun _ => swallow (write_lines_utf8bom E path (lines ++ ["done"]))) w
    = (Ret tt, w').
Proof.
  unfold try_except, swallow, try_except.
  destruct (append_line_utf8bom E path "done" w) as [[[]|e] w1]; [eauto|].
  destruct (write_lines_utf8bom E path (lines ++ ["done"]) w1) as [[[]|e'] w2]; eauto.
Qed.

Lemma filter_split_length (results : list TaskResult) :
  (length (filter (fun r => success r = true) results)
   + length (filter (fun r => success r = false) results))%nat = length results.
Proof.
  induction results as [|r rs IH]; [reflexivity|].
  rewrite !filter_cons. destruct (success r) eqn:Hr.
  - rewrite decide_True, decide_False by congruence. cbn. lia.
  - rewrite decide_False, decide_True by congruence. cbn. lia.
Qed.

(** ** The task: the shape of its result *)

Lemma at_name_ret {A} n (Q : A -> Prop) a : Q a -> at_name n Q (ret a).
Proof. intros H f a' f' _ [= <- _]. assumption. Qed.

Lemma at_name_raise {A} n (Q : A -> Prop) e : at_name n Q (raise e).
Proof. intros f a f' _ [=]. Qed.

Lemma at_name_bind {A B} n (Q : B -> Prop) (m : M Frame A) (k : A -> M Frame B) :
  keeps_name m -> (forall a, at_name n Q (k a)) -> at_name n Q (bind m k).
Proof.
  intros Hm Hk f b f' Hn. unfold bind. specialize (Hm f).
  destruct (m f) as [[a|e] f1]; [|discriminate]. cbn [snd] in Hm.
  apply (Hk a f1). congruence.
Qed.

Lemma at_name_get {B} n (Q : B -> Prop) (k : string -> M Frame B) :
  at_name n Q (k n) -> at_name n Q (bind get_safe_name k).
Proof.
  intros Hk f b f' Hn. unfold bind, get_safe_name. rewrite Hn. now apply Hk.
Qed.

Ltac at_name_steps :=
  repeat first
    [ apply at_name_get
    | apply at_name_raise
    | apply at_name_bind; [unfold swallow; keeps|intros]
    | match goal with
      | |- at_name _ _ (if ?b then _ else _) => destruct b
      | |- at_name _ _ (match ?x with _ => _ end) => destruct x
      end ].

(** An early result of the download is a failure under the current name. *)
Lemma fetch_and_probe_early E url tmpdir n :
  at_name n (fun r => match r with
                      | inl early => failure_named n early
                      | inr _ => True
                      end)
          (fetch_and_probe E url tmpdir).
Proof.
  unfold fetch_and_probe. at_name_steps;
    apply at_name_ret; try exact I; eexists; (split; [reflexivity|discriminate]).
Qed.

Lemma deliver_early_named E src codec bps dest_base n :
  at_name n (fun r => match r with
                      | Some early => failure_named n early
                      | None => True
                      end)
          (deliver E src codec bps dest_base).
Proof.
  unfold deliver. at_name_steps;
    apply at_name_ret; try exact I; eexists; (split; [reflexivity|discriminate]).
Qed.

(** The destination is the path of the name that the choice leaves, which is
    the name before it, alone or with a time stamp. *)
Lemma choose_dest_result E outdir f o f' :
  choose_dest E outdir f = (o, f') ->
  (fr_safe_name f' = fr_safe_name f \/
   exists ts, fr_safe_name f' = fr_safe_name f +:+ "-" +:+ ts) /\
  (forall d, o = Ret d -> d = Path.join outdir (fr_safe_name f' +:+ ".mp3")).
Proof.
  unfold choose_dest. unfold bind at 1, get_safe_name. unfold bind at 1.
  pose proof (keeps_os (path_exists (Path.join outdir (fr_safe_name f +:+ ".mp3"))) f)
    as Hkeep.
  destruct (os (path_exists _) f) as [[taken|e] f1]; cbn [snd] in Hkeep.
  2:{ intros [= <- <-]. split; [now left|discriminate]. }
  destruct taken.
  - unfold bind at 1. pose proof (keeps_os (now_stamp E) f1) as Hnow.
    destruct (os (now_stamp E) f1) as [[ts|e] f2]; cbn [snd] in Hnow.
    + unfold bind, set_safe_name, get_safe_name, ret. cbn [fr_safe_name].
      intros [= <- <-]. cbn [fr_safe_name]. split; [right; now exists ts|].
      now intros d [= <-].
    + intros [= <- <-]. split; [left; congruence|discriminate].
  - unfold ret. intros [= <- <-]. rewrite Hkeep. split; [now left|].
    now intros d [= <-].
Qed.

Lemma task_body_shape E url outdir user repo branch tmpdir f o f1 :
  task_body E url outdir user repo branch tmpdir f = (o, f1) ->
  (fr_safe_name f1 = fr_safe_name f \/
   exists ts, fr_safe_name f1 = fr_safe_name f +:+ "-" +:+ ts) /\
  (forall r, o = Ret r ->
     r = mkResult true (fr_safe_name f1)
           (Some (cdn_url user repo branch (fr_safe_name f1)))
           (Some (Path.join outdir (fr_safe_name f1 +:+ ".mp3"))) MsgOK \/
     failure_named (fr_safe_name f1) r).
Proof.
  unfold task_body. unfold bind at 1.
  pose proof (keeps_fetch_and_probe E url tmpdir f) as Hk2.
  pose proof (fetch_and_probe_early E url tmpdir (fr_safe_name f) f) as He2.
  destruct (fetch_and_probe E url tmpdir f) as [[[early|[[src codec] bps]]|e] f2];
    cbn [snd] in Hk2.
  - intros [= <- <-]. split; [now left|]. intros r [= <-]. right.
    rewrite Hk2. now apply (He2 (inl early) f2).
  - clear He2. unfold bind at 1.
    pose proof (choose_dest_result E outdir f2) as Hc.
    destruct (choose_dest E outdir f2) as [[d|e] f3].
    2:{ intros [= <- <-]. destruct (Hc _ _ eq_refl) as [Hn _].
        rewrite Hk2 in Hn. split; [assumption|discriminate]. }
    destruct (Hc _ _ eq_refl) as [Hn Hd]. rewrite Hk2 in Hn.
    specialize (Hd d eq_refl). unfold bind at 1.
    pose proof (keeps_deliver E src codec bps d f3) as Hk4.
    pose proof (deliver_early_named E src codec bps d (fr_safe_name f3) f3) as He4.
    destruct (deliver E src codec bps d f3) as [[[early|]|e] f4]; cbn [snd] in Hk4;
      rewrite <- Hk4 in Hn, Hd.
    + intros [= <- <-]. split; [assumption|]. intros r [= <-]. right.
      rewrite Hk4. now apply (He4 (Some early) f4).
    + unfold bind, get_safe_name, ret. intros [= <- <-]. split; [assumption|].
      intros r [= <-]. left. now rewrite Hd.
    + intros [= <- <-]. split; [assumption|discriminate].
  - intros [= <- <-]. split; [now left|discriminate].
Qed.

Lemma process_item_shape (E : Env) (url raw outdir user repo branch : string)
    (w w' : World) (r : TaskResult) :
  process_item E (url, raw) outdir user repo branch w = (Ret r, w') ->
  name_of raw (file r) /\
  (success r = true ->
   msg r = MsgOK /\ cdn r = Some (cdn_url user repo branch (file r)) /\
   dest r = Some (Path.join outdir (file r +:+ ".mp3"))) /\
  (success r = false -> msg r <> MsgOK /\ cdn r = None /\ dest r = None).
Proof.
  unfold process_item. unfold bind at 1.
  destruct (mkdtemp E w) as [[tmpdir|e] w1]; [|discriminate].
  unfold with_safe_name, try_finally. set (f0 := mkFrame _ w1).
  destruct (@guarded_returns (task_body E url outdir user repo branch tmpdir) f0)
    as (r0 & f1 & Hrun & Hcase).
  rewrite Hrun, cleanup_runs. intros [= <- _].
  assert (Hshape : name_of raw (fr_safe_name f1) /\
    (r0 = mkResult true (fr_safe_name f1)
            (Some (cdn_url user repo branch (fr_safe_name f1)))
            (Some (Path.join outdir (fr_safe_name f1 +:+ ".mp3"))) MsgOK \/
     failure_named (fr_safe_name f1) r0)).
  { destruct Hcase as [Hret|(e & Hret & ->)];
      destruct (task_body_shape _ _ _ _ _ _ _ _ _ _ Hret) as [Hn Hr].
    - split; [exact Hn|]. now apply Hr.
    - split; [exact Hn|]. right. eexists. split; [reflexivity|discriminate]. }
  destruct Hshape as [Hn [-> | (m & -> & Hm)]]; cbn [file success msg cdn dest failed];
    (split; [exact Hn|]); split; intros H; try discriminate; auto.
Qed.

(** X14.  Every result of [process_item] has one of two shapes.  A success
    carries the message OK, the address built from its name and the path
    [<outdir>/<name>.mp3]; a failure carries no address, no path and a
    message that is not OK.  In both, the name is the sanitized name of the
    item, alone or followed by a hyphen and a time stamp. *)
Theorem process_item_result_shape (E : Env) (url raw outdir user repo branch : string)
    (w w' : World) (r : TaskResult) :
  process_item E (url, raw) outdir user repo branch w = (Ret r, w') ->
  name_of raw (file r) /\
  (success r = true ->
   msg r = MsgOK /\ cdn r = Some (cdn_url user repo branch (file r)) /\
   dest r = Some (Path.join outdir (file r +:+ ".mp3"))) /\
  (success r = false -> msg r <> MsgOK /\ cdn r = None /\ dest r = None).
Proof. apply process_item_shape. Qed.

Lemma process_item_result_shape_witness :
  name_of "a" "a-20260101120000000000" /\
  fst (process_item Sample.env_mp3 Sample.item_a "music" "u" "r" "b" Sample.w0)
  = Ret (mkResult true "a-20260101120000000000"
           (Some (cdn_url "u" "r" "b" "a-20260101120000000000"))
           (Some (Path.join "music" ("a-20260101120000000000" +:+ ".mp3"))) MsgOK).
Proof.
  destruct (process_item_result_shape Sample.env_mp3 "https://example.org/v1" "a"
              "music" "u" "r" "b" Sample.w0
              (snd (process_item Sample.env_mp3 Sample.item_a "music" "u" "r" "b" Sample.w0))
              (mkResult true "a-20260101120000000000"
                 (Some (cdn_url "u" "r" "b" "a-20260101120000000000"))
                 (Some (Path.join "music" ("a-20260101120000000000" +:+ ".mp3"))) MsgOK))
    as (Hname & _).
  - vm_compute. reflexivity.
  - split; [exact Hname|]. vm_compute. reflexivity.
Defined.

(** ** The task: a download that fails *)

Lemma length_take n s : (String.length (Py.take n s) <= n)%nat.
Proof.
  revert s. induction n as [|n IH]; intros [|c s]; cbn; try lia.
  specialize (IH s). lia.
Qed.

Lemma os_ret {A} (m : M World A) n w a w1 :
  m w = (Ret a, w1) -> os m (mkFrame n w) = (Ret a, mkFrame n w1).
Proof. intros H. unfold os. cbn [fr_world fr_safe_name]. now rewrite H. Qed.

(** X15.  When the download tool exits with a code that is not zero, the
    task ends there: its result is a failure under the sanitized name, with
    the error text of the tool, trimmed and cut to 300 characters; nothing is
    listed, probed, moved or transcoded, and the removal of the temporary
    folder follows at once. *)
Theorem process_item_download_failed (E : Env)
    (url raw outdir user repo branch : string) (w : World)
    (code : Z) (out err : string) (fs : gmap string node) :
  calm E ->
  os_run E (ytdlp_cmd url (Path.join (os_mkdtemp E w)
              (os_uuid4_hex E (mkWorld (<[os_mkdtemp E w := Dir]> (w_fs w))
                                       (EvMkdtemp :: w_log w)))))
    (mkWorld (<[os_mkdtemp E w := Dir]> (w_fs w)) (EvUuid :: EvMkdtemp :: w_log w))
  = ((code, out, err), fs) ->
  code <> 0 ->
  exists text w',
    process_item E (url, raw) outdir user repo branch w
    = (Ret (failed (sanitize_name raw) (MsgFetchFailed text)), w') /\
    text = Py.take 300 (Py.strip err) /\ (String.length text <= 300)%nat /\
    w_log w'
    = EvRmtree (os_mkdtemp E w)
      :: EvRun (ytdlp_cmd url (Path.join (os_mkdtemp E w)
                  (os_uuid4_hex E (mkWorld (<[os_mkdtemp E w := Dir]> (w_fs w))
                                           (EvMkdtemp :: w_log w)))))
      :: EvUuid :: EvMkdtemp :: w_log w.
Proof.
  intros HE Hrun Hcode. rewrite process_item_started by apply HE.
  set (d := os_mkdtemp E w) in *.
  set (w1 := mkWorld (<[d := Dir]> (w_fs w)) (EvMkdtemp :: w_log w)) in *.
  set (hexv := os_uuid4_hex E w1) in *.
  set (cmd := ytdlp_cmd url (Path.join d hexv)) in *.
  assert (Hbody :
    try_except (task_body E url outdir user repo branch d) on_exception
      (mkFrame (sanitize_name raw) w1)
    = (Ret (failed (sanitize_name raw) (MsgFetchFailed (Py.take 300 (Py.strip err)))),
       mkFrame (sanitize_name raw) (mkWorld fs (EvRun cmd :: EvUuid :: w_log w1)))).
  { unfold try_except, task_body, fetch_and_probe.
    erewrite bind_ret_l.
    2:{ erewrite bind_ret_l.
        2:{ apply os_ret. unfold uuid4_hex. rewrite call_calm by assumption. reflexivity. }
        cbn [fst snd]. fold hexv.
        erewrite bind_ret_l.
        2:{ apply os_ret. apply run_cmd_ok; [apply HE|]. fold (ytdlp_cmd url (Path.join d hexv)).
            fold cmd. exact Hrun. }
        cbn beta iota. apply Z.eqb_neq in Hcode. rewrite Hcode. cbn [negb].
        unfold bind, get_safe_name, ret. cbn [fr_safe_name]. reflexivity. }
    reflexivity. }
  rewrite (task_finishes _ _ _ _ _ _ _ Hbody).
  eexists. eexists. split; [reflexivity|]. split; [reflexivity|].
  split; [apply length_take|reflexivity].
Qed.

Lemma process_item_download_failed_witness :
  exists text w',
    process_item Sample3.env_no_download Sample.item_c "music" "u" "r" "b" Sample.w0
    = (Ret (failed "c" (MsgFetchFailed text)), w') /\
    text = "ERROR: Video unavailable" /\ (String.length text <= 300)%nat /\
    w_log w'
    = [EvRmtree Sample.tmpdir;
       EvRun (ytdlp_cmd "https://example.org/v3" (Path.join Sample.tmpdir Sample.hex));
       EvUuid; EvMkdtemp].
Proof.
  apply (process_item_download_failed Sample3.env_no_download "https://example.org/v3" "c"
           "music" "u" "r" "b" Sample.w0 1 "" " ERROR: Video unavailable "
           (<[Sample.tmpdir := Dir]> Sample.fs0)).
  - intros ev w. reflexivity.
  - reflexivity.
  - discriminate.
Defined.

(** ** The pool: one result for each item *)

Lemma process_item_returns E url raw outdir user repo branch w :
  os_fault E EvMkdtemp w = None ->
  exists r w', process_item E (url, raw) outdir user repo branch w = (Ret r, w').
Proof.
  intros Hmk. rewrite process_item_started by assumption.
  destruct (@guarded_returns (task_body E url outdir user repo branch (os_mkdtemp E w))
              (mkFrame (sanitize_name raw)
                 (mkWorld (<[os_mkdtemp E w := Dir]> (w_fs w)) (EvMkdtemp :: w_log w))))
    as (r & f1 & Hrun & _).
  rewrite (task_finishes _ _ _ _ _ _ _ Hrun). eauto.
Qed.




(** ** The parsing loop: one reading for each line *)

Section Prefixes.

Variable p : ascii -> bool.

(** A string has one prefix of characters of [p] that is followed by the end
    or by a character outside [p]. *)
Lemma prefix_unique a a' x x' :
  Py.all_chars p a = true -> Py.all_chars p a' = true ->
  (forall c, first_char x = Some c -> p c = false) ->
  (forall c, first_char x' = Some c -> p c = false) ->
  a +:+ x = a' +:+ x' -> a = a' /\ x = x'.
Proof.
  revert a'. induction a as [|c a IH]; intros [|c' a'] Ha Ha' Hx Hx'.
  - auto.
  - rewrite app_nil_l, app_cons. intros ->. cbn [Py.all_chars] in Ha'.
    apply andb_true_iff in Ha' as [Hc _]. specialize (Hx c' eq_refl). congruence.
  - rewrite app_nil_l, app_cons. intros <-. cbn [Py.all_chars] in Ha.
    apply andb_true_iff in Ha as [Hc _]. specialize (Hx' c eq_refl). congruence.
  - rewrite !app_cons. intros [= <- H]. cbn [Py.all_chars] in Ha, Ha'.
    apply andb_true_iff in Ha as [_ Ha]. apply andb_true_iff in Ha' as [_ Ha'].
    destruct (IH a' Ha Ha' Hx Hx' H) as [-> ->]. auto.
Qed.

Lemma all_chars_app a b :
  Py.all_chars p (a +:+ b) = Py.all_chars p a && Py.all_chars p b.
Proof.
  induction a as [|c a IH]; [reflexivity|]. rewrite app_cons. cbn [Py.all_chars].
  now rewrite IH, andb_assoc.
Qed.

End Prefixes.

Lemma solid_first f x c :
  solid f -> first_char (f +:+ x) = Some c -> Py.isspace c = false.
Proof.
  intros [Hne Hall]. destruct f as [|d f]; [contradiction|]. rewrite app_cons.
  intros [= <-]. cbn [Py.all_chars] in Hall. apply andb_true_iff in Hall as [Hd _].
  now apply negb_true_iff.
Qed.

Lemma blank_first s c : blank s -> first_char s = Some c -> negb (Py.isspace c) = false.
Proof.
  intros Hs Hc. apply negb_false_iff. exact (all_chars_first _ _ _ Hs Hc).
Qed.

(** The first field of a line and what follows it are determined. *)
Lemma first_field_unique lead f x lead' f' x' :
  blank lead -> blank lead' -> solid f -> solid f' ->
  (forall c, first_char x = Some c -> Py.isspace c = true) ->
  (forall c, first_char x' = Some c -> Py.isspace c = true) ->
  lead +:+ f +:+ x = lead' +:+ f' +:+ x' -> f = f' /\ x = x'.
Proof.
  intros Hl Hl' Hf Hf' Hx Hx' Heq.
  destruct (prefix_unique Py.isspace lead lead' (f +:+ x) (f' +:+ x') Hl Hl') as [_ H];
    [intros c; now apply solid_first..|assumption|].
  apply (prefix_unique (fun c => negb (Py.isspace c)) f f' x x');
    try apply Hf; try apply Hf'; try assumption.
  - intros c Hc. rewrite (Hx c Hc). reflexivity.
  - intros c Hc. rewrite (Hx' c Hc). reflexivity.
Qed.

Lemma gap_first gap rest c d :
  blank gap -> first_char rest = Some d -> Py.isspace d = false -> gap <> "" ->
  first_char (gap +:+ rest) = Some c -> Py.isspace c = true.
Proof.
  intros Hg _ _ Hne. destruct gap as [|e gap]; [contradiction|]. rewrite app_cons.
  intros [= <-]. exact (all_chars_first _ _ _ Hg eq_refl).
Qed.

Lemma two_fields_unique line url rest url' rest' :
  two_fields line url rest -> two_fields line url' rest' -> url = url' /\ rest = rest'.
Proof.
  intros (lead & gap & -> & Hl & Hg & Hgne & Hu & d & Hd & Hdn)
         (lead' & gap' & Heq & Hl' & Hg' & Hgne' & Hu' & d' & Hd' & Hdn').
  destruct (first_field_unique lead url (gap +:+ rest) lead' url' (gap' +:+ rest'))
    as [-> H]; try assumption.
  - intros c. now apply (gap_first gap rest c d).
  - intros c. now apply (gap_first gap' rest' c d').
  - split; [reflexivity|].
    apply (prefix_unique Py.isspace gap gap' rest rest'); try assumption.
    + intros c Hc. congruence.
    + intros c Hc. congruence.
Qed.

Lemma one_or_two_fields line f url rest :
  one_field line f -> two_fields line url rest -> False.
Proof.
  intros (lead & trail & -> & Hl & Ht & Hf)
         (lead' & gap & Heq & Hl' & Hg & Hgne & Hu & d & Hd & Hdn).
  destruct (first_field_unique lead f trail lead' url (gap +:+ rest)) as [_ H];
    try assumption.
  - intros c Hc. exact (all_chars_first _ _ _ Ht Hc).
  - intros c. now apply (gap_first gap rest c d).
  - unfold blank in Ht. rewrite H, all_chars_app in Ht.
    apply andb_true_iff in Ht as [_ Hr].
    pose proof (all_chars_first _ _ _ Hr Hd). congruence.
Qed.

Lemma blank_no_field line lead f x : blank line -> solid f -> line = lead +:+ f +:+ x -> False.
Proof.
  intros Hb [Hne Hf] ->. unfold blank in Hb. rewrite !all_chars_app in Hb.
  apply andb_true_iff in Hb as [_ Hb]. apply andb_true_iff in Hb as [Hb _].
  destruct f as [|c f]; [contradiction|]. cbn [Py.all_chars] in Hb, Hf.
  apply andb_true_iff in Hb as [Hc _]. apply andb_true_iff in Hf as [Hc' _].
  rewrite Hc in Hc'. discriminate.
Qed.

Lemma blank_not_done line : blank line -> is_done line = true -> False.
Proof.
  intros Hb Hd. apply is_done_not_blank in Hd. rewrite (strip_blank line Hb) in Hd.
  discriminate.
Qed.

Ltac clash :=
  match goal with
  | Hb : blank ?l, Hd : is_done ?l = true |- _ =>
      exfalso; exact (blank_not_done l Hb Hd)
  | Hb : blank ?l, H : two_fields ?l _ _ |- _ =>
      exfalso; destruct H as (? & ? & ? & _ & _ & _ & ? & _);
      eapply blank_no_field; eauto
  | Hb : blank ?l, H : one_field ?l _ |- _ =>
      exfalso; destruct H as (? & ? & ? & _ & _ & ?);
      eapply blank_no_field; eauto
  | H1 : one_field ?l _, H2 : two_fields ?l _ _ |- _ =>
      exfalso; exact (one_or_two_fields _ _ _ _ H1 H2)
  | H1 : is_done ?l = true, H2 : is_done ?l = false |- _ => congruence
  end.

(** A list of lines has one list of items. *)
Lemma parsed_unique lines its its' :
  parsed lines its -> parsed lines its' -> its = its'.
Proof.
  intros H. revert its'.
  induction H as [|line rest its Hb _ IH|line rest Hd
                  |line rest url filename its Hnd Htwo _ IH
                  |line rest f its Hnd Hone _ IH]; intros its' H';
    inversion H'; subst; try clash; try reflexivity; try (now apply IH).
  match goal with
  | H : two_fields line ?u ?r |- (url, filename) :: _ = (?u, ?r) :: _ =>
      destruct (two_fields_unique _ _ _ _ _ Htwo H) as [-> ->]
  end.
  f_equal. now apply IH.
Qed.

(** X5.  The parsing loop adds to the items it starts with the items that the
    lines hold, in their order: a blank line and a line of one field give
    nothing, a line of two fields gives its first field and the rest of the
    line, and the first line that is [done] ends the loop.  No other list of
    items fits the lines. *)
Theorem parse_lines_parsed (lines : list string) (items : list WorkItem) (w : World) :
  exists its,
    fst (parse_lines lines items w) = Ret (items ++ its) /\
    parsed lines its /\
    forall its', parsed lines its' -> its' = its.
Proof.
  destruct (parse_lines_run lines items w) as (its & Hrun & Hp).
  exists its. repeat split; try assumption.
  intros its' Hp'. now apply (parsed_unique lines).
Qed.

(** A line that gives nothing can be added anywhere. *)
Lemma parsed_insert line pre : forall post its,
  blank line \/ (is_done line = false /\ exists f, one_field line f) ->
  parsed (pre ++ post) its -> parsed (pre ++ line :: post) its.
Proof.
  intros post its Hskip. revert its.
  induction pre as [|l pre IH]; intros its Hp.
  - cbn [app] in *. destruct Hskip as [Hb|(Hnd & f & Hf)].
    + now constructor.
    + now apply (parsed_malformed line post f).
  - cbn [app] in *. inversion Hp; subst.
    + apply parsed_blank; auto.
    + now apply parsed_done.
    + apply parsed_item; auto.
    + eapply parsed_malformed; eauto.
Qed.

(** X17.  A blank line, or a line with a single field that is not [done],
    changes nothing in the items: the list is parsed as if the line were not
    there. *)
Theorem parse_lines_skips (pre post : list string) (line : string)
    (items : list WorkItem) (w w' : World) :
  blank line \/ (is_done line = false /\ exists f, one_field line f) ->
  fst (parse_lines (pre ++ line :: post) items w)
  = fst (parse_lines (pre ++ post) items w').
Proof.
  intros Hskip.
  destruct (parse_lines_run (pre ++ line :: post) items w) as (its & -> & Hp).
  destruct (parse_lines_run (pre ++ post) items w') as (its' & -> & Hp').
  apply (parsed_insert line pre post its' Hskip) in Hp'.
  now rewrite (parsed_unique _ _ _ Hp Hp').
Qed.

Lemma parse_lines_skips_witness :
  fst (parse_lines (["https://example.org/v1 a"] ++ "remark" :: ["https://example.org/v2 b"])
                   [] Sample.w0)
  = fst (parse_lines (["https://example.org/v1 a"] ++ ["https://example.org/v2 b"])
                     [] Sample.w0).
Proof.
  apply (parse_lines_skips ["https://example.org/v1 a"] ["https://example.org/v2 b"]
           "remark" [] Sample.w0 Sample.w0).
  right. split; [reflexivity|]. exists "remark", "", "".
  split; [reflexivity|]. split; [reflexivity|]. split; [reflexivity|].
  split; [discriminate|reflexivity].
Defined.

(** ** What a task asks of its environment *)

Section Adds.

Context {S : Type} (lg : S -> list event) (P : event -> Prop).

Lemma adds_ret {A} (a : A) : adds lg P (ret a).
Proof. intros s. exists []. split; [reflexivity|constructor]. Qed.

Lemma adds_raise {A} e : adds lg P (@raise S A e).
Proof. intros s. exists []. split; [reflexivity|constructor]. Qed.

Lemma adds_bind {A B} (m : M S A) (k : A -> M S B) :
  adds lg P m -> (forall a, adds lg P (k a)) -> adds lg P (bind m k).
Proof.
  intros Hm Hk s. unfold bind. destruct (Hm s) as (new & Hl & Hn).
  destruct (m s) as [[a|e] s1]; cbn [snd] in *; [|eauto].
  destruct (Hk a s1) as (new' & Hl' & Hn'). exists (new' ++ new).
  rewrite Hl', Hl, app_assoc. split; [reflexivity|]. apply Forall_app. auto.
Qed.

Lemma adds_try_except {A} (m : M S A) (h : exn -> M S A) :
  adds lg P m -> (forall e, adds lg P (h e)) -> adds lg P (try_except m h).
Proof.
  intros Hm Hh s. unfold try_except. destruct (Hm s) as (new & Hl & Hn).
  destruct (m s) as [[a|e] s1]; cbn [snd] in *; [eauto|].
  destruct (Hh e s1) as (new' & Hl' & Hn'). exists (new' ++ new).
  rewrite Hl', Hl, app_assoc. split; [reflexivity|]. apply Forall_app. auto.
Qed.

Lemma adds_try_finally {A} (m : M S A) (c : M S unit) :
  adds lg P m -> adds lg P c -> adds lg P (try_finally m c).
Proof.
  intros Hm Hc s. unfold try_finally. destruct (Hm s) as (new & Hl & Hn).
  destruct (m s) as [o s1]; cbn [snd] in *.
  destruct (Hc s1) as (new' & Hl' & Hn'). exists (new' ++ new).
  destruct (c s1) as [[[]|e] s2]; cbn [snd] in *;
    rewrite Hl', Hl, app_assoc; (split; [reflexivity|]); apply Forall_app; auto.
Qed.

End Adds.

Lemma adds_call E (P : event -> Prop) {A} ev
    (sem : World -> outcome A * gmap string node) :
  P ev -> adds w_log P (call E ev sem).
Proof.
  intros Hev w. exists [ev]. rewrite call_log. split; [reflexivity|]. now constructor.
Qed.

Lemma adds_path_exists (P : event -> Prop) p : adds w_log P (path_exists p).
Proof. intros w. exists []. split; [reflexivity|constructor]. Qed.

Lemma adds_os (P : event -> Prop) {A} (m : M World A) :
  adds w_log P m -> adds fr_log P (os m).
Proof.
  intros Hm f. unfold os, fr_log. destruct (Hm (fr_world f)) as (new & Hl & Hn).
  destruct (m (fr_world f)) as [o w1]. cbn [snd fr_world] in *. eauto.
Qed.

Lemma adds_get (P : event -> Prop) : adds fr_log P get_safe_name.
Proof. intros f. exists []. split; [reflexivity|constructor]. Qed.

Lemma adds_set (P : event -> Prop) n : adds fr_log P (set_safe_name n).
Proof. intros f. exists []. split; [reflexivity|constructor]. Qed.

Ltac adds_steps :=
  repeat first
    [ apply adds_ret | apply adds_raise | apply adds_get | apply adds_set
    | apply adds_path_exists
    | apply adds_os
    | apply adds_bind; [|intros]
    | apply adds_try_except; [|intros]
    | apply adds_try_finally
    | match goal with
      | |- adds _ _ (if ?b then _ else _) => destruct b
      | |- adds _ _ (match ?x with _ => _ end) => destruct x
      end ].

Ltac adds_calls :=
  try (apply adds_call; cbn; solve [exact I | discriminate]).

Lemma adds_ffprobe_codec E src : adds w_log probe_event (ffprobe_codec E src).
Proof. unfold ffprobe_codec, run_cmd. adds_steps; adds_calls. Qed.

Lemma adds_ffprobe_bitrate E src : adds w_log probe_event (ffprobe_bitrate E src).
Proof. unfold ffprobe_bitrate, run_cmd. adds_steps; adds_calls. Qed.

Lemma adds_fetch_and_probe E url tmpdir :
  adds fr_log probe_event (fetch_and_probe E url tmpdir).
Proof.
  unfold fetch_and_probe, uuid4_hex, listdir, run_cmd.
  adds_steps; adds_calls; try apply adds_ffprobe_codec; try apply adds_ffprobe_bitrate.
Qed.

Lemma adds_weaken {S A} (lg : S -> list event) (P Q : event -> Prop) (m : M S A) :
  (forall ev, P ev -> Q ev) -> adds lg P m -> adds lg Q m.
Proof.
  intros HPQ Hm s. destruct (Hm s) as (new & Hl & Hn). exists new.
  split; [assumption|]. eapply Forall_impl; eauto.
Qed.

Lemma probe_task_event ev : probe_event ev -> task_event ev.
Proof. destruct ev; cbn; auto. Qed.

Lemma adds_task_body E url outdir user repo branch tmpdir :
  adds fr_log task_event (task_body E url outdir user repo branch tmpdir).
Proof.
  unfold task_body. apply adds_bind.
  { apply (adds_weaken _ probe_event); [apply probe_task_event|apply adds_fetch_and_probe]. }
  intros [early|[[src codec] bps]]; [apply adds_ret|].
  unfold choose_dest, deliver, swallow, now_stamp, move, remove, run_cmd.
  adds_steps; adds_calls.
Qed.

Lemma adds_process_item E item outdir user repo branch :
  adds w_log task_event (process_item E item outdir user repo branch).
Proof.
  destruct item as [url raw]. unfold process_item. apply adds_bind.
  { unfold mkdtemp. apply adds_call. exact I. }
  intros tmpdir w. unfold with_safe_name.
  assert (H : adds fr_log task_event
    (try_finally
       (try_except (task_body E url outdir user repo branch tmpdir) on_exception)
       (cleanup E tmpdir))).
  { apply adds_try_finally.
    - apply adds_try_except; [apply adds_task_body|]. intros e.
      unfold on_exception. adds_steps.
    - intros f. exists [EvRmtree tmpdir]. rewrite cleanup_runs.
      split; [reflexivity|]. now repeat constructor. }
  destruct (H (mkFrame (sanitize_name raw) w)) as (new & Hl & Hn).
  unfold fr_log in Hl. cbn [fr_world] in Hl.
  destruct (try_finally _ _ _) as [o f]. cbn [snd] in *. eauto.
Qed.

Lemma mkdtemp_log E w : w_log (snd (mkdtemp E w)) = EvMkdtemp :: w_log w.
Proof. apply call_log. Qed.

(** X18.  A task asks its environment for nothing but a temporary folder, a
    random name, runs of the tools, a listing, the time, a move, a removal
    and the removal of the temporary folder, the creation of the folder
    coming first: it prints nothing and does not read or write the list or
    the list of results. *)
Theorem process_item_asks (E : Env) (item : WorkItem) (outdir user repo branch : string)
    (w : World) :
  exists later,
    w_log (snd (process_item E item outdir user repo branch w))
    = later ++ EvMkdtemp :: w_log w /\
    Forall task_event later.
Proof.
  destruct item as [url raw].
  unfold process_item. unfold bind at 1.
  pose proof (mkdtemp_log E w) as Hmk.
  destruct (mkdtemp E w) as [[tmpdir|e] w1]; cbn [snd] in Hmk.
  - assert (H : adds fr_log task_event
      (try_finally
         (try_except (task_body E url outdir user repo branch tmpdir) on_exception)
         (cleanup E tmpdir))).
    { apply adds_try_finally.
      - apply adds_try_except; [apply adds_task_body|]. intros e.
        unfold on_exception. adds_steps.
      - intros f. exists [EvRmtree tmpdir]. rewrite cleanup_runs.
        split; [reflexivity|]. now repeat constructor. }
    destruct (H (mkFrame (sanitize_name raw) w1)) as (new & Hl & Hn).
    unfold with_safe_name, fr_log in *. cbn [fr_world] in Hl.
    destruct (try_finally _ _ _) as [o f]. cbn [snd] in *.
    exists new. rewrite Hl, Hmk. split; [reflexivity|assumption].
  - exists []. cbn [snd]. rewrite Hmk. split; [reflexivity|constructor].
Qed.

(** ** A probe that prints a blank bit rate *)

Section BlankRate.

Variable E : Env.

(** Every probe of the bit rate succeeds and prints only whitespace. *)
Hypothesis blank_rate : forall src w,
  exists out err fs,
    os_run E (ffprobe_bitrate_cmd src) w = ((0, out, err), fs) /\
    out <> "" /\ blank out.

Lemma ffprobe_bitrate_never src w a w' : ffprobe_bitrate E src w <> (Ret a, w').
Proof.
  unfold ffprobe_bitrate, bind, run_cmd, call.
  change (EvRun _) with (EvRun (ffprobe_bitrate_cmd src)).
  change (os_run E _ w) with (os_run E (ffprobe_bitrate_cmd src) w).
  destruct (os_fault E _ w); [discriminate|].
  destruct (blank_rate src w) as (out & err & fs & -> & Hne & Hb).
  cbn [Z.eqb]. destruct (String.eqb_spec out ""); [contradiction|].
  rewrite (strip_blank out Hb). discriminate.
Qed.

Lemma at_name_dead {A B} n (Q : B -> Prop) (m : M Frame A) (k : A -> M Frame B) :
  (forall f a f', m f <> (Ret a, f')) -> at_name n Q (bind m k).
Proof.
  intros Hm f b f' _. unfold bind. specialize (Hm f).
  destruct (m f) as [[a|e] f1]; [now destruct (Hm a f1)|discriminate].
Qed.

Lemma os_ffprobe_bitrate_never src f a f' : os (ffprobe_bitrate E src) f <> (Ret a, f').
Proof.
  unfold os. pose proof (ffprobe_bitrate_never src (fr_world f)) as H.
  destruct (ffprobe_bitrate E src (fr_world f)) as [[b|e] w1]; [|discriminate].
  now destruct (H b w1).
Qed.

(** The inspection never succeeds. *)
Lemma fetch_and_probe_blank url tmpdir n :
  at_name n (fun r => match r with
                      | inl early => failure_named n early
                      | inr _ => False
                      end)
          (fetch_and_probe E url tmpdir).
Proof.
  unfold fetch_and_probe.
  repeat first
    [ apply at_name_dead; apply os_ffprobe_bitrate_never
    | apply at_name_get
    | apply at_name_bind; [keeps|intros]
    | match goal with
      | |- at_name _ _ (if ?b then _ else _) => destruct b
      | |- at_name _ _ (match ?x with _ => _ end) => destruct x
      end ];
    apply at_name_ret; eexists; (split; [reflexivity|discriminate]).
Qed.

Lemma process_item_blank_rate_run url raw outdir user repo branch w r w' :
  process_item E (url, raw) outdir user repo branch w = (Ret r, w') ->
  success r = false /\ file r = sanitize_name raw /\
  exists probes,
    w_log w' = EvRmtree (os_mkdtemp E w) :: probes ++ EvMkdtemp :: w_log w /\
    Forall probe_event probes.
Proof.
  unfold process_item. unfold bind at 1.
  destruct (os_fault E EvMkdtemp w) eqn:Hmk.
  { unfold mkdtemp, call. rewrite Hmk. discriminate. }
  rewrite (mkdtemp_ok E w Hmk).
  set (d := os_mkdtemp E w).
  set (f0 := mkFrame (sanitize_name raw)
               (mkWorld (<[d := Dir]> (w_fs w)) (EvMkdtemp :: w_log w))).
  assert (Hbody : exists r0 f1,
    try_except (task_body E url outdir user repo branch d) on_exception f0 = (Ret r0, f1) /\
    failure_named (sanitize_name raw) r0 /\
    snd (fetch_and_probe E url d f0) = f1).
  { unfold try_except, task_body. unfold bind at 1.
    pose proof (fetch_and_probe_blank url d (sanitize_name raw) f0) as Hq.
    pose proof (keeps_fetch_and_probe E url d f0) as Hk.
    destruct (fetch_and_probe E url d f0) as [[[early|x]|e] f1]; cbn [snd] in *.
    - exists early, f1. split; [reflexivity|]. split; [|reflexivity].
      now apply (Hq (inl early) f1).
    - now destruct (Hq (inr x) f1).
    - eexists. exists f1. split; [reflexivity|]. split; [|reflexivity].
      rewrite Hk. eexists. split; [reflexivity|discriminate]. }
  destruct Hbody as (r0 & f1 & Hrun & (m & -> & Hm) & Hf1).
  rewrite (task_finishes _ _ _ _ _ _ _ Hrun). intros [= <- <-].
  split; [reflexivity|]. split; [reflexivity|].
  destruct (adds_fetch_and_probe E url d f0) as (probes & Hl & Hp).
  rewrite Hf1 in Hl. unfold fr_log in Hl. exists probes. cbn [w_log].
  now rewrite Hl.
Qed.

End BlankRate.

(** X19.  When the probe of the bit rate succeeds but prints only whitespace,
    the task is not transcoded: every result is a failure under the plain
    sanitized name, and the task asks for nothing after the probes but the
    removal of its temporary folder -- no move and no run of the
    transcoder. *)
Theorem process_item_blank_rate (E : Env) (url raw outdir user repo branch : string)
    (w w' : World) (r : TaskResult) :
  (forall src w0, exists out err fs,
     os_run E (ffprobe_bitrate_cmd src) w0 = ((0, out, err), fs) /\
     out <> "" /\ blank out) ->
  process_item E (url, raw) outdir user repo branch w = (Ret r, w') ->
  success r = false /\ file r = sanitize_name raw /\
  exists probes,
    w_log w' = EvRmtree (os_mkdtemp E w) :: probes ++ EvMkdtemp :: w_log w /\
    Forall probe_event probes.
Proof. intros Hblank. now apply process_item_blank_rate_run. Qed.

Lemma process_item_blank_rate_witness :
  success (failed "c" (MsgException (Exn "list index out of range"))) = false /\
  exists probes,
    w_log (snd (process_item Sample3.env_blank_rate Sample.item_c "music" "u" "r" "b"
                  Sample.w0))
    = EvRmtree Sample.tmpdir :: probes ++ EvMkdtemp :: w_log Sample.w0 /\
    Forall probe_event probes.
Proof.
  destruct (process_item_blank_rate Sample3.env_blank_rate "https://example.org/v3" "c"
              "music" "u" "r" "b" Sample.w0
              (snd (process_item Sample3.env_blank_rate Sample.item_c "music" "u" "r" "b"
                      Sample.w0))
              (failed "c" (MsgException (Exn "list index out of range"))))
    as (Hfail & _ & Hlog).
  - intros src w0. exists (" " +:+ LF), "", (w_fs w0).
    split; [reflexivity|]. split; [discriminate|reflexivity].
  - vm_compute. reflexivity.
  - split; [exact Hfail|exact Hlog].
Defined.

(** ** When a list counts as done *)

Lemma find_first {A} (f : A -> bool) l x :
  List.find f l = Some x ->
  exists l1 l2, l = l1 ++ x :: l2 /\ f x = true /\ Forall (fun y => f y = false) l1.
Proof.
  induction l as [|a l IH]; [discriminate|]. cbn [List.find].
  destruct (f a) eqn:Ha.
  - intros [= <-]. exists [], l. repeat split; [assumption|constructor].
  - intros H. destruct (IH H) as (l1 & l2 & -> & Hx & Hl1).
    exists (a :: l1), l2. repeat split; [assumption|now constructor].
Qed.

Lemma find_after {A} (f : A -> bool) l1 x l2 :
  f x = true -> Forall (fun y => f y = false) l1 ->
  List.find f (l1 ++ x :: l2) = Some x.
Proof.
  intros Hx Hl1. induction Hl1 as [|a l Ha _ IH]; cbn [app List.find].
  - now rewrite Hx.
  - now rewrite Ha.
Qed.

Lemma not_blank_iff s : negb (String.eqb (Py.strip s) "") = false <-> blank s.
Proof.
  rewrite negb_false_iff, String.eqb_eq. split; [apply strip_nil_blank|apply strip_blank].
Qed.

(** X20.  The test by which [main] takes a list as done holds exactly when
    the list has a line that is [done], once trimmed and in lower case, with
    nothing but blank lines after it. *)
Theorem marked_done_iff (lines : list string) :
  marked_done (last_non_empty lines) = true <->
  exists pre l post,
    lines = pre ++ l :: post /\ is_done l = true /\ Forall blank post.
Proof.
  unfold last_non_empty. split.
  - destruct (List.find _ (rev lines)) as [l|] eqn:Hfind; [|discriminate].
    cbn [marked_done]. intros [_ Hd]%andb_true_iff.
    destruct (find_first _ _ _ Hfind) as (l1 & l2 & Hrev & _ & Hblank).
    exists (rev l2), l, (rev l1). split; [|split; [assumption|]].
    + rewrite <- (rev_involutive lines), Hrev, rev_app_distr. cbn [rev].
      now rewrite <- app_assoc.
    + apply Forall_rev. eapply Forall_impl; [exact Hblank|].
      intros s. apply not_blank_iff.
  - intros (pre & l & post & -> & Hd & Hpost).
    rewrite rev_app_distr. cbn [rev]. rewrite <- app_assoc. cbn [app].
    rewrite find_after.
    + cbn [marked_done]. rewrite Hd, andb_true_r.
      destruct l; [discriminate|reflexivity].
    + now rewrite (is_done_not_blank l Hd).
    + apply Forall_rev. eapply Forall_impl; [exact Hpost|].
      intros s. apply not_blank_iff.
Qed.

Lemma marked_done_iff_example :
  marked_done (last_non_empty ["https://example.org/v1 a"; " DONE"; ""; "  "]) = true /\
  marked_done (last_non_empty ["done"; "https://example.org/v1 a"]) = false.
Proof. split; reflexivity. Qed.

(** ** The end of [main]: when appending fails *)

Lemma splitlines_lines n : forall s,
  (String.length s <= n)%nat -> Forall one_line (PyText.splitlines s).
Proof.
  induction n as [|n IH]; intros [|c s] Hlen; try constructor; cbn in Hlen; try lia.
  cbn [PyText.splitlines]. destruct (Py.islinebreak c) eqn:Hc.
  - constructor; [reflexivity|]. destruct s as [|d s]; [constructor|].
    destruct (Ascii.eqb c "013" && Ascii.eqb d "010"); apply IH; cbn in *; lia.
  - pose proof (IH s ltac:(lia)) as Hs.
    destruct (PyText.splitlines s) as [|l rest].
    + repeat constructor. unfold one_line. cbn. now rewrite Hc.
    + inversion Hs; subst. constructor; [|assumption].
      unfold one_line in *. cbn [Py.all_chars]. now rewrite Hc.
Qed.

Lemma makedirs_ok E p w :
  os_fault E (EvMakedirs p) w = None ->
  (forall t, w_fs w !! p <> Some (File t)) ->
  exists fs,
    makedirs E p w = (Ret tt, mkWorld fs (EvMakedirs p :: w_log w)) /\
    fs !! p = Some Dir /\
    (forall q, q <> p -> fs !! q = w_fs w !! q).
Proof.
  intros HE Hp. unfold makedirs, call. rewrite HE.
  destruct (w_fs w !! p) as [[t|]|] eqn:Hl.
  - now destruct (Hp t).
  - exists (w_fs w). auto.
  - exists (<[p := Dir]> (w_fs w)). split; [reflexivity|]. split.
    + apply lookup_insert_eq.
    + intros q Hq. now apply lookup_insert_ne.
Qed.

Lemma write_lines_ok E path lines w :
  (forall ev w', match ev with EvAppend _ _ => True | _ => os_fault E ev w' = None end) ->
  (forall t, w_fs w !! folder_of path <> Some (File t)) ->
  w_fs w !! path <> Some Dir ->
  folder_of path <> path ->
  exists fs,
    write_lines_utf8bom E path lines w
    = (Ret tt,
       mkWorld (<[path := File (Py.join LF lines)]> fs)
               (EvWrite path (Py.join LF lines) :: EvMakedirs (folder_of path) :: w_log w)) /\
    fs !! folder_of path = Some Dir /\
    (forall q, q <> folder_of path -> fs !! q = w_fs w !! q).
Proof.
  intros HE Hfolder Hpath Hne.
  destruct (makedirs_ok E (folder_of path) w (HE (EvMakedirs _) w) Hfolder)
    as (fs & Hmk & Hdir & Hfs).
  exists fs. split; [|split; assumption].
  unfold write_lines_utf8bom. fold (folder_of path).
  erewrite bind_ret_l by exact Hmk.
  unfold call. rewrite (HE (EvWrite _ _)). cbn [w_fs w_log].
  rewrite Hfs by congruence.
  destruct (w_fs w !! path) as [[t|]|]; try reflexivity. now destruct Hpath.
Qed.

Lemma finish_rewrites_lines (E : Env) (args : Args) (lines : list string)
    (last : option string) (results : list TaskResult) (w : World) :
  (forall ev w', match ev with EvAppend _ _ => True | _ => os_fault E ev w' = None end) ->
  (forall t w', os_fault E (EvAppend (arg_list args) t) w' <> None) ->
  (forall t, w_fs w !! "." <> Some (File t)) ->
  w_fs w !! URLLIST_NAME <> Some Dir ->
  arg_list args <> URLLIST_NAME ->
  (forall t, w_fs w !! folder_of (arg_list args) <> Some (File t)) ->
  folder_of (arg_list args) <> URLLIST_NAME ->
  folder_of (arg_list args) <> arg_list args ->
  w_fs w !! arg_list args <> Some Dir ->
  marked_done last = false ->
  Forall one_line lines ->
  exists w',
    finish E args lines last results w = (Ret 0, w') /\
    w_fs w' !! arg_list args = Some (File (Py.join LF (lines ++ ["done"]))) /\
    PyText.splitlines (Py.join LF (lines ++ ["done"])) = lines ++ ["done"] /\
    marked_done (last_non_empty (lines ++ ["done"])) = true.
Proof.
  intros HE Happ Hdot Hman Hne Hfolder Hfm Hfa Hlist Hlast Hlines.
  destruct (write_lines_ok E URLLIST_NAME (out_lines results) w HE Hdot Hman)
    as (fs & Hwrite & Hdir & Hfs); [discriminate|].
  change (folder_of URLLIST_NAME) with "." in *.
  set (w1 := mkWorld _ _) in Hwrite.
  assert (Hsame : forall q, q <> "." -> q <> URLLIST_NAME -> w_fs w1 !! q = w_fs w !! q).
  { intros q H1 H2. unfold w1. cbn [w_fs]. rewrite lookup_insert_ne by congruence.
    now apply Hfs. }
  assert (Hfolder1 : forall t, w_fs w1 !! folder_of (arg_list args) <> Some (File t)).
  { intros t. destruct (String.eqb_spec (folder_of (arg_list args)) ".") as [->|Hd].
    - unfold w1. cbn [w_fs]. rewrite lookup_insert_ne by discriminate.
      rewrite Hdir. discriminate.
    - rewrite Hsame by assumption. apply Hfolder. }
  assert (Hlist1 : w_fs w1 !! arg_list args <> Some Dir).
  { destruct (String.eqb_spec (arg_list args) ".") as [Heq|Hd].
    - exfalso. apply Hfa. rewrite Heq. reflexivity.
    - now rewrite Hsame. }
  set (w2 := mkWorld (w_fs w1)
               (EvAppend (arg_list args)
                  ((if 0 <? os_getsize E (arg_list args) w1 then LF else "") +:+ "done")
                :: w_log w1)).
  destruct (write_lines_ok E (arg_list args) (lines ++ ["done"]) w2 HE Hfolder1 Hlist1 Hfa)
    as (fs2 & Hrewrite & _ & _).
  assert (Hround : PyText.splitlines (Py.join LF (lines ++ ["done"])) = lines ++ ["done"]).
  { apply splitlines_join.
    - apply Forall_app. split; [assumption|]. now repeat constructor.
    - rewrite last_last. discriminate. }
  eexists. split; [|split; [|split]].
  - unfold finish. erewrite bind_ret_l by exact Hwrite.
    rewrite Hlast. cbn [negb].
    erewrite bind_ret_l.
    2:{ unfold try_except, append_line_utf8bom, call.
        destruct (os_fault E (EvAppend _ _) w1) as [e|] eqn:Hf;
          [|now destruct (Happ _ _ Hf)].
        fold w2. unfold swallow, try_except. rewrite Hrewrite. reflexivity. }
    unfold bind, print, ret. reflexivity.
  - cbn [w_fs]. apply lookup_insert_eq.
  - exact Hround.
  - unfold last_non_empty. rewrite rev_app_distr. reflexivity.
Qed.

(** X21.  When appending [done] to the list raises, the end of [main] writes
    the list again, with the lines that were read from it followed by
    [done]; the file then holds exactly these lines and the next run takes it
    as done. *)
Theorem finish_rewrites_list (E : Env) (args : Args) (text : string)
    (last : option string) (results : list TaskResult) (w : World) :
  (forall ev w', match ev with EvAppend _ _ => True | _ => os_fault E ev w' = None end) ->
  (forall t w', os_fault E (EvAppend (arg_list args) t) w' <> None) ->
  (forall t, w_fs w !! "." <> Some (File t)) ->
  w_fs w !! URLLIST_NAME <> Some Dir ->
  arg_list args <> URLLIST_NAME ->
  (forall t, w_fs w !! folder_of (arg_list args) <> Some (File t)) ->
  folder_of (arg_list args) <> URLLIST_NAME ->
  folder_of (arg_list args) <> arg_list args ->
  w_fs w !! arg_list args <> Some Dir ->
  marked_done last = false ->
  exists w',
    finish E args (PyText.splitlines text) last results w = (Ret 0, w') /\
    w_fs w' !! arg_list args
    = Some (File (Py.join LF (PyText.splitlines text ++ ["done"]))) /\
    PyText.splitlines (Py.join LF (PyText.splitlines text ++ ["done"]))
    = PyText.splitlines text ++ ["done"] /\
    marked_done (last_non_empty (PyText.splitlines text ++ ["done"])) = true.
Proof.
  intros. apply finish_rewrites_lines; try assumption.
  apply (splitlines_lines (String.length text)). lia.
Qed.

Lemma finish_rewrites_list_witness :
  exists w',
    finish Sample4.env_no_append Sample.args0
      (PyText.splitlines ("https://example.org/v1 a" +:+ LF +:+ "https://example.org/v2 b"))
      None Sample.results2 Sample.w0 = (Ret 0, w') /\
    w_fs w' !! "music_download.txt"
    = Some (File (Py.join LF
        (PyText.splitlines ("https://example.org/v1 a" +:+ LF +:+ "https://example.org/v2 b")
         ++ ["done"]))) /\
    PyText.splitlines (Py.join LF
        (PyText.splitlines ("https://example.org/v1 a" +:+ LF +:+ "https://example.org/v2 b")
         ++ ["done"]))
    = PyText.splitlines ("https://example.org/v1 a" +:+ LF +:+ "https://example.org/v2 b")
      ++ ["done"] /\
    marked_done (last_non_empty
      (PyText.splitlines ("https://example.org/v1 a" +:+ LF +:+ "https://example.org/v2 b")
       ++ ["done"])) = true.
Proof.
  apply (finish_rewrites_list Sample4.env_no_append Sample.args0
           ("https://example.org/v1 a" +:+ LF +:+ "https://example.org/v2 b")
           None Sample.results2 Sample.w0).
  - intros ev w'. destruct ev; reflexivity || exact I.
  - intros t w'. discriminate.
  - intros t. vm_compute. discriminate.
  - vm_compute. discriminate.
  - discriminate.
  - intros t. vm_compute. discriminate.
  - discriminate.
  - discriminate.
  - vm_compute. discriminate.
  - reflexivity.
Defined.

(** ** The number of workers, bounded *)

(** X22.  The automatic number of workers is never above 24 nor above the
    number of items, and it is at least one when there is an item: a missing
    or zero count of processors is taken as four. *)
Theorem auto_threads_bounds (count : Z) (n : option Z) :
  1 <= count ->
  match n with Some c => 0 <= c | None => True end ->
  1 <= auto_threads count (cpu_or_4 n) <= Z.min count 24 /\
  1 <= cpu_or_4 n /\
  (forall requested, 1 <= threads_for requested count (cpu_or_4 n)).
Proof.
  intros Hcount Hn.
  assert (Hcpu : 1 <= cpu_or_4 n).
  { destruct n as [c|]; cbn [cpu_or_4]; [|lia]. destruct (Z.eqb_spec c 0); lia. }
  unfold threads_for, auto_threads. repeat split; try lia.
  intros requested. destruct (Z.leb_spec requested 0); lia.
Qed.

Lemma auto_threads_bounds_witness :
  1 <= auto_threads 100 (cpu_or_4 (Some 0)) <= Z.min 100 24 /\
  1 <= cpu_or_4 (Some 0) /\
  (forall requested, 1 <= threads_for requested 100 (cpu_or_4 (Some 0))).
Proof. apply (auto_threads_bounds 100 (Some 0)); lia. Defined.

(** ** The task: the exception of every step is captured *)

Lemma os_bind_raise {A B} (m : M World A) (k : A -> M World B) f e f' :
  os m f = (Raise e, f') -> os (bind m k) f = (Raise e, f').
Proof.
  unfold os, bind. destruct (m (fr_world f)) as [[a|e0] w1]; cbn; intros H;
    [discriminate|].
  now injection H as -> <-.
Qed.

Lemma os_bind_ret {A B} (m : M World A) (k : A -> M World B) f a f1 :
  os m f = (Ret a, f1) -> os (bind m k) f = os (k a) f1.
Proof.
  unfold os, bind. destruct (m (fr_world f)) as [[a'|e0] w1]; cbn; intros H;
    [|discriminate].
  injection H as -> <-. reflexivity.
Qed.

(** Once the download is found, what is left of [fetch_and_probe] is the two
    probes. *)
Lemma fetched_run E url tmpdir f0 src f3 :
  fetched E url tmpdir f0 src f3 ->
  fetch_and_probe E url tmpdir f0
  = (do codec <- os (ffprobe_codec E src);
     do bps <- os (ffprobe_bitrate E src);
     ret (inr (src, codec, bps))) f3.
Proof.
  intros (hex & f1 & out & err & f2 & names & Hu & Hd & Hl & Hs & Hne & Hex).
  destruct f3 as [n3 w3]. unfold fetch_and_probe.
  erewrite bind_ret_l by exact Hu.
  erewrite bind_ret_l by exact Hd.
  cbn beta iota. cbn [Z.eqb negb].
  erewrite bind_ret_l by exact Hl.
  rewrite Hs. apply String.eqb_neq in Hne. rewrite Hne.
  erewrite bind_ret_l by reflexivity.
  cbn [fr_world] in *. rewrite bool_decide_true by exact Hex. reflexivity.
Qed.

(** A step that raises makes the body raise: nothing in the body catches
    it. *)
Lemma step_raises_body E url outdir user repo branch tmpdir f0 e f' :
  step_raises E url outdir tmpdir f0 e f' ->
  task_body E url outdir user repo branch tmpdir f0 = (Raise e, f').
Proof.
  intros [Hu|hex f1 Hu Hd|hex f1 out err f2 Hu Hd Hl|src f3 Hf Hc|src f3 codec f4 Hf Hc Hb
         |src f3 codec f4 out err Hf Hc Hb Hout Hlines ->|src codec bps f5 Hfp Htaken Hn
         |src codec bps f5 dst f6 Hfp Hcd Hdm Hmv|src codec bps f5 dst f6 Hfp Hcd Hdm Hrun];
    unfold task_body.
  - apply bind_raise_l. unfold fetch_and_probe. now apply bind_raise_l.
  - apply bind_raise_l. unfold fetch_and_probe.
    erewrite bind_ret_l by exact Hu. now apply bind_raise_l.
  - apply bind_raise_l. unfold fetch_and_probe.
    erewrite bind_ret_l by exact Hu. erewrite bind_ret_l by exact Hd.
    cbn beta iota. cbn [Z.eqb negb]. now apply bind_raise_l.
  - apply bind_raise_l. rewrite (fetched_run _ _ _ _ _ _ Hf).
    apply bind_raise_l. unfold ffprobe_codec. now apply os_bind_raise.
  - apply bind_raise_l. rewrite (fetched_run _ _ _ _ _ _ Hf).
    erewrite bind_ret_l by exact Hc.
    apply bind_raise_l. unfold ffprobe_bitrate. now apply os_bind_raise.
  - apply bind_raise_l. rewrite (fetched_run _ _ _ _ _ _ Hf).
    erewrite bind_ret_l by exact Hc.
    apply bind_raise_l. unfold ffprobe_bitrate.
    erewrite os_bind_ret by exact Hb. cbn beta iota. cbn [Z.eqb].
    apply String.eqb_neq in Hout. rewrite Hout, Hlines.
    destruct f' as [n' w']. reflexivity.
  - erewrite bind_ret_l by exact Hfp. cbn beta iota.
    apply bind_raise_l. destruct f5 as [n5 w5]. unfold choose_dest.
    erewrite bind_ret_l by reflexivity.
    erewrite bind_ret_l by reflexivity.
    cbn [fr_world fr_safe_name] in *. rewrite bool_decide_true by exact Htaken.
    now apply bind_raise_l.
  - erewrite bind_ret_l by exact Hfp. cbn beta iota.
    erewrite bind_ret_l by exact Hcd.
    apply bind_raise_l. unfold deliver. rewrite Hdm. now apply bind_raise_l.
  - erewrite bind_ret_l by exact Hfp. cbn beta iota.
    erewrite bind_ret_l by exact Hcd.
    apply bind_raise_l. unfold deliver. rewrite Hdm. now apply bind_raise_l.
Qed.

Lemma bind_raise_inv {S A B} (m : M S A) (k : A -> M S B) s e s' :
  bind m k s = (Raise e, s') ->
  m s = (Raise e, s') \/ exists a s1, m s = (Ret a, s1) /\ k a s1 = (Raise e, s').
Proof.
  unfold bind. destruct (m s) as [[a|e0] s1]; [eauto|]. intros [= -> ->]. now left.
Qed.

Lemma os_bind_raise_inv {A B} (m : M World A) (k : A -> M World B) f e f' :
  os (bind m k) f = (Raise e, f') ->
  os m f = (Raise e, f') \/
  exists a f1, os m f = (Ret a, f1) /\ os (k a) f1 = (Raise e, f').
Proof.
  unfold os, bind. destruct (m (fr_world f)) as [[a|e0] w1]; cbn.
  - intros H. right. exists a. eexists. split; [reflexivity|]. exact H.
  - intros H. left. now injection H as -> <-.
Qed.

Lemma os_ret_never {A} (a : A) f e f' : os (ret a) f <> (Raise e, f').
Proof. unfold os, ret. destruct f. discriminate. Qed.

(** An exception that leaves [fetch_and_probe] is raised by one of its
    steps. *)
Lemma fetch_and_probe_raises E url outdir tmpdir f0 e f' :
  fetch_and_probe E url tmpdir f0 = (Raise e, f') ->
  step_raises E url outdir tmpdir f0 e f'.
Proof.
  unfold fetch_and_probe. intros H.
  apply bind_raise_inv in H as [H|(hex & f1 & Hu & H)]; [now apply raises_uuid|].
  apply bind_raise_inv in H as [H|([[code out] err] & f2 & Hd & H)];
    [now apply (raises_download _ _ _ _ _ _ _ hex f1)|].
  cbn beta iota in H. destruct (Z.eqb_spec code 0) as [->|Hcode]; cbn [negb] in H;
    [|discriminate].
  apply bind_raise_inv in H as [H|(names & f3 & Hl & H)];
    [now apply (raises_listing _ _ _ _ _ _ _ hex f1 out err f2)|].
  destruct (find_source _ _ names) as [src|] eqn:Hs; [|discriminate].
  destruct (String.eqb_spec src "") as [->|Hne]; [discriminate|].
  destruct f3 as [n3 w3].
  apply bind_raise_inv in H as [H|(there & f4 & Hex & H)]; [discriminate|].
  injection Hex as <- <-.
  destruct (bool_decide (is_Some (w_fs w3 !! src))) eqn:Hthere; cbn [negb] in H;
    [|discriminate].
  apply bool_decide_eq_true in Hthere.
  assert (Hf : fetched E url tmpdir f0 src (mkFrame n3 w3)).
  { exists hex, f1, out, err, f2, names. auto 10. }
  apply bind_raise_inv in H as [H|(codec & f4 & Hc & H)].
  - unfold ffprobe_codec in H.
    apply os_bind_raise_inv in H as [H|([[c o] er] & f4 & _ & H)];
      [now apply (raises_codec _ _ _ _ _ _ _ src (mkFrame n3 w3))|].
    cbn beta iota in H. destruct (c =? 0); now apply os_ret_never in H.
  - apply bind_raise_inv in H as [H|(bps & f5 & _ & H)]; [|discriminate].
    pose proof H as Hb. unfold ffprobe_bitrate in H.
    apply os_bind_raise_inv in H as [H|([[c o] er] & f5 & Hrun & H)];
      [now apply (raises_bitrate _ _ _ _ _ _ _ src (mkFrame n3 w3) codec f4)|].
    cbn beta iota in H.
    destruct (Z.eqb_spec c 0) as [->|Hc0]; [|now apply os_ret_never in H].
    apply os_bind_raise_inv in H as [H|(s & f6 & _ & H)].
    + destruct (String.eqb_spec o "") as [->|Hout]; [now apply os_ret_never in H|].
      destruct (PyText.splitlines (Py.strip o)) as [|l rest] eqn:Hlines;
        [|now apply os_ret_never in H].
      unfold os, raise in H. destruct f5 as [n5 w5]. cbn in H. injection H as <- <-.
      now apply (raises_bitrate_line _ _ _ _ _ _ _ src (mkFrame n3 w3) codec f4 o er).
    + destruct (PyText.int s); now apply os_ret_never in H.
Qed.

(** An exception that leaves the body of the [try] is raised by one of the
    steps: none comes from the removal of the downloaded file. *)
Lemma body_raises_step E url outdir user repo branch tmpdir f0 e f' :
  task_body E url outdir user repo branch tmpdir f0 = (Raise e, f') ->
  step_raises E url outdir tmpdir f0 e f'.
Proof.
  unfold task_body. intros H.
  apply bind_raise_inv in H as [H|([early|[[src codec] bps]] & f5 & Hfp & H)];
    [now apply fetch_and_probe_raises|discriminate|].
  apply bind_raise_inv in H as [H|(dst & f6 & Hcd & H)].
  - unfold choose_dest in H. destruct f5 as [n5 w5].
    apply bind_raise_inv in H as [H|(n & f & Hg & H)]; [discriminate|].
    injection Hg as <- <-.
    apply bind_raise_inv in H as [H|(taken & f & Hex & H)]; [discriminate|].
    injection Hex as <- <-.
    destruct (bool_decide _) eqn:Htaken in H; [|discriminate].
    apply bool_decide_eq_true in Htaken.
    apply bind_raise_inv in H as [H|(ts & f & _ & H)]; [|discriminate].
    now apply (raises_stamp _ _ _ _ _ _ _ src codec bps (mkFrame n5 w5)).
  - apply bind_raise_inv in H as [H|(r' & f7 & _ & H)]; [|destruct r'; discriminate].
    unfold deliver in H. destruct (direct_move src codec bps) eqn:Hdm.
    + apply bind_raise_inv in H as [H|([] & f7 & _ & H)]; [|discriminate].
      now apply (raises_move _ _ _ _ _ _ _ src codec bps f5 dst f6).
    + apply bind_raise_inv in H as [H|([[code out] err] & f7 & _ & H)];
        [now apply (raises_transcode _ _ _ _ _ _ _ src codec bps f5 dst f6)|].
      cbn beta iota in H.
      apply bind_raise_inv in H as [H|([] & f8 & _ & H)].
      * unfold swallow, try_except in H.
        match type of H with
        | context [match ?m f7 with _ => _ end] => destruct (m f7) as [[[]|e'] f8]
        end; discriminate.
      * destruct (negb (code =? 0)); discriminate.
Qed.

(** After the transcoder has run, [deliver] returns whatever the removal of
    the downloaded file does: its result depends on the exit code only. *)
Lemma deliver_after_transcode E src codec bps dest_base f6 code out err f7 :
  direct_move src codec bps = false ->
  os (run_cmd E (ffmpeg_cmd src dest_base)) f6 = (Ret (code, out, err), f7) ->
  exists f8,
    deliver E src codec bps dest_base f6
    = (Ret (if code =? 0 then None
            else Some (failed (fr_safe_name f7)
                         (MsgTranscodeFailed (Py.take 300 (Py.strip err))))), f8) /\
    fr_safe_name f8 = fr_safe_name f7.
Proof.
  intros Hdm Hrun. unfold deliver. rewrite Hdm.
  erewrite bind_ret_l by exact Hrun. cbn beta iota.
  set (blk := swallow _).
  assert (Hk : keeps_name blk) by (unfold blk, swallow; keeps).
  assert (Hr : exists f8, blk f7 = (Ret tt, f8)).
  { unfold blk, swallow, try_except.
    match goal with |- context [match ?m f7 with _ => _ end] => destruct (m f7) as [[[]|e'] f8] end;
      eauto. }
  destruct Hr as (f8 & Hr). specialize (Hk f7). rewrite Hr in Hk. cbn [snd] in Hk.
  exists f8. split; [|exact Hk].
  erewrite bind_ret_l by exact Hr.
  destruct (code =? 0); cbn [negb]; [reflexivity|].
  unfold bind, get_safe_name, ret. now rewrite Hk.
Qed.

(** C2, as the code has it.  Once the temporary folder is created,
    [process_item] returns a result and never raises.  When a step of the
    body of its [try] raises (the draw of the random name, the download, the
    listing, a probe, the time stamp, the move or the run of the
    transcoder), nothing catches the exception before the handler, and the
    result is the failure, under the name the task has at that time, whose
    message carries the exception.  Every exception that leaves the body is
    raised by one of these steps, and a result that the body returns is
    returned as it is.  When the removal of the downloaded file raises after
    the transcoder has run, the exception is dropped on the spot: the result
    is the success, or the failure of the transcoder, that the exit code of
    the transcoder gives. *)
Theorem process_item_captures (E : Env) (url raw outdir user repo branch : string)
    (w : World) :
  os_fault E EvMkdtemp w = None ->
  exists r w',
    process_item E (url, raw) outdir user repo branch w = (Ret r, w') /\
    (forall e f',
       step_raises E url outdir (os_mkdtemp E w) (body_frame E raw w) e f' ->
       r = failed (fr_safe_name f') (MsgException e) /\
       name_of raw (fr_safe_name f')) /\
    (forall e f',
       task_body E url outdir user repo branch (os_mkdtemp E w) (body_frame E raw w)
       = (Raise e, f') ->
       step_raises E url outdir (os_mkdtemp E w) (body_frame E raw w) e f') /\
    (forall r' f',
       task_body E url outdir user repo branch (os_mkdtemp E w) (body_frame E raw w)
       = (Ret r', f') ->
       r = r') /\
    (forall src codec bps f5 dest_base f6 code out err f7 e' f8,
       fetch_and_probe E url (os_mkdtemp E w) (body_frame E raw w)
       = (Ret (inr (src, codec, bps)), f5) ->
       choose_dest E outdir f5 = (Ret dest_base, f6) ->
       direct_move src codec bps = false ->
       os (run_cmd E (ffmpeg_cmd src dest_base)) f6 = (Ret (code, out, err), f7) ->
       is_Some (w_fs (fr_world f7) !! src) ->
       os (remove E src) f7 = (Raise e', f8) ->
       r = if code =? 0
           then mkResult true (fr_safe_name f7)
                  (Some (cdn_url user repo branch (fr_safe_name f7)))
                  (Some dest_base) MsgOK
           else failed (fr_safe_name f7)
                  (MsgTranscodeFailed (Py.take 300 (Py.strip err)))).
Proof.
  intros Hmk.
  destruct (process_item_returns E url raw outdir user repo branch w Hmk)
    as (r & w' & Hrun).
  exists r, w'. split; [exact Hrun|].
  pose proof (process_item_shape _ _ _ _ _ _ _ _ _ _ Hrun) as (Hname & _).
  rewrite process_item_started in Hrun by assumption.
  unfold with_safe_name, try_finally in Hrun. fold (body_frame E raw w) in Hrun.
  destruct (@guarded_returns
              (task_body E url outdir user repo branch (os_mkdtemp E w))
              (body_frame E raw w)) as (r0 & f1 & Hguard & Hcase).
  rewrite Hguard, cleanup_runs in Hrun. injection Hrun as <- _.
  assert (Hraise : forall e f',
    task_body E url outdir user repo branch (os_mkdtemp E w) (body_frame E raw w)
    = (Raise e, f') -> r0 = failed (fr_safe_name f') (MsgException e)).
  { intros e f' Hbody. destruct Hcase as [Hret|(e0 & Hret & ->)];
      rewrite Hret in Hbody; [discriminate|]. now injection Hbody as -> ->. }
  assert (Hreturn : forall r' f',
    task_body E url outdir user repo branch (os_mkdtemp E w) (body_frame E raw w)
    = (Ret r', f') -> r0 = r').
  { intros r' f' Hbody. destruct Hcase as [Hret|(e0 & Hret & ->)];
      rewrite Hret in Hbody; [|discriminate]. now injection Hbody. }
  split; [|split; [intros e f'; apply body_raises_step|split; [exact Hreturn|]]].
  - intros e f' Hstep.
    pose proof (Hraise e f' (step_raises_body _ _ _ user repo branch _ _ _ _ Hstep)) as ->.
    split; [reflexivity|exact Hname].
  - intros src codec bps f5 dest_base f6 code out err f7 e' f8 Hfp Hcd Hdm Hff _ _.
    destruct (deliver_after_transcode E src codec bps dest_base f6 code out err f7 Hdm Hff)
      as (f9 & Hdel & Hn).
    destruct (code =? 0); eapply Hreturn; unfold task_body;
      (erewrite bind_ret_l by exact Hfp); cbn beta iota;
      (erewrite bind_ret_l by exact Hcd);
      (erewrite bind_ret_l by exact Hdel); cbn beta iota.
    + unfold bind, get_safe_name, ret. rewrite Hn. reflexivity.
    + reflexivity.
Qed.

Lemma process_item_captures_witness :
  fst (process_item Sample.env_no_move Sample.item_c "music" "u" "r" "b" Sample.w0)
  = Ret (failed "c" (MsgException (Exn "[Errno 13] Permission denied"))) /\
  fst (process_item Sample5.env_no_listing Sample.item_c "music" "u" "r" "b" Sample.w0)
  = Ret (failed "c" (MsgException (Exn "[Errno 5] Input/output error"))) /\
  fst (process_item Sample5.env_no_ffmpeg Sample.item_c "music" "u" "r" "b" Sample.w0)
  = Ret (failed "c" (MsgException (Exn "[Errno 8] Exec format error"))).
Proof.
  split; [|split].
  - destruct (process_item_captures Sample.env_no_move "https://example.org/v3" "c"
                "music" "u" "r" "b" Sample.w0) as (r & w' & Hrun & Hstep & _);
      [reflexivity|].
    change (process_item Sample.env_no_move Sample.item_c "music" "u" "r" "b" Sample.w0)
      with (process_item Sample.env_no_move ("https://example.org/v3", "c")
              "music" "u" "r" "b" Sample.w0).
    rewrite Hrun. cbn [fst]. f_equal.
    set (f0 := body_frame Sample.env_no_move "c" Sample.w0) in *.
    set (f5 := snd (fetch_and_probe Sample.env_no_move "https://example.org/v3"
                      Sample.tmpdir f0)).
    set (f6 := snd (choose_dest Sample.env_no_move "music" f5)).
    destruct (Hstep (Exn "[Errno 13] Permission denied")
                (snd (os (move Sample.env_no_move (Sample.src "mp3") "music/c.mp3") f6)))
      as [-> _]; [|reflexivity].
    apply (raises_move _ _ _ _ _ _ _ (Sample.src "mp3") "mp3" 192000 f5 "music/c.mp3" f6);
      vm_compute; reflexivity.
  - destruct (process_item_captures Sample5.env_no_listing "https://example.org/v3" "c"
                "music" "u" "r" "b" Sample.w0) as (r & w' & Hrun & Hstep & _);
      [reflexivity|].
    change (process_item Sample5.env_no_listing Sample.item_c "music" "u" "r" "b" Sample.w0)
      with (process_item Sample5.env_no_listing ("https://example.org/v3", "c")
              "music" "u" "r" "b" Sample.w0).
    rewrite Hrun. cbn [fst]. f_equal.
    set (f0 := body_frame Sample5.env_no_listing "c" Sample.w0) in *.
    set (f1 := snd (os (uuid4_hex Sample5.env_no_listing) f0)).
    set (f2 := snd (os (run_cmd Sample5.env_no_listing
                          (ytdlp_cmd "https://example.org/v3"
                             (Path.join Sample.tmpdir Sample.hex))) f1)).
    destruct (Hstep (Exn "[Errno 5] Input/output error")
                (snd (os (listdir Sample5.env_no_listing Sample.tmpdir) f2)))
      as [-> _]; [|reflexivity].
    apply (raises_listing _ _ _ _ _ _ _ Sample.hex f1 "" "" f2); vm_compute; reflexivity.
  - destruct (process_item_captures Sample5.env_no_ffmpeg "https://example.org/v3" "c"
                "music" "u" "r" "b" Sample.w0) as (r & w' & Hrun & Hstep & _);
      [reflexivity|].
    change (process_item Sample5.env_no_ffmpeg Sample.item_c "music" "u" "r" "b" Sample.w0)
      with (process_item Sample5.env_no_ffmpeg ("https://example.org/v3", "c")
              "music" "u" "r" "b" Sample.w0).
    rewrite Hrun. cbn [fst]. f_equal.
    set (f0 := body_frame Sample5.env_no_ffmpeg "c" Sample.w0) in *.
    set (f5 := snd (fetch_and_probe Sample5.env_no_ffmpeg "https://example.org/v3"
                      Sample.tmpdir f0)).
    set (f6 := snd (choose_dest Sample5.env_no_ffmpeg "music" f5)).
    destruct (Hstep (Exn "[Errno 8] Exec format error")
                (snd (os (run_cmd Sample5.env_no_ffmpeg
                            (ffmpeg_cmd (Sample.src "webm") "music/c.mp3")) f6)))
      as [-> _]; [|reflexivity].
    apply (raises_transcode _ _ _ _ _ _ _ (Sample.src "webm") "opus" 128000 f5
             "music/c.mp3" f6); vm_compute; reflexivity.
Defined.

(** ** Whole runs of [main]: up to the pool *)

Lemma missing_tools_none E tools : forall missing w,
  (forall tool w', os_fault E (EvWhich tool) w' = None) ->
  (forall tool w', os_which E tool w' = true) ->
  missing_tools E tools missing w
  = (Ret missing, mkWorld (w_fs w) (rev (map EvWhich tools) ++ w_log w)).
Proof.
  induction tools as [|tool rest IH]; intros missing w HE Hw.
  - destruct w. reflexivity.
  - cbn [missing_tools]. unfold which.
    erewrite bind_ret_l by (unfold call; rewrite HE; reflexivity).
    rewrite Hw, IH by assumption. cbn [w_fs w_log map rev].
    now rewrite <- app_assoc.
Qed.

(** A run of [main] on a list that holds items and is not marked goes on, in
    an environment that injects nothing outside the tasks, as the pool
    followed by the end of [main]: up to there it has made the output folder,
    looked for the tools, read the list, printed, and asked for the number
    of processors. *)
Lemma main_reaches_pool E args w text items :
  calm_outside_tasks E ->
  (forall tool w', os_which E tool w' = true) ->
  w_fs w !! arg_list args = Some (File text) ->
  (forall t, w_fs w !! OUTDIR <> Some (File t)) ->
  marked_done (last_non_empty (PyText.splitlines text)) = false ->
  (forall w1, fst (parse_lines (PyText.splitlines text) [] w1) = Ret items) ->
  items <> [] ->
  exists fs before cpu threads,
    cpu = cpu_or_4 (os_cpu_count E (mkWorld fs (before ++ w_log w))) /\
    threads = threads_for (arg_threads args) (Z.of_nat (length items)) cpu /\
    main E args w
    = (do results <- run_pool E threads items;
       finish E args (PyText.splitlines text)
              (last_non_empty (PyText.splitlines text)) results)
        (mkWorld fs (EvPrint (PrPlan (Z.of_nat (length items)) cpu threads)
                     :: EvCpuCount :: before ++ w_log w)) /\
    Forall (fun ev => quiet ev = true) before /\
    fs !! OUTDIR = Some Dir /\
    (forall q, q <> OUTDIR -> fs !! q = w_fs w !! q).
Proof.
  intros HE Hwhich Hlist Hout Hlast Hitems Hsome.
  assert (Hoff : forall ev w', quiet ev = true -> os_fault E ev w' = None).
  { intros ev w' Hq. apply HE. destruct ev; cbn in *; auto; discriminate. }
  destruct (makedirs_ok E OUTDIR w (Hoff (EvMakedirs OUTDIR) w eq_refl) Hout)
    as (fs & Hmk & Hdir & Hfs).
  assert (Hne : arg_list args <> OUTDIR).
  { intros Heq. rewrite Heq in Hlist. now destruct (Hout text). }
  set (w1 := mkWorld fs (EvMakedirs OUTDIR :: w_log w)) in *.
  set (w2 := mkWorld fs (rev (map EvWhich ["yt-dlp"; "ffmpeg"; "ffprobe"]) ++ w_log w1)).
  set (w3 := mkWorld fs (EvRead (arg_list args) :: w_log w2)).
  destruct (parse_lines_world (PyText.splitlines text) [] w3)
    as (its & new & Hparse & Hquiet).
  assert (its = items) as ->.
  { specialize (Hitems w3). rewrite Hparse in Hitems. now injection Hitems. }
  set (before := new ++ EvRead (arg_list args)
                 :: rev (map EvWhich ["yt-dlp"; "ffmpeg"; "ffprobe"])
                 ++ [EvMakedirs OUTDIR]).
  assert (Hlog : new ++ w_log w3 = before ++ w_log w).
  { unfold before. cbn. now rewrite <- app_assoc. }
  exists fs, before. eexists. eexists. split; [reflexivity|]. split; [reflexivity|].
  split; [|split; [|split; assumption]].
  - unfold main, chdir_to_script_root.
    erewrite bind_ret_l by reflexivity.
    erewrite bind_ret_l by exact Hmk.
    erewrite bind_ret_l by reflexivity.
    cbn [w_fs]. fold w1. rewrite Hfs, Hlist by assumption.
    rewrite bool_decide_true by eauto. cbn [negb].
    erewrite bind_ret_l.
    2:{ unfold ensure_tools.
        erewrite bind_ret_l
          by (apply missing_tools_none; [intros; now apply Hoff|assumption]).
        reflexivity. }
    fold w2.
    erewrite bind_ret_l.
    2:{ unfold read_lines_utf8bom, call. rewrite Hoff by reflexivity.
        cbn [w_fs w2]. rewrite Hfs, Hlist by assumption. reflexivity. }
    fold w3. rewrite Hlast.
    erewrite bind_ret_l by exact Hparse.
    destruct items as [|it rest]; [contradiction|].
    erewrite bind_ret_l.
    2:{ unfold cpu_count, call. rewrite HE by (cbn; auto). reflexivity. }
    cbn [w_fs w_log]. rewrite Hlog.
    erewrite bind_ret_l by reflexivity.
    reflexivity.
  - unfold before. apply Forall_app. split; [assumption|]. repeat constructor.
Qed.

(** ** Whole runs of [main]: what the pool and the end add to the log *)

Lemma adds_print (P : event -> Prop) line : P (EvPrint line) -> adds w_log P (print line).
Proof. intros H w. exists [EvPrint line]. split; [reflexivity|]. now constructor. Qed.

Lemma task_not_pool ev : task_event ev -> not_pool ev.
Proof. destruct ev; cbn; auto. Qed.

Lemma adds_task E it : adds w_log not_pool
  (process_item E it OUTDIR GITHUB_USER GITHUB_REPO GITHUB_BRANCH).
Proof.
  apply (adds_weaken _ task_event); [apply task_not_pool|apply adds_process_item].
Qed.

Lemma adds_run_pending E items : adds w_log not_pool (run_pending E items).
Proof.
  induction items as [|it rest IH]; cbn [run_pending]; [apply adds_ret|].
  apply adds_bind; [|intros; exact IH].
  apply adds_try_except; [|intros; apply adds_ret].
  apply adds_bind; [apply adds_task|intros; apply adds_ret].
Qed.

Lemma adds_collect E items : forall results,
  adds w_log not_pool (collect E items results).
Proof.
  induction items as [|it rest IH]; intros results; cbn [collect]; [apply adds_ret|].
  apply adds_bind.
  { apply adds_try_except; [apply adds_task|]. intros e.
    apply adds_bind; [apply adds_run_pending|intros; apply adds_raise]. }
  intros res. apply adds_bind; [|intros; apply IH].
  destruct (success res); apply adds_print; exact I.
Qed.

Lemma adds_write_lines E (P : event -> Prop) path lines :
  (forall p, P (EvMakedirs p)) -> (forall p t, P (EvWrite p t)) ->
  adds w_log P (write_lines_utf8bom E path lines).
Proof.
  intros Hm Hw. unfold write_lines_utf8bom, makedirs.
  apply adds_bind; [|intros]; apply adds_call; auto.
Qed.

Lemma adds_append_line E (P : event -> Prop) path line :
  (forall p t, P (EvAppend p t)) ->
  adds w_log P (append_line_utf8bom E path line).
Proof.
  intros Ha w. unfold append_line_utf8bom. now apply adds_call.
Qed.

Lemma adds_finish E args lines last results :
  adds w_log not_pool (finish E args lines last results).
Proof.
  unfold finish.
  apply adds_bind; [apply adds_write_lines; intros; exact I|]. intros _.
  apply adds_bind; [|intros _; apply adds_bind; [apply adds_print; exact I|]; intros;
                     apply adds_ret].
  destruct (negb (marked_done last)); [|apply adds_ret].
  apply adds_try_except; [apply adds_append_line; intros; exact I|]. intros e.
  unfold swallow. apply adds_try_except; [|intros; apply adds_ret].
  apply adds_write_lines; intros; exact I.
Qed.

(** The pool block logs the creation of the pool first, with the number of
    workers it is given, and no other creation of a pool follows. *)
Lemma pool_block_log E threads items {B} (k : list TaskResult -> M World B) w :
  (forall rs, adds w_log not_pool (k rs)) ->
  exists after,
    w_log (snd ((do results <- run_pool E threads items; k results) w))
    = after ++ EvPool threads :: w_log w /\
    Forall not_pool after.
Proof.
  intros Hk. unfold run_pool.
  set (sem := fun w0 : World => if threads <=? 0 then _ else _).
  pose proof (call_log E (EvPool threads) sem w) as Hlog.
  unfold bind at 1 2.
  destruct (call E (EvPool threads) sem w) as [[order|e] w1]; cbn [snd] in Hlog.
  - assert (Hrest : adds w_log not_pool (do results <- collect E order []; k results)).
    { apply adds_bind; [apply adds_collect|exact Hk]. }
    destruct (Hrest w1) as (after & Hafter & Hall). exists after.
    unfold bind in Hafter. rewrite Hafter, Hlog. split; [reflexivity|assumption].
  - exists []. cbn [snd]. rewrite Hlog. split; [reflexivity|constructor].
Qed.

Lemma threads_for_cases (requested count cpu : Z) :
  (requested <= 0 ->
   threads_for requested count cpu = Z.min count (Z.min (cpu * 3) 24)) /\
  (0 < requested -> threads_for requested count cpu = requested).
Proof.
  unfold threads_for, auto_threads. split; intros H.
  - destruct (requested <=? 0) eqn:Hr; [reflexivity|lia].
  - destruct (requested <=? 0) eqn:Hr; [lia|reflexivity].
Qed.

(** C7.  A run of [main] that has parsed N items, N being at least one,
    creates one pool, and gives it [min(N, min(cpu * 3, 24))] workers when
    the requested number is zero or negative, and the requested number
    otherwise, [cpu] being the number of processors, or 4 when it is not
    known; this is the number it prints before.  For four processors and 1,
    10 and 100 items the automatic number is 1, 10 and 12. *)
Theorem main_pool_workers (E : Env) (args : Args) (w : World) (text : string)
    (items : list WorkItem) (n : option Z) :
  calm_outside_tasks E ->
  (forall tool w', os_which E tool w' = true) ->
  (forall w', os_cpu_count E w' = n) ->
  w_fs w !! arg_list args = Some (File text) ->
  (forall t, w_fs w !! OUTDIR <> Some (File t)) ->
  marked_done (last_non_empty (PyText.splitlines text)) = false ->
  (forall w1, fst (parse_lines (PyText.splitlines text) [] w1) = Ret items) ->
  items <> [] ->
  exists threads before after,
    w_log (snd (main E args w))
    = after ++ EvPool threads
      :: EvPrint (PrPlan (Z.of_nat (length items)) (cpu_or_4 n) threads)
      :: EvCpuCount :: before ++ w_log w /\
    Forall (fun ev => quiet ev = true) before /\
    Forall not_pool after /\
    1 <= Z.of_nat (length items) /\
    (arg_threads args <= 0 ->
     threads = Z.min (Z.of_nat (length items)) (Z.min (cpu_or_4 n * 3) 24)) /\
    (0 < arg_threads args -> threads = arg_threads args) /\
    (arg_threads args <= 0 -> n = Some 4 ->
     (length items = 1%nat -> threads = 1) /\
     (length items = 10%nat -> threads = 10) /\
     (length items = 100%nat -> threads = 12)).
Proof.
  intros HE Hwhich Hcpu Hlist Hout Hlast Hitems Hsome.
  destruct (main_reaches_pool E args w text items HE Hwhich Hlist Hout Hlast Hitems Hsome)
    as (fs & before & cpu & threads & -> & Hthreads & Hmain & Hquiet & _).
  rewrite Hcpu in *.
  destruct (pool_block_log E threads items
              (finish E args (PyText.splitlines text)
                 (last_non_empty (PyText.splitlines text)))
              (mkWorld fs (EvPrint (PrPlan (Z.of_nat (length items)) (cpu_or_4 n) threads)
                           :: EvCpuCount :: before ++ w_log w)))
    as (after & Hlog & Hafter); [intros; apply adds_finish|].
  rewrite <- Hmain in Hlog. cbn [w_log] in Hlog.
  destruct (threads_for_cases (arg_threads args) (Z.of_nat (length items)) (cpu_or_4 n))
    as [Hauto Hasked].
  exists threads, before, after.
  split; [exact Hlog|]. split; [exact Hquiet|]. split; [exact Hafter|].
  split; [destruct items; [contradiction|cbn [length]; lia]|].
  split; [intros H; rewrite Hthreads; now apply Hauto|].
  split; [intros H; rewrite Hthreads; now apply Hasked|].
  intros H ->. rewrite Hthreads, Hauto by assumption. cbn [cpu_or_4 Z.eqb].
  repeat split; intros ->; reflexivity.
Qed.

Lemma main_pool_workers_witness :
  exists threads before after,
    w_log (snd (main Sample.env_ok Sample.args0 Sample.w0))
    = after ++ EvPool threads :: EvPrint (PrPlan 2 4 threads)
      :: EvCpuCount :: before ++ w_log Sample.w0 /\
    Forall not_pool after /\
    threads = 2.
Proof.
  destruct (main_pool_workers Sample.env_ok Sample.args0 Sample.w0
              ("https://example.org/v1 a" +:+ LF +:+ "https://example.org/v2 b")
              [("https://example.org/v1", "a"); ("https://example.org/v2", "b")]
              (Some 4))
    as (threads & before & after & Hlog & _ & Hafter & _ & Hauto & _).
  - intros ev w _. reflexivity.
  - intros tool w'. reflexivity.
  - intros w'. reflexivity.
  - reflexivity.
  - intros t. vm_compute. discriminate.
  - reflexivity.
  - intros w1. reflexivity.
  - discriminate.
  - exists threads, before, after. split; [exact Hlog|]. split; [exact Hafter|].
    rewrite Hauto; [reflexivity|]. cbn. lia.
Defined.

(** ** Whole runs of [main]: the list of results *)

Lemma write_lines_run E path lines w :
  calm_outside_tasks E ->
  (forall t, w_fs w !! folder_of path <> Some (File t)) ->
  w_fs w !! path <> Some Dir ->
  folder_of path <> path ->
  exists fs,
    write_lines_utf8bom E path lines w
    = (Ret tt,
       mkWorld (<[path := File (Py.join LF lines)]> fs)
               (EvWrite path (Py.join LF lines) :: EvMakedirs (folder_of path) :: w_log w)) /\
    fs !! folder_of path = Some Dir /\
    (forall q, q <> folder_of path -> fs !! q = w_fs w !! q).
Proof.
  intros HE Hfolder Hpath Hne.
  destruct (makedirs_ok E (folder_of path) w) as (fs & Hmk & Hdir & Hfs);
    [apply HE; cbn; auto|assumption|].
  exists fs. split; [|split; assumption].
  unfold write_lines_utf8bom. fold (folder_of path).
  erewrite bind_ret_l by exact Hmk.
  unfold call. rewrite HE by (cbn; auto). cbn [w_fs w_log].
  rewrite Hfs by congruence.
  destruct (w_fs w !! path) as [[t|]|]; try reflexivity. now destruct Hpath.
Qed.

(** The end of [main] leaves in the list of results the lines of the
    successful results, when the input list is another file. *)
Lemma finish_writes_manifest E args lines last results w :
  calm_outside_tasks E ->
  (forall t, w_fs w !! "." <> Some (File t)) ->
  w_fs w !! URLLIST_NAME <> Some Dir ->
  arg_list args <> URLLIST_NAME ->
  exists w',
    finish E args lines last results w = (Ret 0, w') /\
    w_fs w' !! URLLIST_NAME = Some (File (Py.join LF (out_lines results))).
Proof.
  intros HE Hdot Hman Hne.
  set (text := Py.join LF (out_lines results)).
  destruct (write_lines_run E URLLIST_NAME (out_lines results) w HE Hdot Hman)
    as (fs & Hwrite & _ & Hfs); [discriminate|].
  change (folder_of URLLIST_NAME) with "." in *. fold text in Hwrite.
  set (w2 := mkWorld _ _) in Hwrite.
  assert (Hheld : w_fs w2 !! URLLIST_NAME = Some (File text))
    by apply lookup_insert_eq.
  assert (Hmark : exists w3,
    (if negb (marked_done last) then
       try_except (append_line_utf8bom E (arg_list args) "done")
         (fun _ => swallow (write_lines_utf8bom E (arg_list args) (lines ++ ["done"])))
     else ret tt) w2 = (Ret tt, w3) /\
    w_fs w3 !! URLLIST_NAME = Some (File text)).
  { destruct (negb (marked_done last)).
    - now apply mark_done_keeps.
    - exists w2. split; [reflexivity|assumption]. }
  destruct Hmark as (w3 & Hmark & Hkept).
  eexists. split.
  - unfold finish. erewrite bind_ret_l by exact Hwrite.
    erewrite bind_ret_l by exact Hmark.
    unfold bind, print, ret. reflexivity.
  - exact Hkept.
Qed.

(** [main] is its first part followed, when that part does not end the run,
    by the pool and the end. *)
Lemma bind_assoc {S A B C} (m : M S A) (f : A -> M S B) (g : B -> M S C) s :
  bind (bind m f) g s = bind m (fun a => bind (f a) g) s.
Proof. unfold bind. now destruct (m s) as [[a|e] s1]. Qed.

Lemma bind_ext {S A B} (m : M S A) (k1 k2 : A -> M S B) s :
  (forall a s1, m s = (Ret a, s1) -> k1 a s1 = k2 a s1) ->
  bind m k1 s = bind m k2 s.
Proof.
  intros H. unfold bind. destruct (m s) as [[a|e] s1]; [now apply H|reflexivity].
Qed.

Lemma bind_ret_inv {S A B} (m : M S A) (k : A -> M S B) s b s' :
  bind m k s = (Ret b, s') ->
  exists a s1, m s = (Ret a, s1) /\ k a s1 = (Ret b, s').
Proof.
  unfold bind. destruct (m s) as [[a|e] s1]; [eauto|discriminate].
Qed.

Lemma main_split E args w :
  main E args w
  = (do x <- main_to_pool E args;
     match x with
     | inl code => ret code
     | inr (lines, last, items, threads) =>
         do results <- run_pool E threads items;
         finish E args lines last results
     end) w.
Proof.
  unfold main, main_to_pool.
  rewrite bind_assoc. apply bind_ext. intros _ w0 _.
  rewrite bind_assoc. apply bind_ext. intros _ w1 _.
  rewrite bind_assoc. apply bind_ext. intros there w2 _.
  destruct (negb there).
  { rewrite bind_assoc. apply bind_ext. reflexivity. }
  rewrite bind_assoc. apply bind_ext. intros _ w3 _.
  rewrite bind_assoc. apply bind_ext. intros lines w4 _. cbn zeta.
  destruct (marked_done (last_non_empty lines)).
  { rewrite bind_assoc. apply bind_ext. reflexivity. }
  rewrite bind_assoc. apply bind_ext. intros items w5 _.
  destruct items as [|it rest].
  { rewrite bind_assoc. apply bind_ext. reflexivity. }
  rewrite bind_assoc. apply bind_ext. intros n w6 _.
  rewrite bind_assoc. apply bind_ext. reflexivity.
Qed.

(** A run gets to the pool with a list that is not marked and holds an
    item. *)
Lemma main_to_pool_unmarked E args w lines last items threads w_p :
  main_to_pool E args w = (Ret (inr (lines, last, items, threads)), w_p) ->
  last = last_non_empty lines /\ marked_done last = false /\ items <> [].
Proof.
  unfold main_to_pool. intros H.
  apply bind_ret_inv in H as (_ & w0 & _ & H).
  apply bind_ret_inv in H as (_ & w1 & _ & H).
  apply bind_ret_inv in H as (there & w2 & _ & H).
  destruct (negb there).
  { apply bind_ret_inv in H as (_ & w3 & _ & H). discriminate. }
  apply bind_ret_inv in H as (_ & w3 & _ & H).
  apply bind_ret_inv in H as (lines' & w4 & _ & H). cbn zeta in H.
  destruct (marked_done (last_non_empty lines')) eqn:Hmarked.
  { apply bind_ret_inv in H as (_ & w5 & _ & H). discriminate. }
  apply bind_ret_inv in H as (items' & w5 & _ & H).
  destruct items' as [|it rest].
  { apply bind_ret_inv in H as (_ & w6 & _ & H). discriminate. }
  apply bind_ret_inv in H as (n & w6 & _ & H).
  apply bind_ret_inv in H as (_ & w7 & _ & H).
  injection H as <- <- <- _ _. auto.
Qed.

(** A run whose pool returns goes on with the end of [main]. *)
Lemma main_after_pool E args w lines last items threads w_p results w_t :
  main_to_pool E args w = (Ret (inr (lines, last, items, threads)), w_p) ->
  run_pool E threads items w_p = (Ret results, w_t) ->
  main E args w = finish E args lines last results w_t.
Proof.
  intros Hpre Hpool. rewrite main_split.
  erewrite bind_ret_l by exact Hpre. cbn beta iota.
  now erewrite bind_ret_l by exact Hpool.
Qed.

(** C6, as the code has it.  In a run of [main] in which the tasks have all
    completed, on a list that is another file than the list of results, the
    list of results ends up with one line for each successful result and none
    for a failed one, in the order of the results, each line being
    [boombox.serverurllist "<file>,<cdn>"]; the file holds these lines and
    nothing of what it held before. *)
Theorem main_writes_manifest (E : Env) (args : Args) (w : World)
    (lines : list string) (last : option string) (items : list WorkItem)
    (threads : Z) (w_p : World) (results : list TaskResult) (w_t : World) :
  calm_outside_tasks E ->
  main_to_pool E args w = (Ret (inr (lines, last, items, threads)), w_p) ->
  run_pool E threads items w_p = (Ret results, w_t) ->
  (forall t, w_fs w_t !! "." <> Some (File t)) ->
  w_fs w_t !! URLLIST_NAME <> Some Dir ->
  normal_path (arg_list args) = true ->
  arg_list args <> URLLIST_NAME ->
  exists w',
    main E args w = (Ret 0, w') /\
    w_fs w' !! URLLIST_NAME = Some (File (Py.join LF (out_lines results))) /\
    manifest_of results (out_lines results) /\
    length (out_lines results)
      = length (filter (fun r => success r = true) results) /\
    (forall r u, cdn r = Some u ->
       manifest_line r
       = "boombox.serverurllist " +:+ String dquote (file r) +:+ "," +:+ u
         +:+ String dquote "").
Proof.
  intros HE Hpre Hpool Hdot Hman _ Hne.
  destruct (finish_writes_manifest E args lines last results w_t HE Hdot Hman Hne)
    as (w' & Hfinish & Hheld).
  exists w'. split; [|split; [exact Hheld|split; [|split]]].
  - now rewrite (main_after_pool _ _ _ _ _ _ _ _ _ _ Hpre Hpool).
  - apply out_lines_manifest.
  - apply manifest_of_length, out_lines_manifest.
  - intros r u Hu. unfold manifest_line. now rewrite Hu.
Qed.

Lemma main_writes_manifest_witness :
  exists w',
    main Sample.env_ok Sample.args0 Sample5.w_one = (Ret 0, w') /\
    w_fs w' !! URLLIST_NAME = Some (File (manifest_line Sample5.result_c)).
Proof.
  destruct (main_writes_manifest Sample.env_ok Sample.args0 Sample5.w_one
              ["https://example.org/v3 c"] (Some "https://example.org/v3 c")
              [Sample.item_c] 1
              (snd (main_to_pool Sample.env_ok Sample.args0 Sample5.w_one))
              [Sample5.result_c]
              (snd (run_pool Sample.env_ok 1 [Sample.item_c]
                      (snd (main_to_pool Sample.env_ok Sample.args0 Sample5.w_one)))))
    as (w' & Hrun & Hheld & _).
  - intros ev w _. reflexivity.
  - vm_compute. reflexivity.
  - vm_compute. reflexivity.
  - intros t. vm_compute. discriminate.
  - vm_compute. discriminate.
  - reflexivity.
  - discriminate.
  - exists w'. split; [exact Hrun|exact Hheld].
Defined.

(** C6 as stated fails when the list that [main] is given is the list of
    results itself: the one entry is downloaded, its line is written over the
    list, and [done] is then appended to that file, which ends up with two
    lines for one successful result. *)
Lemma manifest_gets_done_line :
  fst (main Sample.env_ok Sample5.args_same Sample5.w_same) = Ret 0 /\
  In (EvPrint (PrSummary 1 0))
     (w_log (snd (main Sample.env_ok Sample5.args_same Sample5.w_same))) /\
  w_fs (snd (main Sample.env_ok Sample5.args_same Sample5.w_same)) !! URLLIST_NAME
  = Some (File (manifest_line Sample5.result_c +:+ LF +:+ "done")) /\
  PyText.splitlines (manifest_line Sample5.result_c +:+ LF +:+ "done")
  = [manifest_line Sample5.result_c; "done"] /\
  out_lines [Sample5.result_c] = [manifest_line Sample5.result_c].
Proof.
  split; [vm_compute; reflexivity|].
  split; [vm_compute; auto|].
  split; [vm_compute; reflexivity|].
  split; vm_compute; reflexivity.
Qed.

(** ** Whole runs of [main]: marking the list *)

(** The end of [main] on a list that is not marked: [done] is appended, after
    a line feed when the size of the file is not zero; [w_a] is the world in
    which the size is asked. *)
Lemma finish_marks E args lines last results w old :
  calm_outside_tasks E ->
  (forall t, w_fs w !! "." <> Some (File t)) ->
  w_fs w !! URLLIST_NAME <> Some Dir ->
  arg_list args <> URLLIST_NAME -> arg_list args <> "." ->
  w_fs w !! arg_list args = Some (File old) ->
  marked_done last = false ->
  exists w' w_a,
    finish E args lines last results w = (Ret 0, w') /\
    w_fs w_a !! arg_list args = Some (File old) /\
    w_fs w' !! arg_list args
    = Some (File (old +:+ (if 0 <? os_getsize E (arg_list args) w_a then LF else "")
                  +:+ "done")).
Proof.
  intros HE Hdot Hman Hne Hnd Hlist Hlast.
  destruct (write_lines_run E URLLIST_NAME (out_lines results) w HE Hdot Hman)
    as (fs & Hwrite & _ & Hfs); [discriminate|].
  change (folder_of URLLIST_NAME) with "." in *.
  set (w1 := mkWorld _ _) in Hwrite.
  assert (Hheld : w_fs w1 !! arg_list args = Some (File old)).
  { unfold w1. cbn [w_fs]. rewrite lookup_insert_ne by congruence.
    now rewrite Hfs. }
  eexists. exists w1. split; [|split; [exact Hheld|]].
  - unfold finish. erewrite bind_ret_l by exact Hwrite.
    rewrite Hlast. cbn [negb].
    erewrite bind_ret_l.
    2:{ unfold try_except, append_line_utf8bom, call. rewrite HE by (cbn; auto).
        rewrite Hheld. reflexivity. }
    unfold bind, print, ret. reflexivity.
  - cbn [w_fs]. apply lookup_insert_eq.
Qed.

(** X12.  In a run of [main] on a list that is not marked, once the tasks
    have all completed, [done] is appended to the list, which is another file
    than the list of results: after a line feed when the file holds some
    text, a file with text having a size that is not zero.  The list is then
    one that the next run takes as done. *)
Theorem main_marks_list (E : Env) (args : Args) (w : World)
    (lines : list string) (last : option string) (items : list WorkItem)
    (threads : Z) (w_p : World) (results : list TaskResult) (w_t : World)
    (old : string) :
  calm_outside_tasks E ->
  main_to_pool E args w = (Ret (inr (lines, last, items, threads)), w_p) ->
  run_pool E threads items w_p = (Ret results, w_t) ->
  (forall t, w_fs w_t !! "." <> Some (File t)) ->
  w_fs w_t !! URLLIST_NAME <> Some Dir ->
  normal_path (arg_list args) = true ->
  arg_list args <> URLLIST_NAME ->
  w_fs w_t !! arg_list args = Some (File old) ->
  (forall w' t, w_fs w' !! arg_list args = Some (File t) -> t <> "" ->
                0 < os_getsize E (arg_list args) w') ->
  exists w' sep,
    main E args w = (Ret 0, w') /\
    w_fs w' !! arg_list args = Some (File (old +:+ sep +:+ "done")) /\
    (old <> "" -> sep = LF) /\
    (sep = LF \/ sep = "") /\
    marked_done (last_non_empty (PyText.splitlines (old +:+ sep +:+ "done"))) = true.
Proof.
  intros HE Hpre Hpool Hdot Hman Hnormal Hne Hlist Hsize.
  destruct (main_to_pool_unmarked _ _ _ _ _ _ _ _ Hpre) as (_ & Hlast & _).
  assert (Hnd : arg_list args <> ".").
  { intros Heq. rewrite Heq in Hnormal. discriminate. }
  destruct (finish_marks E args lines last results w_t old HE Hdot Hman Hne Hnd Hlist Hlast)
    as (w' & w_a & Hfinish & Hheld & Hdone).
  set (sep := if 0 <? os_getsize E (arg_list args) w_a then LF else "") in *.
  assert (Htext : old <> "" -> sep = LF).
  { intros Hold. unfold sep. specialize (Hsize w_a old Hheld Hold).
    apply Z.ltb_lt in Hsize. now rewrite Hsize. }
  exists w', sep. split; [|split; [exact Hdone|split; [exact Htext|split]]].
  - now rewrite (main_after_pool _ _ _ _ _ _ _ _ _ _ Hpre Hpool).
  - unfold sep. destruct (0 <? os_getsize E (arg_list args) w_a); auto.
  - apply marked_text. destruct (String.eqb_spec old "") as [->|Hold].
    + unfold sep. destruct (0 <? os_getsize E (arg_list args) w_a); auto.
    + left. now apply Htext.
Qed.

Lemma main_marks_list_witness :
  exists w',
    main Sample.env_ok Sample.args0 Sample5.w_one = (Ret 0, w') /\
    w_fs w' !! "music_download.txt"
    = Some (File ("https://example.org/v3 c" +:+ LF +:+ "done")).
Proof.
  destruct (main_marks_list Sample.env_ok Sample.args0 Sample5.w_one
              ["https://example.org/v3 c"] (Some "https://example.org/v3 c")
              [Sample.item_c] 1
              (snd (main_to_pool Sample.env_ok Sample.args0 Sample5.w_one))
              [Sample5.result_c]
              (snd (run_pool Sample.env_ok 1 [Sample.item_c]
                      (snd (main_to_pool Sample.env_ok Sample.args0 Sample5.w_one))))
              "https://example.org/v3 c")
    as (w' & sep & Hrun & Hheld & Hsep & _).
  - intros ev w _. reflexivity.
  - vm_compute. reflexivity.
  - vm_compute. reflexivity.
  - intros t. vm_compute. discriminate.
  - vm_compute. discriminate.
  - reflexivity.
  - discriminate.
  - vm_compute. reflexivity.
  - intros w' t _ _. reflexivity.
  - exists w'. split; [exact Hrun|].
    change (arg_list Sample.args0) with "music_download.txt" in Hheld.
    rewrite Hheld, Hsep; [reflexivity|discriminate].
Defined.

(** ** Whole runs of [main]: the last print *)

(** X13.  In a run of [main] whose tasks have all completed, once the list
    of results is written, what fails while the list is marked is ignored:
    whether appending [done] fails, and then whether writing the list again
    fails, [main] goes on to print the numbers of successes and of failures,
    which add up to the number of results, the former being the number of
    lines of the list of results, and returns 0 (the console being taken to
    accept the line). *)
Theorem main_ends_with_counts (E : Env) (args : Args) (w : World)
    (lines : list string) (last : option string) (items : list WorkItem)
    (threads : Z) (w_p : World) (results : list TaskResult) (w_t w1 : World) :
  main_to_pool E args w = (Ret (inr (lines, last, items, threads)), w_p) ->
  run_pool E threads items w_p = (Ret results, w_t) ->
  write_lines_utf8bom E URLLIST_NAME (out_lines results) w_t = (Ret tt, w1) ->
  exists w' ok failed,
    main E args w = (Ret 0, w') /\
    head (w_log w') = Some (EvPrint (PrSummary ok failed)) /\
    (ok + failed)%nat = length results /\
    ok = length (out_lines results).
Proof.
  intros Hpre Hpool Hwrite.
  rewrite (main_after_pool _ _ _ _ _ _ _ _ _ _ Hpre Hpool).
  assert (Hmark : exists w2,
    (if negb (marked_done last) then
       try_except (append_line_utf8bom E (arg_list args) "done")
         (fun _ => swallow (write_lines_utf8bom E (arg_list args) (lines ++ ["done"])))
     else ret tt) w1 = (Ret tt, w2)).
  { destruct (negb (marked_done last)); [apply mark_returns|]. now exists w1. }
  destruct Hmark as (w2 & Hmark).
  eexists. eexists. eexists. split; [|split; [|split]].
  - unfold finish. erewrite bind_ret_l by exact Hwrite.
    erewrite bind_ret_l by exact Hmark.
    unfold bind, print, ret. reflexivity.
  - reflexivity.
  - apply filter_split_length.
  - unfold out_lines. now rewrite length_map.
Qed.

Lemma main_ends_with_counts_witness :
  exists w',
    main Sample3.env_no_mark Sample.args0 Sample5.w_one = (Ret 0, w') /\
    head (w_log w') = Some (EvPrint (PrSummary 1 0)) /\
    w_fs w' !! "music_download.txt" = Some (File "https://example.org/v3 c").
Proof.
  destruct (main_ends_with_counts Sample3.env_no_mark Sample.args0 Sample5.w_one
              ["https://example.org/v3 c"] (Some "https://example.org/v3 c")
              [Sample.item_c] 1
              (snd (main_to_pool Sample3.env_no_mark Sample.args0 Sample5.w_one))
              [Sample5.result_c]
              (snd (run_pool Sample3.env_no_mark 1 [Sample.item_c]
                      (snd (main_to_pool Sample3.env_no_mark Sample.args0 Sample5.w_one))))
              (snd (write_lines_utf8bom Sample3.env_no_mark URLLIST_NAME
                      (out_lines [Sample5.result_c])
                      (snd (run_pool Sample3.env_no_mark 1 [Sample.item_c]
                              (snd (main_to_pool Sample3.env_no_mark Sample.args0
                                      Sample5.w_one)))))))
    as (w' & ok & failed & Hrun & Hhead & _).
  - vm_compute. reflexivity.
  - vm_compute. reflexivity.
  - vm_compute. reflexivity.
  - exists w'. split; [exact Hrun|].
    assert (Hw : w' = snd (main Sample3.env_no_mark Sample.args0 Sample5.w_one))
      by now rewrite Hrun.
    rewrite Hw. split; vm_compute; reflexivity.
Defined.
